(** * ChartInk combined scanner

    A shallow embedding of [combined-chartink-scanner.py] (and of the
    [BrowserManager] of [browser_manager.py]) together with the properties
    of its aggregation and decision engine.

    Conventions of the embedding:
    - Python [str] is [string], a sequence of bytes: its length is
      [len] on ASCII text, which is what ticker symbols are. Python
      [float] is an IEEE value ([spec_float], with its NaN, infinities and
      signed zeros); Python [int] is [Z].
    - Python sets and dicts keyed by symbol are [gset string] and
      [gmap string _]; iterating a set visits [elements] of it.
    - The stock dicts have a fixed set of keys and are records; the
      ['screeners'] dict has exactly the three keys of [SCREENER_URLS] and
      is a record indexed by [ScreenerType], iterated in insertion order.
    - Effects (log records, files, sleeps, the browser registry) are
      threaded through an explicit [world]; exceptions are results.
    - Everything the program obtains from outside (the clock, Selenium, the
      operating system failing) is an argument of the function that asks
      for it. *)

From Stdlib Require Import ZArith String Ascii List Bool Lia.
From Stdlib Require Import SpecFloat.
From stdpp Require Import gmap strings list fin_maps pretty.

(* ===================================================================== *)
(** * Part I: the program                                                 *)
(* ===================================================================== *)

(** ** Exceptions and results *)

(** The exception classes the program raises, catches or lets through.
    [KeyboardInterrupt] derives from [BaseException], every other class
    from [Exception]. *)
Inductive exn_class :=
  | ValueError | TypeError | AttributeError | KeyError | OSError
  | JSONDecodeError | WebDriverException | KeyboardInterrupt.

Record exn := Exn { exn_cls : exn_class; exn_msg : string }.

Definition is_Exception (e : exn) : bool :=
  match exn_cls e with KeyboardInterrupt => false | _ => true end.

Inductive outcome (A : Type) :=
  | Ret (a : A)
  | Raise (e : exn).
Arguments Ret {A} a.
Arguments Raise {A} e.

(** ** The world the program acts on *)

Inductive level := INFO | WARNING | ERROR | CRITICAL.

Record world := World {
  files : gmap string string;      (* path -> text content *)
  log : list (level * string);     (* records emitted through logging *)
  slept : list nat;                (* time.sleep calls, in seconds *)
  drivers : gset string            (* keys of BrowserManager.drivers *)
}.

Definition set_files (f : gmap string string → gmap string string) (w : world) : world :=
  World (f (files w)) (log w) (slept w) (drivers w).
Definition add_log (r : level * string) (w : world) : world :=
  World (files w) (log w ++ [r]) (slept w) (drivers w).
Definition add_sleep (n : nat) (w : world) : world :=
  World (files w) (log w) (slept w ++ [n]) (drivers w).
Definition set_drivers (f : gset string → gset string) (w : world) : world :=
  World (files w) (log w) (slept w) (f (drivers w)).

Definition empty_world : world := World ∅ [] [] ∅.

(** A computation runs in a world and either returns or raises. *)
Definition M (A : Type) : Type := world → outcome A * world.

#[global] Instance M_ret : MRet M := λ A a w, (Ret a, w).
#[global] Instance M_bind : MBind M := λ A B k m w,
  match m w with
  | (Ret a, w') => k a w'
  | (Raise e, w') => (Raise e, w')
  end.

Definition raise {A} (e : exn) : M A := λ w, (Raise e, w).

(** [try: body / except Exception as e: handler e]: a
    [KeyboardInterrupt] is not an [Exception] and passes through. *)
Definition try_except {A} (body : M A) (handler : exn → M A) : M A := λ w,
  match body w with
  | (Ret a, w') => (Ret a, w')
  | (Raise e, w') => if is_Exception e then handler e w' else (Raise e, w')
  end.

(** [try: body / finally: cleanup]. *)
Definition try_finally {A} (body : M A) (cleanup : M unit) : M A := λ w,
  match body w with
  | (Ret a, w') =>
      match cleanup w' with
      | (Ret _, w'') => (Ret a, w'')
      | (Raise e, w'') => (Raise e, w'')
      end
  | (Raise e, w') =>
      match cleanup w' with
      | (Ret _, w'') => (Raise e, w'')
      | (Raise e', w'') => (Raise e', w'')
      end
  end.

Definition logging (l : level) (msg : string) : M unit := λ w, (Ret (), add_log (l, msg) w).

(** [time.sleep(n)]; the caller says whether a [KeyboardInterrupt] arrives
    during the sleep. *)
Definition time_sleep (n : nat) (interrupted : bool) : M unit := λ w,
  if interrupted then (Raise (Exn KeyboardInterrupt ""), add_sleep n w)
  else (Ret (), add_sleep n w).

(** ** Files *)

(** What can go wrong in [with open(path, 'w') as file: json.dump(...)]:
    the open fails and nothing is written, or the dump stops after [n]
    characters and leaves that prefix behind. *)
Inductive write_fault :=
  | WriteOk
  | OpenFails (e : exn)
  | WriteFailsAfter (n : nat) (e : exn).

Definition write_file (path content : string) (f : write_fault) : M unit := λ w,
  match f with
  | WriteOk => (Ret (), set_files <[path := content]> w)
  | OpenFails e => (Raise e, w)
  | WriteFailsAfter n e => (Raise e, set_files <[path := substring 0 n content]> w)
  end.

Definition file_not_found (path : string) : exn :=
  Exn OSError ("No such file or directory: '" +:+ path +:+ "'").

(** [open(path, 'r')] followed by reading the whole file. *)
Definition read_file (path : string) (fault : option exn) : M string := λ w,
  match fault with
  | Some e => (Raise e, w)
  | None =>
      match files w !! path with
      | Some c => (Ret c, w)
      | None => (Raise (file_not_found path), w)
      end
  end.

Definition os_path_exists (path : string) : M bool := λ w,
  (Ret (bool_decide (is_Some (files w !! path))), w).

(** [os.replace(src, dst)]: one step, all or nothing. *)
Definition os_replace (src dst : string) (fault : option exn) : M unit := λ w,
  match fault with
  | Some e => (Raise e, w)
  | None =>
      match files w !! src with
      | Some c => (Ret (), set_files (λ fs, <[dst := c]> (delete src fs)) w)
      | None => (Raise (file_not_found src), w)
      end
  end.

Definition os_remove (path : string) (fault : option exn) : M unit := λ w,
  match fault with
  | Some e => (Raise e, w)
  | None =>
      match files w !! path with
      | Some _ => (Ret (), set_files (delete path) w)
      | None => (Raise (file_not_found path), w)
      end
  end.

(** ** Configuration *)

Inductive ScreenerType := price_crossover_200 | one_hour_rsi | five_min_rsi.

#[global] Instance ScreenerType_eq_dec : EqDecision ScreenerType.
Proof. solve_decision. Defined.

Definition screener_name (k : ScreenerType) : string :=
  match k with
  | price_crossover_200 => "price_crossover_200"
  | one_hour_rsi => "one_hour_rsi"
  | five_min_rsi => "five_min_rsi"
  end.

Definition SCREENER_URLS : list (ScreenerType * string) :=
  [ (price_crossover_200, "https://chartink.com/screener/price-corssover-200");
    (one_hour_rsi, "https://chartink.com/screener/1-hour-rsi-2119");
    (five_min_rsi, "https://chartink.com/screener/5-minutes-rsi-100") ].

Definition MARKET_BULLISH_URL := "https://chartink.com/screener/for-a-bullish-trend".
Definition MARKET_BEARISH_URL := "https://chartink.com/screener/for-a-bearish-trend".
Definition RESULTS_FILE := "combined_scan_results.json".
Definition MARKET_TREND_FILE := "market_trend.json".
Definition SCAN_INTERVAL : nat := 60.

(** ** Dates and times *)

(** The fields of a [datetime] that the program reads; the time zone is the
    same object in every value it compares, so comparison is field by
    field. *)
Record datetime := DateTime {
  year : nat; month : nat; day : nat;
  hour : nat; minute : nat; second : nat; microsecond : nat
}.

Definition is_leap (y : nat) : bool :=
  ((y mod 4 =? 0) && (negb (y mod 100 =? 0) || (y mod 400 =? 0)))%nat.

Definition days_in_month (y m : nat) : nat :=
  match m with
  | 2 => if is_leap y then 29 else 28
  | 4 | 6 | 9 | 11 => 30
  | _ => 31
  end.

Definition days_before_year (y : nat) : nat :=
  let y' := y - 1 in y' * 365 + y' / 4 - y' / 100 + y' / 400.

Definition days_before_month (y m : nat) : nat :=
  sum_list (map (days_in_month y) (seq 1 (m - 1))).

Definition toordinal (d : datetime) : nat :=
  days_before_year (year d) + days_before_month (year d) (month d) + day d.

(** [datetime.weekday()]: Monday is 0, Sunday is 6. *)
Definition weekday (d : datetime) : nat := (toordinal d + 6) mod 7.

(** [now.replace(hour=h, minute=m, second=s)]: the date and the
    microsecond are kept. *)
Definition replace_hms (d : datetime) (h m s : nat) : datetime :=
  DateTime (year d) (month d) (day d) h m s (microsecond d).

Definition dt_fields (d : datetime) : list nat :=
  [year d; month d; day d; hour d; minute d; second d; microsecond d].

Fixpoint lex_compare (a b : list nat) : comparison :=
  match a, b with
  | [], [] => Eq
  | [], _ :: _ => Lt
  | _ :: _, [] => Gt
  | x :: a', y :: b' =>
      match Nat.compare x y with
      | Eq => lex_compare a' b'
      | c => c
      end
  end.

(** [a <= b] on datetimes. *)
Definition dt_leb (a b : datetime) : bool :=
  match lex_compare (dt_fields a) (dt_fields b) with
  | Gt => false
  | _ => true
  end.

Definition pad2 (n : nat) : string :=
  if (n <? 10)%nat then "0" +:+ pretty n else pretty n.

Definition pad4 (n : nat) : string :=
  if (n <? 10)%nat then "000" +:+ pretty n
  else if (n <? 100)%nat then "00" +:+ pretty n
  else if (n <? 1000)%nat then "0" +:+ pretty n
  else pretty n.

(** [strftime("%Y-%m-%d %H:%M:%S")]. *)
Definition strftime (d : datetime) : string :=
  pad4 (year d) +:+ "-" +:+ pad2 (month d) +:+ "-" +:+ pad2 (day d) +:+ " " +:+
  pad2 (hour d) +:+ ":" +:+ pad2 (minute d) +:+ ":" +:+ pad2 (second d).

(** [is_market_hours], on the reading [now] of [get_ist_time()]. *)
Definition is_market_hours (now : datetime) : M bool :=
  if (5 <=? weekday now)%nat then
    logging INFO "Market closed - Weekend";;
    mret false
  else
    let market_start := replace_hms now 0 0 0 in
    let market_end := replace_hms now 23 59 0 in
    let is_open := dt_leb market_start now && dt_leb now market_end in
    (if negb is_open then logging INFO "Market closed - Outside trading hours" else mret ());;
    mret is_open.

(** ** Stock records *)

(** The dict [extract_stock_data] builds for one table row. *)
Record RawStock := {
  r_symbol : string;
  r_price : spec_float;
  r_change : spec_float;
  r_volume : Z;
  r_stock_trend : string;
  r_screener_type : ScreenerType
}.

(** The same dict once [filter_stocks_by_market_trend] has added its
    ['market_bias'] key; this is what the results hold. *)
Record Stock := {
  symbol : string;
  price : spec_float;
  change : spec_float;
  volume : Z;
  stock_trend : string;
  screener_type : ScreenerType;
  market_bias : string
}.

Record CombinedStock := {
  c_symbol : string;
  c_price : spec_float;
  c_change : spec_float;
  c_volume : Z;
  c_stock_trend : string;
  c_market_bias : string;
  screeners_found_in : list ScreenerType;
  match_count : nat
}.

(** [results_data['screeners']]: one list per key of [SCREENER_URLS]. *)
Record Screeners := {
  of_price_crossover_200 : list Stock;
  of_one_hour_rsi : list Stock;
  of_five_min_rsi : list Stock
}.

Definition screeners_get (s : Screeners) (k : ScreenerType) : list Stock :=
  match k with
  | price_crossover_200 => of_price_crossover_200 s
  | one_hour_rsi => of_one_hour_rsi s
  | five_min_rsi => of_five_min_rsi s
  end.

Definition screeners_set (s : Screeners) (k : ScreenerType) (v : list Stock) : Screeners :=
  match k with
  | price_crossover_200 => Build_Screeners v (of_one_hour_rsi s) (of_five_min_rsi s)
  | one_hour_rsi => Build_Screeners (of_price_crossover_200 s) v (of_five_min_rsi s)
  | five_min_rsi => Build_Screeners (of_price_crossover_200 s) (of_one_hour_rsi s) v
  end.

(** [dict.items()]: the keys in the order they were inserted. *)
Definition screeners_items (s : Screeners) : list (ScreenerType * list Stock) :=
  [ (price_crossover_200, of_price_crossover_200 s);
    (one_hour_rsi, of_one_hour_rsi s);
    (five_min_rsi, of_five_min_rsi s) ].

Record ResultsData := {
  last_update : string;
  rd_market_bias : string;
  screeners : Screeners;
  combined_stocks : list CombinedStock
}.

Record MarketData := {
  md_timestamp : string;
  md_market_bias : string;
  bullish_indices : list string;
  bearish_indices : list string
}.

Definition empty_results : ResultsData :=
  {| last_update := ""; rd_market_bias := "unknown";
     screeners := Build_Screeners [] [] [];
     combined_stocks := [] |}.

(** What [json.load] returns when it returns: the text of the results
    file may be JSON of the shape the program writes, which is a state, or
    JSON of any other shape ([{}], a list, a state with a key missing),
    which [load_current_results] hands on as it is. *)
Inductive json_value :=
  | JsonResults (data : ResultsData)
  | JsonOther.

(** ** What the program takes from the Python runtime *)

(** The text conversions and the JSON codec are Python's, not the
    program's; the program is modelled over any implementation of them.
    [None] stands for the conversion raising. *)
Class Builtins := {
  py_float : string → option spec_float;          (* float(s) *)
  py_int : string → option Z;                     (* int(s) *)
  str_of_float : spec_float → string;             (* str(x), in f-strings *)
  json_dumps_results : ResultsData → string;      (* json.dump(data, file, indent=2) *)
  json_loads_results : string → option json_value;   (* json.load(file) *)
  json_dumps_trend : MarketData → string
}.

(** ** Pure code that may raise *)

#[global] Instance outcome_ret : MRet outcome := λ A a, Ret a.
#[global] Instance outcome_bind : MBind outcome := λ A B k o,
  match o with
  | Ret a => k a
  | Raise e => Raise e
  end.

#[global] Instance exn_class_eq_dec : EqDecision exn_class.
Proof. solve_decision. Defined.

(** [try: body / except (C1, C2, ...) as e: handler e]. *)
Definition catch {A} (classes : list exn_class) (body : outcome A)
    (handler : exn → outcome A) : outcome A :=
  match body with
  | Ret a => Ret a
  | Raise e => if bool_decide (exn_cls e ∈ classes) then handler e else Raise e
  end.

Definition lift {A} (o : outcome A) : M A := λ w, (o, w).

(** ** Text helpers *)

(** [s.replace(c, '')] for a one-character [c]. *)
Fixpoint str_remove (c : ascii) (s : string) : string :=
  match s with
  | EmptyString => EmptyString
  | String a s' => if Ascii.eqb a c then str_remove c s' else String a (str_remove c s')
  end.

Definition ascii_upper (a : ascii) : ascii :=
  let n := nat_of_ascii a in
  if ((97 <=? n) && (n <=? 122))%nat then ascii_of_nat (n - 32) else a.

Definition ascii_lower (a : ascii) : ascii :=
  let n := nat_of_ascii a in
  if ((65 <=? n) && (n <=? 90))%nat then ascii_of_nat (n + 32) else a.

Fixpoint str_map (f : ascii → ascii) (s : string) : string :=
  match s with
  | EmptyString => EmptyString
  | String a s' => String (f a) (str_map f s')
  end.

(** [s.capitalize()] and [s.upper()] on ASCII text. *)
Definition capitalize (s : string) : string :=
  match s with
  | EmptyString => EmptyString
  | String a s' => String (ascii_upper a) (str_map ascii_lower s')
  end.

Definition upper (s : string) : string := str_map ascii_upper s.

(** [sep.join(l)]. *)
Definition join (sep : string) (l : list string) : string := String.concat sep l.

Section Program.
Context `{Builtins}.

(** ** Record validator and trend classifier *)

Definition float_of (s : string) : outcome spec_float :=
  match py_float s with
  | Some x => Ret x
  | None => Raise (Exn ValueError ("could not convert string to float: '" +:+ s +:+ "'"))
  end.

Definition int_of (s : string) : outcome Z :=
  match py_int s with
  | Some n => Ret n
  | None => Raise (Exn ValueError ("invalid literal for int() with base 10: '" +:+ s +:+ "'"))
  end.

(** Truth value of an optional text argument: [None] and [''] are false. *)
Definition truthy (v : option string) : bool :=
  match v with
  | Some s => negb (String.eqb s "")
  | None => false
  end.

(** [validate_stock_data(symbol, price, change=None, volume=None)]. The
    text arguments are a [str] or [None]; the [AttributeError] the source
    also catches can only come from an argument of another type. *)
Definition validate_stock_data (symbol : string) (price change volume : option string)
    : outcome bool :=
  if String.eqb symbol "" || (String.length symbol <? 2)%nat then
    Raise (Exn ValueError ("Invalid symbol: " +:+ symbol))
  else
    catch [ValueError; AttributeError]
      ((if truthy price
        then float_of (str_remove "," (default "" price)) ≫= λ _, mret ()
        else mret ());;
       (if truthy change
        then float_of (str_remove "," (str_remove "%" (default "" change))) ≫= λ _, mret ()
        else mret ());;
       (if truthy volume
        then int_of (str_remove "," (default "" volume)) ≫= λ _, mret ()
        else mret ());;
       mret true)
      (λ e, Raise (Exn ValueError ("Invalid value format: " +:+ exn_msg e))).

(** The values [determine_stock_trend] may be handed. *)
Inductive pyval :=
  | PyNone
  | PyStr (s : string)
  | PyFloat (x : spec_float)
  | PyInt (n : Z).

(** [v > 0]. *)
Definition gt_zero (v : pyval) : outcome bool :=
  match v with
  | PyFloat x => Ret (SFltb (S754_zero false) x)
  | PyInt n => Ret (0 <? n)%Z
  | PyStr _ => Raise (Exn TypeError "'>' not supported between instances of 'str' and 'int'")
  | PyNone => Raise (Exn TypeError "'>' not supported between instances of 'NoneType' and 'int'")
  end.

Definition determine_stock_trend (change : pyval) : outcome string :=
  catch [ValueError; TypeError]
    (change_val ← match change with
                  | PyStr s => float_of s ≫= λ x, mret (PyFloat x)
                  | _ => mret change
                  end;
     b ← gt_zero change_val;
     mret (if b : bool then "bullish" else "bearish"))
    (λ _, Ret "unknown").

(** ** Reading the result table *)

(** The four cell texts of a row, already stripped. *)
Record raw_row := {
  cell_symbol : string;
  cell_change : string;
  cell_price : string;
  cell_volume : string
}.

(** Locating the cells of a row either yields them or raises. *)
Inductive row_read :=
  | RowCells (r : raw_row)
  | RowFails (e : exn).

(** Waiting for the table either times out or yields its rows. *)
Inductive table_read :=
  | TableFails (e : exn)
  | TableRows (rows : list row_read).

Definition extracted_message (k : ScreenerType) (s : RawStock) : string :=
  "Extracted from " +:+ screener_name k +:+ ": " +:+ r_symbol s +:+ " at ₹" +:+
  str_of_float (r_price s) +:+ " (Change: " +:+ str_of_float (r_change s) +:+
  "%, Volume: " +:+ pretty (r_volume s) +:+ ", Trend: " +:+ r_stock_trend s +:+ ")".

Definition extract_row (k : ScreenerType) (r : row_read) (stocks : list RawStock)
    : M (list RawStock) :=
  try_except
    (cells ← match r with
             | RowCells c => mret c
             | RowFails e => raise e
             end;
     ok ← lift (validate_stock_data (cell_symbol cells) (Some (cell_price cells))
                  (Some (cell_change cells)) (Some (cell_volume cells)));
     if ok : bool then
       price ← lift (float_of (str_remove "," (cell_price cells)));
       change ← lift (float_of (str_remove "," (str_remove "%" (cell_change cells))));
       volume ← lift (int_of (str_remove "," (cell_volume cells)));
       stock_trend ← lift (determine_stock_trend (PyFloat change));
       let stock := {| r_symbol := cell_symbol cells; r_price := price;
                       r_change := change; r_volume := volume;
                       r_stock_trend := stock_trend; r_screener_type := k |} in
       logging INFO (extracted_message k stock);;
       mret (stocks ++ [stock])
     else mret stocks)
    (λ e, logging ERROR ("Error processing row: " +:+ exn_msg e);; mret stocks).

Fixpoint extract_rows (k : ScreenerType) (rows : list row_read) (stocks : list RawStock)
    : M (list RawStock) :=
  match rows with
  | [] => mret stocks
  | r :: rows' => stocks' ← extract_row k r stocks; extract_rows k rows' stocks'
  end.

Definition extract_stock_data (table : table_read) (k : ScreenerType) : M (list RawStock) :=
  try_except
    (match table with
     | TableFails e => raise e
     | TableRows rows => extract_rows k rows []
     end)
    (λ e, logging ERROR ("Data extraction failed: " +:+ exn_msg e);; mret []).

(** ** Alignment filter *)

(** [stock['market_bias'] = market_bias]. *)
Definition stamp (bias : string) (s : RawStock) : Stock :=
  {| symbol := r_symbol s; price := r_price s; change := r_change s;
     volume := r_volume s; stock_trend := r_stock_trend s;
     screener_type := r_screener_type s; market_bias := bias |}.

Fixpoint filter_loop (market_bias : string) (stocks : list RawStock)
    (filtered_stocks : list Stock) : M (list Stock) :=
  match stocks with
  | [] => mret filtered_stocks
  | raw :: rest =>
      let stock := stamp market_bias raw in
      if String.eqb market_bias "bullish" && String.eqb (stock_trend stock) "bullish" then
        logging INFO ("ALERT: Bullish stock " +:+ symbol stock +:+
                      " aligns with bullish market");;
        filter_loop market_bias rest (filtered_stocks ++ [stock])
      else if String.eqb market_bias "bearish" && String.eqb (stock_trend stock) "bearish" then
        logging INFO ("ALERT: Bearish stock " +:+ symbol stock +:+
                      " aligns with bearish market");;
        filter_loop market_bias rest (filtered_stocks ++ [stock])
      else if String.eqb market_bias "neutral" then
        logging INFO ("ALERT: " +:+ capitalize (stock_trend stock) +:+ " stock " +:+
                      symbol stock +:+ " in neutral market");;
        filter_loop market_bias rest (filtered_stocks ++ [stock])
      else
        filter_loop market_bias rest filtered_stocks
  end.

(** The dicts of [stocks] are updated in place; the list returned holds
    those very dicts, so it is made of [stamp]ed records. *)
Definition filter_stocks_by_market_trend (stocks : list RawStock) (market_bias : string)
    : M (list Stock) :=
  match stocks with
  | [] => mret []
  | _ =>
      filtered_stocks ← filter_loop market_bias stocks [];
      logging INFO ("Filtered " +:+ pretty (length filtered_stocks) +:+ "/" +:+
                    pretty (length stocks) +:+ " stocks based on " +:+ market_bias +:+
                    " market trend");;
      mret filtered_stocks
  end.

(** ** Driving the browser *)

(** [driver.get(url)] raises, or the wait for the Run Scan button times
    out, or the page is ready. *)
Inductive page_load :=
  | PageReady
  | GetFails (e : exn)
  | ButtonWaitFails (e : exn).

Definition load_page (url : string) (p : page_load) : M bool :=
  try_except
    ((match p with GetFails e => raise e | _ => mret () end);;
     logging INFO ("Accessing " +:+ url +:+ "...");;
     (match p with ButtonWaitFails e => raise e | _ => mret () end);;
     logging INFO "Page loaded successfully";;
     mret true)
    (λ e, logging ERROR ("Page load failed: " +:+ exn_msg e);; mret false).

(** The button never becomes clickable, or the loading indicator never
    goes away, or the scan completes. *)
Inductive scan_run :=
  | ScanDone
  | ClickFails (e : exn)
  | CompletionWaitFails (e : exn).

Definition run_scan (s : scan_run) : M bool :=
  try_except
    ((match s with ClickFails e => raise e | _ => mret () end);;
     logging INFO "Clicked Run Scan button...";;
     (match s with CompletionWaitFails e => raise e | _ => mret () end);;
     logging INFO "Scan completed successfully";;
     mret true)
    (λ e, logging ERROR ("Scan failed: " +:+ exn_msg e);; mret false).

(** ** Market bias *)

(** The index table of a probe page: the wait for it fails, or it has
    rows; reading the symbol cell of a row yields its text or raises
    (a bare [except] skips such a row, whatever was raised). *)
Inductive index_table :=
  | IndexTableFails (e : exn)
  | IndexRows (rows : list (option string)).

Record probe := {
  probe_page : page_load;
  probe_scan : scan_run;
  probe_table : index_table
}.

Definition read_indices (label Label : string) (t : index_table) (indices : list string)
    : M (list string) :=
  try_except
    (match t with
     | IndexTableFails e => raise e
     | IndexRows rows =>
         let indices := indices ++ omap id rows in
         logging INFO (Label +:+ " indices: " +:+ join ", " indices);;
         mret indices
     end)
    (λ e, logging ERROR ("Error extracting " +:+ label +:+ " indices: " +:+ exn_msg e);;
          mret indices).

Definition run_probe (label Label url : string) (p : probe) (indices : list string)
    : M (list string) :=
  loaded ← load_page url (probe_page p);
  if loaded : bool then
    ran ← run_scan (probe_scan p);
    if ran : bool then read_indices label Label (probe_table p) indices
    else mret indices
  else mret indices.

Definition key_indices : list string := ["NIFTY"; "BANKNIFTY"; "NIFTYFINSERVICE"].

(** [sum(1 for idx in key_indices if idx in indices)]. *)
Definition key_count (indices : list string) : nat :=
  length (filter (λ idx, idx ∈ indices) key_indices).

Definition check_market_trend (bullish_probe bearish_probe : probe) (now : datetime)
    (trend_write : write_fault) : M string :=
  let market_bias := "unknown" in
  let bullish_indices := [] in
  let bearish_indices := [] in
  bullish_indices ← run_probe "bullish" "Bullish" MARKET_BULLISH_URL bullish_probe bullish_indices;
  bearish_indices ← run_probe "bearish" "Bearish" MARKET_BEARISH_URL bearish_probe bearish_indices;
  let bullish_count := key_count bullish_indices in
  let bearish_count := key_count bearish_indices in
  let market_bias :=
    if (bearish_count <? bullish_count)%nat then "bullish"
    else if (bullish_count <? bearish_count)%nat then "bearish"
    else "neutral" in
  logging INFO ("Market bias determined as: " +:+ upper market_bias);;
  let market_data := {| md_timestamp := strftime now;
                        md_market_bias := market_bias;
                        bullish_indices := bullish_indices;
                        bearish_indices := bearish_indices |} in
  write_file MARKET_TREND_FILE (json_dumps_trend market_data) trend_write;;
  mret market_bias.

(** ** Cross-source aggregation *)

(** [{stock['symbol'] for stock in stocks}]. *)
Definition symbols_of (stocks : list Stock) : gset string :=
  list_to_set (map symbol stocks).

(** [if s: log; combined_symbols.update(s)]. *)
Definition update_if_any (what : string) (s combined_symbols : gset string)
    : M (gset string) :=
  if decide (s = ∅) then mret combined_symbols
  else
    logging INFO ("Symbols in " +:+ what +:+ ": " +:+ join ", " (elements s));;
    mret (combined_symbols ∪ s).

(** One step of filling [all_stocks_by_symbol]. *)
Definition index_stock (all_stocks_by_symbol : gmap string (list Stock)) (stock : Stock)
    : gmap string (list Stock) :=
  let m :=
    if decide (is_Some (all_stocks_by_symbol !! symbol stock)) then all_stocks_by_symbol
    else <[symbol stock := []]> all_stocks_by_symbol in
  <[symbol stock := default [] (m !! symbol stock) ++ [stock]]> m.

Definition index_all (s : Screeners) : gmap string (list Stock) :=
  foldl (λ m item, foldl index_stock m (snd item)) ∅ (screeners_items s).

Definition combine (sym : string) (stock_instances : list Stock) (base_stock : Stock)
    : CombinedStock :=
  let found := map screener_type stock_instances in
  {| c_symbol := sym;
     c_price := price base_stock;
     c_change := change base_stock;
     c_volume := volume base_stock;
     c_stock_trend := stock_trend base_stock;
     c_market_bias := market_bias base_stock;
     screeners_found_in := found;
     match_count := length found |}.

Fixpoint combine_loop (symbols : list string) (all_stocks_by_symbol : gmap string (list Stock))
    (combined_stocks : list CombinedStock) : M (list CombinedStock) :=
  match symbols with
  | [] => mret combined_stocks
  | sym :: rest =>
      let stock_instances := default [] (all_stocks_by_symbol !! sym) in
      match stock_instances with
      | [] => combine_loop rest all_stocks_by_symbol combined_stocks
      | base_stock :: _ =>
          let combined_stock := combine sym stock_instances base_stock in
          logging INFO ("Combined stock: " +:+ sym +:+ " found in " +:+
                        pretty (match_count combined_stock) +:+ " screeners");;
          combine_loop rest all_stocks_by_symbol (combined_stocks ++ [combined_stock])
      end
  end.

(** In Python [a & b - c] is [a & (b - c)]. *)
Definition find_stocks_in_multiple_screeners (results_data : ResultsData)
    : M (list CombinedStock) :=
  let price_crossover_symbols := symbols_of (of_price_crossover_200 (screeners results_data)) in
  let one_hour_rsi_symbols := symbols_of (of_one_hour_rsi (screeners results_data)) in
  let five_min_rsi_symbols := symbols_of (of_five_min_rsi (screeners results_data)) in
  let combined_symbols : gset string := ∅ in
  let symbols_in_all := price_crossover_symbols ∩ one_hour_rsi_symbols ∩ five_min_rsi_symbols in
  combined_symbols ← update_if_any "all three screeners" symbols_in_all combined_symbols;
  let symbols_in_pc_and_1h :=
    price_crossover_symbols ∩ (one_hour_rsi_symbols ∖ five_min_rsi_symbols) in
  combined_symbols ←
    update_if_any "price_crossover and one_hour_rsi" symbols_in_pc_and_1h combined_symbols;
  let symbols_in_pc_and_5m :=
    price_crossover_symbols ∩ (five_min_rsi_symbols ∖ one_hour_rsi_symbols) in
  combined_symbols ←
    update_if_any "price_crossover and five_min_rsi" symbols_in_pc_and_5m combined_symbols;
  let symbols_in_1h_and_5m :=
    one_hour_rsi_symbols ∩ (five_min_rsi_symbols ∖ price_crossover_symbols) in
  combined_symbols ←
    update_if_any "one_hour_rsi and five_min_rsi" symbols_in_1h_and_5m combined_symbols;
  let all_stocks_by_symbol := index_all (screeners results_data) in
  combine_loop (elements combined_symbols) all_stocks_by_symbol [].

(** ** Persistent state *)

Definition initialize_results_file (init_write : write_fault) : M unit :=
  try_except
    (present ← os_path_exists RESULTS_FILE;
     (if negb present
      then write_file RESULTS_FILE (json_dumps_results empty_results) init_write
      else mret ());;
     logging INFO ("Results file initialized: " +:+ RESULTS_FILE))
    (λ e, logging ERROR ("Error initializing results file: " +:+ exn_msg e);; raise e).

(** What may fail while saving: writing the temporary file, the replace,
    and the removal of the temporary file in the handler. *)
Record save_faults := {
  temp_write : write_fault;
  replace_fault : option exn;
  remove_fault : option exn
}.

Definition no_save_faults : save_faults :=
  {| temp_write := WriteOk; replace_fault := None; remove_fault := None |}.

Definition save_scan_results (data : ResultsData) (f : save_faults) : M unit :=
  let temp_file := RESULTS_FILE +:+ ".tmp" in
  try_except
    (write_file temp_file (json_dumps_results data) (temp_write f);;
     os_replace temp_file RESULTS_FILE (replace_fault f);;
     logging INFO "Successfully saved scan results to file")
    (λ e, logging ERROR ("Error saving to results file: " +:+ exn_msg e);;
          present ← os_path_exists temp_file;
          (if present : bool then os_remove temp_file (remove_fault f) else mret ());;
          raise e).

(** Whatever [json.load] returns is returned, with no look at its
    shape. *)
Definition load_current_results (read_fault : option exn) : M json_value :=
  try_except
    (present ← os_path_exists RESULTS_FILE;
     if present : bool then
       text ← read_file RESULTS_FILE read_fault;
       match json_loads_results text with
       | Some data => mret data
       | None => raise (Exn JSONDecodeError "Expecting value")
       end
     else mret (JsonResults empty_results))
    (λ e, logging ERROR ("Error loading results file: " +:+ exn_msg e);;
          mret (JsonResults empty_results)).

(** ** One screener *)

Record screener_scan := {
  scan_page : page_load;
  scan_trigger : scan_run;
  scan_table : table_read
}.

Definition set_screener (results_data : ResultsData) (k : ScreenerType) (v : list Stock)
    : ResultsData :=
  {| last_update := last_update results_data;
     rd_market_bias := rd_market_bias results_data;
     screeners := screeners_set (screeners results_data) k v;
     combined_stocks := combined_stocks results_data |}.

(** The two-second wait for the table is never cut short here: an
    interruption is let in at the sleeps of the loop and at the file
    writes. *)
Definition run_screener (s : screener_scan) (k : ScreenerType) (url : string)
    (market_bias : string) (results_data : ResultsData) : M ResultsData :=
  logging INFO ("Running " +:+ screener_name k +:+ " screener...");;
  loaded ← load_page url (scan_page s);
  if loaded : bool then
    ran ← run_scan (scan_trigger s);
    if ran : bool then
      time_sleep 2 false;;
      all_stock_data ← extract_stock_data (scan_table s) k;
      match all_stock_data with
      | _ :: _ =>
          filtered_stock_data ← filter_stocks_by_market_trend all_stock_data market_bias;
          let results_data := set_screener results_data k filtered_stock_data in
          logging INFO (screener_name k +:+ " scan completed. Found " +:+
                        pretty (length filtered_stock_data) +:+ " stocks aligned with " +:+
                        market_bias +:+ " market bias");;
          mret results_data
      | [] =>
          logging WARNING ("No stocks found in " +:+ screener_name k +:+ " scan");;
          mret (set_screener results_data k [])
      end
    else
      logging WARNING (screener_name k +:+
                       " scan failed. Will try again in the next cycle.");;
      mret results_data
  else mret results_data.

(** ** The scan loop *)

(** Everything one pass of the loop body obtains from outside. *)
Record cycle_env := {
  now_gate : datetime;            (* get_ist_time() in is_market_hours *)
  now_start : datetime;           (* ... in the "Starting" record *)
  bullish_probe : probe;
  bearish_probe : probe;
  now_trend : datetime;           (* ... in check_market_trend *)
  trend_write : write_fault;
  results_read : option exn;
  now_update : datetime;          (* ... for last_update *)
  scans : ScreenerType → screener_scan;
  save : save_faults;
  sleep_interrupted : bool;
  other_shape : M unit            (* the rest of a pass on JSON of another shape *)
}.

Fixpoint run_screeners (env : cycle_env) (urls : list (ScreenerType * string))
    (market_bias : string) (results_data : ResultsData) : M ResultsData :=
  match urls with
  | [] => mret results_data
  | (k, url) :: rest =>
      results_data ← run_screener (scans env k) k url market_bias results_data;
      run_screeners env rest market_bias results_data
  end.

(** The body of [while True]. The program works on what
    [load_current_results] returned as it is. In JSON of another shape
    than the program writes, some access of the pass may find no key to
    read ([KeyError]) or no dict to index ([TypeError]); which access, if
    any, depends on the value. The embedding follows the pass on a state,
    and takes the rest of a pass on any other value from [env]. *)
Definition scan_cycle (env : cycle_env) : M unit :=
  open ← is_market_hours (now_gate env);
  if negb open then time_sleep 60 (sleep_interrupted env)
  else
    logging INFO ("Starting market trend check at " +:+ strftime (now_start env) +:+ "...");;
    market_bias ← check_market_trend (bullish_probe env) (bearish_probe env)
                    (now_trend env) (trend_write env);
    results_data ← load_current_results (results_read env);
    match results_data with
    | JsonOther => other_shape env
    | JsonResults results_data =>
        let results_data :=
          {| last_update := strftime (now_update env);
             rd_market_bias := market_bias;
             screeners := screeners results_data;
             combined_stocks := combined_stocks results_data |} in
        results_data ← run_screeners env SCREENER_URLS market_bias results_data;
        combined ← find_stocks_in_multiple_screeners results_data;
        let results_data :=
          {| last_update := last_update results_data;
             rd_market_bias := rd_market_bias results_data;
             screeners := screeners results_data;
             combined_stocks := combined |} in
        save_scan_results results_data (save env);;
        logging INFO ("Complete scan cycle finished. Found " +:+
                      pretty (length combined) +:+ " stocks in multiple screeners.");;
        logging INFO ("Waiting " +:+ pretty SCAN_INTERVAL +:+ " seconds for next scan...");;
        time_sleep SCAN_INTERVAL (sleep_interrupted env)
    end.

(** [while True: ...], for at most [fuel] passes starting with pass [i];
    it returns only when the fuel is spent, and then the loop is still
    going. *)
Fixpoint scan_loop (fuel : nat) (envs : nat → cycle_env) (i : nat) : M unit :=
  match fuel with
  | O => mret ()
  | S fuel' => scan_cycle (envs i);; scan_loop fuel' envs (S i)
  end.

(** ** The browser manager and [main] *)

(** [BrowserManager.initialize_browser(name)]: starting Chrome may fail. *)
Definition initialize_browser (name : string) (start_fault : option exn) : M unit := λ w,
  match start_fault with
  | Some e => (Raise e, w)
  | None => (Ret (), set_drivers (λ d, {[name]} ∪ d) w)
  end.

(** [BrowserManager.kill_browser(name)]; a failing [quit()] is ignored. *)
Definition kill_browser (name : string) : M unit := λ w,
  if decide (name ∈ drivers w) then (Ret (), set_drivers (λ d, d ∖ {[name]}) w)
  else (Ret (), w).

Definition create_browser_manager : M unit := λ w, (Ret (), set_drivers (λ _, ∅) w).

(** The two [except] clauses of [main]. *)
Definition main_handlers (e : exn) : M unit :=
  match exn_cls e with
  | KeyboardInterrupt => logging INFO "Scanner stopped by user"
  | _ => logging CRITICAL ("Critical error: " +:+ exn_msg e)
  end.

Inductive main_end :=
  | Running     (* the fuel is spent inside the loop *)
  | Finished.   (* main has returned *)

(** The [try] statement of [main]. The handlers sit outside the loop: the
    [try] encloses the whole [while True]. In [finally], [driver] is set
    exactly when [initialize_browser] has returned. *)
Definition main_try (start_fault : option exn) (envs : nat → cycle_env) (fuel : nat)
    : M main_end := λ w,
  match initialize_browser "combined_scanner" start_fault w with
  | (Raise e, w1) =>
      (main_handlers e;; mret Finished) w1
  | (Ret _, w1) =>
      match scan_loop fuel envs 0 w1 with
      | (Ret _, w2) => (Ret Running, w2)
      | (Raise e, w2) =>
          try_finally (main_handlers e;; mret Finished)
            (kill_browser "combined_scanner";; logging INFO "Browser closed") w2
      end
  end.

(** [main()]. Of its first lines, [setup_logging()] configures where the
    records go and [driver.set_page_load_timeout(30)] how long [get]
    waits; neither shows in the world. *)
Definition main (init_write : write_fault) (start_fault : option exn)
    (envs : nat → cycle_env) (fuel : nat) : M main_end :=
  logging INFO "Starting Combined ChartInk Scanner...";;
  initialize_results_file init_write;;
  create_browser_manager;;
  main_try start_fault envs fuel.

End Program.

(** ** A concrete runtime for closed examples *)

(** The properties below hold for every [Builtins]. To run the program on
    concrete inputs, [Sample] supplies one: decimal text without exponent
    for [float()] and [int()] (where it agrees with Python), exact decimal
    printing of floats, and a JSON printer and reader for the results
    file that keep the keys in the order the program inserts them. *)
Module Sample.

Definition prec : Z := 53.
Definition emax : Z := 1024.

Definition digit_of (a : ascii) : option N :=
  let n := N_of_ascii a in
  if ((48 <=? n) && (n <=? 57))%N then Some (n - 48)%N else None.

Fixpoint digits_acc (s : string) (acc : N) : option N :=
  match s with
  | EmptyString => Some acc
  | String a s' => d ← digit_of a; digits_acc s' (acc * 10 + d)%N
  end.

(** A non-empty run of decimal digits. *)
Definition unsigned (s : string) : option N :=
  match s with
  | EmptyString => None
  | _ => digits_acc s 0%N
  end.

Definition split_sign (s : string) : bool * string :=
  match s with
  | String "-" r => (true, r)
  | String "+" r => (false, r)
  | _ => (false, s)
  end.

Definition int_of_text (s : string) : option Z :=
  let '(neg, r) := split_sign s in
  n ← unsigned r;
  Some (if neg : bool then (- Z.of_N n)%Z else Z.of_N n).

(** The text before the first dot, and the text after it if there is one. *)
Fixpoint split_dot (s : string) : string * option string :=
  match s with
  | EmptyString => (EmptyString, None)
  | String "." r => (EmptyString, Some r)
  | String a r => let '(i, f) := split_dot r in (String a i, f)
  end.

(** The float nearest to [m / 10^k], ties to even. *)
Definition decimal_to_float (neg : bool) (m : N) (k : nat) : spec_float :=
  match m with
  | N0 => S754_zero neg
  | Npos p =>
      match k with
      | O => binary_normalize prec emax (if neg then Zneg p else Zpos p) 0 false
      | _ => SFdiv prec emax (S754_finite neg p 0) (S754_finite false (Pos.pow 10 (Pos.of_nat k)) 0)
      end
  end.

Definition float_of_text (s : string) : option spec_float :=
  let '(neg, r) := split_sign s in
  let '(i, f) := split_dot r in
  match f with
  | None => m ← unsigned i; Some (decimal_to_float neg m 0)
  | Some f =>
      match i +:+ f with
      | EmptyString => None
      | digits => m ← digits_acc digits 0%N; Some (decimal_to_float neg m (String.length f))
      end
  end.

(** Exact decimal expansion of a float (Python prints the shortest text
    that reads back to the same float; this one reads back too). *)
Fixpoint strip_zeros (fuel : nat) (n : N) (k : nat) : N * nat :=
  match fuel, k with
  | S fuel', S k' => if (n mod 10 =? 0)%N then strip_zeros fuel' (n / 10)%N k' else (n, k)
  | _, _ => (n, k)
  end.

Fixpoint zeros (n : nat) : string :=
  match n with
  | O => EmptyString
  | S n' => String "0" (zeros n')
  end.

Definition decimal_text (n : N) (k : nat) : string :=
  let '(n, k) := strip_zeros k n k in
  let digits := pretty n in
  let digits := zeros (S k - String.length digits) +:+ digits in
  let cut := String.length digits - k in
  substring 0 cut digits +:+ "." +:+
  (if (k =? 0)%nat then "0" else substring cut k digits).

Definition text_of_float (x : spec_float) : string :=
  match x with
  | S754_zero s => if s then "-0.0" else "0.0"
  | S754_infinity s => if s then "-Infinity" else "Infinity"
  | S754_nan => "NaN"
  | S754_finite s m e =>
      (if s then "-" else "") +:+
      match e with
      | Zneg k => decimal_text (Npos (m * Pos.pow 5 k)) (Pos.to_nat k)
      | _ => decimal_text (Npos m * 2 ^ Z.to_N e)%N 0
      end
  end.

Definition number_of_text (s : string) : option spec_float :=
  if String.eqb s "NaN" then Some S754_nan
  else if String.eqb s "Infinity" then Some (S754_infinity false)
  else if String.eqb s "-Infinity" then Some (S754_infinity true)
  else float_of_text s.

(** *** Printing the results file *)

Definition quote : string := String (ascii_of_nat 34) EmptyString.
Definition quoted (s : string) : string := quote +:+ s +:+ quote.
Definition field (k v : string) : string := quoted k +:+ ": " +:+ v.
Definition object (fields : list string) : string := "{" +:+ join ", " fields +:+ "}".
Definition array (items : list string) : string := "[" +:+ join ", " items +:+ "]".

Definition print_stock (s : Stock) : string :=
  object [ field "symbol" (quoted (symbol s));
           field "price" (text_of_float (price s));
           field "change" (text_of_float (change s));
           field "volume" (pretty (volume s));
           field "stock_trend" (quoted (stock_trend s));
           field "screener_type" (quoted (screener_name (screener_type s)));
           field "market_bias" (quoted (market_bias s)) ].

Definition print_combined (c : CombinedStock) : string :=
  object [ field "symbol" (quoted (c_symbol c));
           field "price" (text_of_float (c_price c));
           field "change" (text_of_float (c_change c));
           field "volume" (pretty (c_volume c));
           field "stock_trend" (quoted (c_stock_trend c));
           field "market_bias" (quoted (c_market_bias c));
           field "screeners_found_in"
             (array (map (λ k, quoted (screener_name k)) (screeners_found_in c)));
           field "match_count" (pretty (match_count c)) ].

Definition print_results (d : ResultsData) : string :=
  object [ field "last_update" (quoted (last_update d));
           field "market_bias" (quoted (rd_market_bias d));
           field "screeners"
             (object (map (λ item, field (screener_name (fst item))
                                     (array (map print_stock (snd item))))
                          (screeners_items (screeners d))));
           field "combined_stocks" (array (map print_combined (combined_stocks d))) ].

Definition print_trend (m : MarketData) : string :=
  object [ field "timestamp" (quoted (md_timestamp m));
           field "market_bias" (quoted (md_market_bias m));
           field "bullish_indices" (array (map quoted (bullish_indices m)));
           field "bearish_indices" (array (map quoted (bearish_indices m))) ].

(** *** Reading the results file *)

Inductive token :=
  | TOpen | TClose          (* braces *)
  | TBegin | TEnd           (* brackets *)
  | TComma | TColon
  | TStr (s : string)
  | TBare (s : string).     (* a number *)

Inductive lex_mode :=
  | Outside
  | InString (acc : string)
  | InBare (acc : string).

Definition punct (a : ascii) : option token :=
  if Ascii.eqb a "{" then Some TOpen
  else if Ascii.eqb a "}" then Some TClose
  else if Ascii.eqb a "[" then Some TBegin
  else if Ascii.eqb a "]" then Some TEnd
  else if Ascii.eqb a "," then Some TComma
  else if Ascii.eqb a ":" then Some TColon
  else None.

Definition is_space (a : ascii) : bool :=
  Ascii.eqb a " " || Ascii.eqb a (ascii_of_nat 10) || Ascii.eqb a (ascii_of_nat 9).

Definition is_quote (a : ascii) : bool := Ascii.eqb a (ascii_of_nat 34).

Definition snoc (s : string) (a : ascii) : string := s +:+ String a EmptyString.

(** [None]: the text ends inside a string. *)
Fixpoint lex (s : string) (mode : lex_mode) : option (list token) :=
  match s, mode with
  | EmptyString, Outside => Some []
  | EmptyString, InBare acc => Some [TBare acc]
  | EmptyString, InString _ => None
  | String a s', InString acc =>
      if is_quote a then cons (TStr acc) <$> lex s' Outside
      else lex s' (InString (snoc acc a))
  | String a s', Outside =>
      if is_quote a then lex s' (InString EmptyString)
      else if is_space a then lex s' Outside
      else match punct a with
           | Some t => cons t <$> lex s' Outside
           | None => lex s' (InBare (String a EmptyString))
           end
  | String a s', InBare acc =>
      if is_quote a then None
      else if is_space a then cons (TBare acc) <$> lex s' Outside
      else match punct a with
           | Some t => (λ ts, TBare acc :: t :: ts) <$> lex s' Outside
           | None => lex s' (InBare (snoc acc a))
           end
  end.

#[local] Instance token_eq_dec : EqDecision token.
Proof. solve_decision. Defined.

(** A reader consumes a prefix of the tokens. *)
Definition reader (A : Type) : Type := list token → option (A * list token).

Definition expect (t : token) : reader unit := λ ts,
  match ts with
  | t' :: rest => if decide (t = t') then Some ((), rest) else None
  | [] => None
  end.

Definition read_str : reader string := λ ts,
  match ts with
  | TStr s :: rest => Some (s, rest)
  | _ => None
  end.

Definition read_bare {A} (conv : string → option A) : reader A := λ ts,
  match ts with
  | TBare s :: rest => x ← conv s; Some (x, rest)
  | _ => None
  end.

#[local] Instance reader_ret : MRet reader := λ A a ts, Some (a, ts).
#[local] Instance reader_bind : MBind reader := λ A B k r ts,
  match r ts with
  | Some (a, rest) => k a rest
  | None => None
  end.

(** ["key": value], preceded by a comma unless it is the first member. *)
Definition member {A} (first : bool) (k : string) (value : reader A) : reader A :=
  (if first then mret () else expect TComma);;
  expect (TStr k);; expect TColon;; value.

(** The items of an array after its opening bracket. *)
Fixpoint read_items {A} (fuel : nat) (item : reader A) (first : bool) : reader (list A) :=
  λ ts,
    match fuel with
    | O => None
    | S fuel' =>
        match ts with
        | TEnd :: rest => Some ([], rest)
        | _ =>
            ((if first then mret () else expect TComma);;
             x ← item;
             xs ← read_items fuel' item false;
             mret (x :: xs)) ts
        end
    end.

Definition read_array {A} (item : reader A) : reader (list A) := λ ts,
  (expect TBegin;; read_items (length ts) item true) ts.

Definition screener_of_name (s : string) : option ScreenerType :=
  if String.eqb s "price_crossover_200" then Some price_crossover_200
  else if String.eqb s "one_hour_rsi" then Some one_hour_rsi
  else if String.eqb s "five_min_rsi" then Some five_min_rsi
  else None.

Definition read_screener : reader ScreenerType := λ ts,
  match ts with
  | TStr s :: rest => k ← screener_of_name s; Some (k, rest)
  | _ => None
  end.

Definition nat_of_text (s : string) : option nat := N.to_nat <$> unsigned s.

Definition read_stock : reader Stock :=
  expect TOpen;;
  sy ← member true "symbol" read_str;
  p ← member false "price" (read_bare number_of_text);
  c ← member false "change" (read_bare number_of_text);
  v ← member false "volume" (read_bare int_of_text);
  t ← member false "stock_trend" read_str;
  k ← member false "screener_type" read_screener;
  b ← member false "market_bias" read_str;
  expect TClose;;
  mret {| symbol := sy; price := p; change := c; volume := v; stock_trend := t;
          screener_type := k; market_bias := b |}.

Definition read_combined : reader CombinedStock :=
  expect TOpen;;
  sy ← member true "symbol" read_str;
  p ← member false "price" (read_bare number_of_text);
  c ← member false "change" (read_bare number_of_text);
  v ← member false "volume" (read_bare int_of_text);
  t ← member false "stock_trend" read_str;
  b ← member false "market_bias" read_str;
  f ← member false "screeners_found_in" (read_array read_screener);
  n ← member false "match_count" (read_bare nat_of_text);
  expect TClose;;
  mret {| c_symbol := sy; c_price := p; c_change := c; c_volume := v;
          c_stock_trend := t; c_market_bias := b; screeners_found_in := f;
          match_count := n |}.

Definition read_screeners : reader Screeners :=
  expect TOpen;;
  a ← member true "price_crossover_200" (read_array read_stock);
  b ← member false "one_hour_rsi" (read_array read_stock);
  c ← member false "five_min_rsi" (read_array read_stock);
  expect TClose;;
  mret (Build_Screeners a b c).

Definition read_results : reader ResultsData :=
  expect TOpen;;
  u ← member true "last_update" read_str;
  b ← member false "market_bias" read_str;
  s ← member false "screeners" read_screeners;
  c ← member false "combined_stocks" (read_array read_combined);
  expect TClose;;
  mret {| last_update := u; rd_market_bias := b; screeners := s; combined_stocks := c |}.

(** *** JSON of any shape *)

Definition is_literal (s : string) : bool :=
  String.eqb s "true" || String.eqb s "false" || String.eqb s "null" ||
  bool_decide (is_Some (number_of_text s)).

(** The parts of a JSON text: a value, the rest of an array after an
    item, a member of an object, the rest of an object after a member. *)
Inductive part := AValue | ArrayRest | AMember | ObjectRest.

(** The tokens left after a part, if the tokens start with one. *)
Fixpoint skip (fuel : nat) (p : part) (ts : list token) : option (list token) :=
  match fuel with
  | O => None
  | S fuel' =>
      match p, ts with
      | AValue, TStr _ :: rest => Some rest
      | AValue, TBare s :: rest => if is_literal s then Some rest else None
      | AValue, TBegin :: TEnd :: rest => Some rest
      | AValue, TBegin :: rest => skip fuel' AValue rest ≫= skip fuel' ArrayRest
      | AValue, TOpen :: TClose :: rest => Some rest
      | AValue, TOpen :: rest => skip fuel' AMember rest ≫= skip fuel' ObjectRest
      | ArrayRest, TEnd :: rest => Some rest
      | ArrayRest, TComma :: rest => skip fuel' AValue rest ≫= skip fuel' ArrayRest
      | AMember, TStr _ :: TColon :: rest => skip fuel' AValue rest
      | ObjectRest, TClose :: rest => Some rest
      | ObjectRest, TComma :: rest => skip fuel' AMember rest ≫= skip fuel' ObjectRest
      | _, _ => None
      end
  end.

Definition is_json (ts : list token) : bool :=
  match skip (2 * length ts + 2) AValue ts with
  | Some [] => true
  | _ => false
  end.

(** [json.load]: a state when the text has the shape [print_results]
    gives, another value when it is JSON all the same. *)
Definition load_json (text : string) : option json_value :=
  ts ← lex text Outside;
  match read_results ts with
  | Some (d, []) => Some (JsonResults d)
  | _ => if is_json ts then Some JsonOther else None
  end.

Definition builtins : Builtins :=
  {| py_float := float_of_text;
     py_int := int_of_text;
     str_of_float := text_of_float;
     json_dumps_results := print_results;
     json_loads_results := load_json;
     json_dumps_trend := print_trend |}.

End Sample.

(* ===================================================================== *)
(** * Part II: the vocabulary of the properties                           *)
(* ===================================================================== *)

(** The value a computation returns, if it returns. *)
Definition value {A} (r : outcome A * world) : option A :=
  match fst r with
  | Ret a => Some a
  | Raise _ => None
  end.

(** The time of day of [d] is [h:m:s] sharp or earlier. *)
Definition at_or_before (d : datetime) (h m s : nat) : Prop :=
  lex_compare [hour d; minute d; second d; microsecond d] [h; m; s; 0] ≠ Gt.

Definition fzero : spec_float := S754_zero false.

Definition clean_number (s : string) : string := str_remove "," s.
Definition clean_percent (s : string) : string := str_remove "," (str_remove "%" s).

(** A text argument is given, is not empty, and its cleaned form is
    refused by the conversion. *)
Definition rejected {A} (conv : string → option A) (clean : string → string)
    (v : option string) : Prop :=
  ∃ s, v = Some s ∧ s ≠ "" ∧ conv (clean s) = None.

(** A text argument is given and its cleaned form is refused by the
    conversion, be it empty or not. *)
Definition unparsable {A} (conv : string → option A) (clean : string → string)
    (v : option string) : Prop :=
  ∃ s, v = Some s ∧ conv (clean s) = None.

Section Vocabulary.
Context `{Builtins}.

(** The inputs [validate_stock_data] refuses. *)
Definition invalid_input (symbol : string) (price change volume : option string) : Prop :=
  String.length symbol < 2 ∨
  rejected py_float clean_number price ∨
  rejected py_float clean_percent change ∨
  rejected py_int clean_number volume.

(** The inputs the specification has it refuse. *)
Definition invalid_as_specified (symbol : string) (price change volume : option string)
    : Prop :=
  String.length symbol < 2 ∨
  unparsable py_float clean_number price ∨
  unparsable py_float clean_percent change ∨
  unparsable py_int clean_number volume.

End Vocabulary.

(** The biases under which the filter keeps a stock of trend [trend]. *)
Definition aligned (bias trend : string) : bool :=
  String.eqb bias "bullish" && String.eqb trend "bullish" ||
  String.eqb bias "bearish" && String.eqb trend "bearish" ||
  String.eqb bias "neutral".

(** The observation a stock of the results was made from: the stock
    without its market bias. *)
Definition observation (st : Stock) : RawStock :=
  {| r_symbol := symbol st; r_price := price st; r_change := change st;
     r_volume := volume st; r_stock_trend := stock_trend st;
     r_screener_type := screener_type st |}.

(** The page did not load: [load_page] caught an exception. *)
Definition page_failed (p : page_load) : Prop :=
  match p with
  | PageReady => False
  | GetFails e | ButtonWaitFails e => is_Exception e = true
  end.

(** The scan did not run to its end: [run_scan] caught an exception. *)
Definition trigger_failed (s : scan_run) : Prop :=
  match s with
  | ScanDone => False
  | ClickFails e | CompletionWaitFails e => is_Exception e = true
  end.

Definition probe_load_failed (p : probe) : Prop := page_failed (probe_page p).

(** The index symbols a probe yields: those of the rows that can be read
    when the page loads, the scan runs and the table shows up; none
    otherwise. *)
Definition collected (p : probe) : list string :=
  match probe_page p, probe_scan p, probe_table p with
  | PageReady, ScanDone, IndexRows rows => omap id rows
  | _, _, _ => []
  end.

(** The bias the two index lists determine. *)
Definition classify_market (bullish bearish : list string) : string :=
  if (key_count bearish <? key_count bullish)%nat then "bullish"
  else if (key_count bullish <? key_count bearish)%nat then "bearish"
  else "neutral".

(** How many of NIFTY, BANKNIFTY and NIFTYFINSERVICE are among the
    symbols [l]. *)
Definition key_hits (l : list string) : nat :=
  (if bool_decide ("NIFTY" ∈ l) then 1 else 0) +
  (if bool_decide ("BANKNIFTY" ∈ l) then 1 else 0) +
  (if bool_decide ("NIFTYFINSERVICE" ∈ l) then 1 else 0).

(** The stocks of a list that carry the symbol [sym], in order. *)
Definition instances (sym : string) (l : list Stock) : list Stock :=
  filter (λ st, symbol st = sym) l.

(** All the stocks of the three screeners, in iteration order. *)
Definition all_stocks (s : Screeners) : list Stock :=
  of_price_crossover_200 s ++ of_one_hour_rsi s ++ of_five_min_rsi s.

(** The symbols found in at least two of the three screeners: the union of
    the pairwise intersections and of the triple one. *)
Definition in_two_or_more (s : Screeners) : gset string :=
  let pc := symbols_of (of_price_crossover_200 s) in
  let oh := symbols_of (of_one_hour_rsi s) in
  let fm := symbols_of (of_five_min_rsi s) in
  (pc ∩ oh) ∪ (pc ∩ fm) ∪ (oh ∩ fm) ∪ (pc ∩ oh ∩ fm).

(** The list of screener [k] holds a stock that carries the symbol. *)
Definition lists (s : Screeners) (k : ScreenerType) (sym : string) : Prop :=
  ∃ st, st ∈ screeners_get s k ∧ symbol st = sym.

(** Every stock of screener [k] is tagged [k], and no symbol occurs twice
    in the list of one screener. *)
Definition well_tagged (s : Screeners) : Prop :=
  ∀ k, Forall (λ st, screener_type st = k) (screeners_get s k).

Definition no_repeats (s : Screeners) : Prop :=
  ∀ k, NoDup (map symbol (screeners_get s k)).

(** The consolidated entry of a symbol: none if no stock carries it. *)
Definition combined_of (s : Screeners) (sym : string) : option CombinedStock :=
  match instances sym (all_stocks s) with
  | [] => None
  | base_stock :: rest => Some (combine sym (base_stock :: rest) base_stock)
  end.

(** A stock with the fields the examples do not look at filled in. *)
Definition stock_of (sym : string) (k : ScreenerType) : Stock :=
  {| symbol := sym;
     price := S754_finite false 7036874417766400 (-46);    (* 100.0 *)
     change := S754_finite false 6755399441055744 (-52);   (* 1.5 *)
     volume := 1000; stock_trend := "bullish"; screener_type := k;
     market_bias := "bullish" |}.

Definition results_of (pc oh fm : list Stock) : ResultsData :=
  {| last_update := "2026-11-04 10:00:00"; rd_market_bias := "bullish";
     screeners := Build_Screeners pc oh fm; combined_stocks := [] |}.

(** The table of the first screener lists AAA twice; the second lists it
    once. *)
Definition repeated_symbol_results : ResultsData :=
  results_of [stock_of "AAA" price_crossover_200; stock_of "AAA" price_crossover_200]
             [stock_of "AAA" one_hour_rsi] [].

(** The exception the body of [save_scan_results] raises, if a step of it
    fails: the write of the temporary file, else the replace. *)
Definition save_failure (f : save_faults) : option exn :=
  match temp_write f with
  | OpenFails e | WriteFailsAfter _ e => Some e
  | WriteOk => replace_fault f
  end.

Definition TEMP_FILE : string := RESULTS_FILE +:+ ".tmp".

(** What loading returns, given what the canonical path holds: the
    defaults when there is no file, when reading it fails and when its
    text is not JSON; what the text reads as otherwise, whatever its
    shape. *)
Definition loaded `{Builtins} (read_fault : option exn) (file : option string)
    : option json_value :=
  match file with
  | None => Some (JsonResults empty_results)
  | Some text =>
      match read_fault with
      | Some e => if is_Exception e then Some (JsonResults empty_results) else None
      | None => Some (default (JsonResults empty_results) (json_loads_results text))
      end
  end.

(** A world whose canonical file holds [data], as [Sample] prints it. *)
Definition persisted (data : ResultsData) : world :=
  World {[ RESULTS_FILE := Sample.print_results data ]} [] [] ∅.

(** The state of a previous cycle, and the state of the next one. *)
Definition earlier_results : ResultsData :=
  results_of [stock_of "AAA" price_crossover_200] [stock_of "AAA" one_hour_rsi] [].

Definition later_results : ResultsData :=
  results_of [stock_of "BBB" price_crossover_200] [] [stock_of "BBB" five_min_rsi].

(** The disk fills up forty characters into the temporary file. *)
Definition disk_full : save_faults :=
  {| temp_write := WriteFailsAfter 40 (Exn OSError "No space left on device");
     replace_fault := None; remove_fault := None |}.

(** An outcome that, if it is an exception, is one a handler for
    [Exception] catches. *)
Definition calm {A} (o : outcome A) : Prop :=
  match o with
  | Ret _ => True
  | Raise e => is_Exception e = true
  end.

(** A computation that leaves the files alone and raises nothing but
    [Exception]s. *)
Definition calm_run {A} (m : M A) : Prop :=
  ∀ w, ∃ r w', m w = (r, w') ∧ files w' = files w ∧ calm r.

(** A computation that leaves the files alone and always returns. *)
Definition total_run {A} (m : M A) : Prop :=
  ∀ w, ∃ a w', m w = (Ret a, w') ∧ files w' = files w.

Definition row_calm (r : row_read) : Prop :=
  match r with
  | RowCells _ => True
  | RowFails e => is_Exception e = true
  end.

Definition table_calm (t : table_read) : Prop :=
  match t with
  | TableFails e => is_Exception e = true
  | TableRows rows => Forall row_calm rows
  end.

Definition page_calm (p : page_load) : Prop :=
  match p with
  | PageReady => True
  | GetFails e | ButtonWaitFails e => is_Exception e = true
  end.

Definition trigger_calm (s : scan_run) : Prop :=
  match s with
  | ScanDone => True
  | ClickFails e | CompletionWaitFails e => is_Exception e = true
  end.

(** No [KeyboardInterrupt] arrives while the screener is scanned. *)
Definition scan_calm (s : screener_scan) : Prop :=
  page_calm (scan_page s) ∧ trigger_calm (scan_trigger s) ∧ table_calm (scan_table s).

(** The scan of a source fails: its page does not load, or its scan does
    not run to the end. *)
Definition source_failed (s : screener_scan) : Prop :=
  page_failed (scan_page s) ∨ (scan_page s = PageReady ∧ trigger_failed (scan_trigger s)).

Definition source_scanned (s : screener_scan) : Prop :=
  scan_page s = PageReady ∧ scan_trigger s = ScanDone.

(** The stocks of a batch that the filter keeps under [bias]. *)
Definition kept (bias : string) (raws : list RawStock) : list Stock :=
  List.filter (λ s, aligned bias (stock_trend s)) (map (stamp bias) raws).

Definition index_table_calm (t : index_table) : Prop :=
  match t with
  | IndexTableFails e => is_Exception e = true
  | IndexRows _ => True
  end.

Definition probe_calm (p : probe) : Prop :=
  page_calm (probe_page p) ∧ trigger_calm (probe_scan p) ∧ index_table_calm (probe_table p).

(** A pass of the loop in trading hours in which nothing interrupts the
    program and no file operation fails; pages, scans and tables may
    still fail. *)
Definition cycle_undisturbed (env : cycle_env) : Prop :=
  weekday (now_gate env) < 5 ∧
  at_or_before (now_gate env) 23 59 0 ∧
  probe_calm (bullish_probe env) ∧
  probe_calm (bearish_probe env) ∧
  trend_write env = WriteOk ∧
  results_read env = None ∧
  (∀ k, scan_calm (scans env k)) ∧
  save_failure (save env) = None ∧
  sleep_interrupted env = false.

(** What [main] does before its [try] statement. *)
Definition startup `{Builtins} (init_write : write_fault) : M unit :=
  logging INFO "Starting Combined ChartInk Scanner...";;
  initialize_results_file init_write;;
  create_browser_manager.

(** The record [main] logs for the exception that ends the loop. *)
Definition final_record (e : exn) : level * string :=
  if is_Exception e then (CRITICAL, "Critical error: " +:+ exn_msg e)
  else (INFO, "Scanner stopped by user").

(** The world in which the loop starts: the browser is registered. *)
Definition browser_started (w : world) : world :=
  set_drivers (λ d, {["combined_scanner"]} ∪ d) w.

(** *** A concrete pass *)

Definition timeout : exn := Exn WebDriverException "Timed out waiting for page".

Definition row (sym chg prc vol : string) : row_read :=
  RowCells {| cell_symbol := sym; cell_change := chg; cell_price := prc; cell_volume := vol |}.

Definition scanned (rows : list row_read) : screener_scan :=
  {| scan_page := PageReady; scan_trigger := ScanDone; scan_table := TableRows rows |}.

Definition page_timeout : screener_scan :=
  {| scan_page := ButtonWaitFails timeout; scan_trigger := ScanDone;
     scan_table := TableRows [] |}.

Definition indices (l : list string) : probe :=
  {| probe_page := PageReady; probe_scan := ScanDone; probe_table := IndexRows (map Some l) |}.

(** Wednesday 2026-11-04, 10:00. Two key indices are bullish and one is
    bearish; the one-hour page times out, the other two tables are read. *)
Definition morning : cycle_env :=
  {| now_gate := DateTime 2026 11 4 10 0 0 0;
     now_start := DateTime 2026 11 4 10 0 0 0;
     bullish_probe := indices ["NIFTY"; "BANKNIFTY"];
     bearish_probe := indices ["NIFTYFINSERVICE"];
     now_trend := DateTime 2026 11 4 10 0 20 0;
     trend_write := WriteOk;
     results_read := None;
     now_update := DateTime 2026 11 4 10 0 21 0;
     scans := λ k, match k with
                   | price_crossover_200 =>
                       scanned [row "BBB" "2.5%" "1,250.75" "12,000";
                                row "CCC" "-0.8%" "310" "4,500"]
                   | one_hour_rsi => page_timeout
                   | five_min_rsi => scanned [row "BBB" "2.5%" "1,250.75" "12,000"]
                   end;
     save := no_save_faults;
     sleep_interrupted := false;
     other_shape := raise (Exn KeyError "'screeners'") |}.

(** The same morning, with the market trend file write-protected. *)
Definition trend_file_locked : cycle_env :=
  {| now_gate := now_gate morning; now_start := now_start morning;
     bullish_probe := bullish_probe morning; bearish_probe := bearish_probe morning;
     now_trend := now_trend morning;
     trend_write := OpenFails (Exn OSError "Permission denied: 'market_trend.json'");
     results_read := None; now_update := now_update morning;
     scans := scans morning; save := no_save_faults; sleep_interrupted := false;
     other_shape := other_shape morning |}.

(** A run whose second pass meets the write-protected file. *)
Definition second_pass_fails (i : nat) : cycle_env :=
  match i with
  | 1 => trend_file_locked
  | _ => morning
  end.

Definition permission_denied : exn :=
  Exn OSError "Permission denied: 'market_trend.json'".

(** ** Vocabulary of the further properties *)

(** The exception a write raises, if it fails. *)
Definition write_error (f : write_fault) : option exn :=
  match f with
  | WriteOk => None
  | OpenFails e | WriteFailsAfter _ e => Some e
  end.

Section Rows.
Context `{Builtins}.

(** The stock a table row yields: none when its cells cannot be read, when
    its symbol has fewer than two characters, or when its price, change
    or volume text does not convert once cleaned. *)
Definition row_stock (k : ScreenerType) (r : row_read) : option RawStock :=
  match r with
  | RowFails _ => None
  | RowCells c =>
      if (String.length (cell_symbol c) <? 2)%nat then None
      else
        p ← py_float (clean_number (cell_price c));
        ch ← py_float (clean_percent (cell_change c));
        v ← py_int (clean_number (cell_volume c));
        Some {| r_symbol := cell_symbol c; r_price := p; r_change := ch; r_volume := v;
                r_stock_trend := if SFltb fzero ch then "bullish" else "bearish";
                r_screener_type := k |}
  end.

(** The stocks a result table yields, in the order of its rows; none when
    the table does not show up. *)
Definition table_stocks (k : ScreenerType) (t : table_read) : list RawStock :=
  match t with
  | TableFails _ => []
  | TableRows rows => omap (row_stock k) rows
  end.

End Rows.

(** The page loaded and the scan ran to its end. *)
Definition is_scanned (s : screener_scan) : bool :=
  match scan_page s, scan_trigger s with
  | PageReady, ScanDone => true
  | _, _ => false
  end.

Section PassVocabulary.
Context `{Builtins}.

(** The results after one screener: its entry is renewed when its scan
    ran, and the results are handed back as they came otherwise. *)
Definition screened (s : screener_scan) (k : ScreenerType) (bias : string)
    (rd : ResultsData) : ResultsData :=
  if is_scanned s then set_screener rd k (kept bias (table_stocks k (scan_table s)))
  else rd.

(** The results after the screeners of [urls], taken in order. *)
Definition pass_screeners (env : cycle_env) (urls : list (ScreenerType * string))
    (bias : string) (rd : ResultsData) : ResultsData :=
  foldl (λ rd item, screened (scans env (fst item)) (fst item) bias rd) rd urls.

(** The bias a pass determines. *)
Definition cycle_bias (env : cycle_env) : string :=
  classify_market (collected (bullish_probe env)) (collected (bearish_probe env)).

(** The record of the market trend a pass writes. *)
Definition trend_record (bullish bearish : probe) (now : datetime) : MarketData :=
  {| md_timestamp := strftime now;
     md_market_bias := classify_market (collected bullish) (collected bearish);
     bullish_indices := collected bullish;
     bearish_indices := collected bearish |}.

(** The state a pass saves, given the state [prior] it loaded. *)
Definition cycle_results (env : cycle_env) (prior : ResultsData) : ResultsData :=
  let rd := pass_screeners env SCREENER_URLS (cycle_bias env)
              {| last_update := strftime (now_update env);
                 rd_market_bias := cycle_bias env;
                 screeners := screeners prior;
                 combined_stocks := combined_stocks prior |} in
  {| last_update := last_update rd;
     rd_market_bias := rd_market_bias rd;
     screeners := screeners rd;
     combined_stocks := omap (combined_of (screeners rd))
                          (elements (in_two_or_more (screeners rd))) |}.

(** The state the results file stands for when a pass loads it: the
    defaults when there is no file or its text is not JSON, the state its
    text reads as when it has the shape the program writes; none when
    it is JSON of another shape. *)
Definition file_state (file : option string) : option ResultsData :=
  match file with
  | None => Some empty_results
  | Some text =>
      match json_loads_results text with
      | None => Some empty_results
      | Some (JsonResults data) => Some data
      | Some JsonOther => None
      end
  end.

(** The JSON text of the state reads back as the state. *)
Definition reads_back (data : ResultsData) : Prop :=
  json_loads_results (json_dumps_results data) = Some (JsonResults data).

(** The state saved after [n] passes, the first of them pass [i], when
    the state loaded by pass [i] is [prior]. *)
Fixpoint pass_states (envs : nat → cycle_env) (i : nat) (prior : ResultsData) (n : nat)
    : ResultsData :=
  match n with
  | O => prior
  | S n' => pass_states envs (S i) (cycle_results (envs i) prior) n'
  end.

End PassVocabulary.

(** The screeners that list [sym], in the order the results hold them. *)
Definition listed_in (s : Screeners) (sym : string) : list ScreenerType :=
  filter (λ k, sym ∈ symbols_of (screeners_get s k))
    [price_crossover_200; one_hour_rsi; five_min_rsi].

(** The gate is shut: a weekend, or a time of day past 23:59:00. *)
Definition market_closed (now : datetime) : Prop :=
  5 ≤ weekday now ∨ lex_compare [hour now; minute now; second now] [23; 59; 0] = Gt.

(** What of the world is not the log: the files, the sleeps, the browser
    registry. *)
Definition unlogged (w : world) : gmap string string * list nat * gset string :=
  (files w, slept w, drivers w).

(** A computation that, however it ends, has done nothing but log. *)
Definition quiet {A} (m : M A) : Prop := ∀ w, unlogged (snd (m w)) = unlogged w.

(** A computation that, however it ends, leaves the browser registry as
    it was. *)
Definition registry_kept {A} (m : M A) : Prop := ∀ w, drivers (snd (m w)) = drivers w.

(** The page is ready; the scan has run to its end. *)
Definition page_ready (p : page_load) : bool :=
  match p with
  | PageReady => true
  | _ => false
  end.

Definition scan_done (s : scan_run) : bool :=
  match s with
  | ScanDone => true
  | _ => false
  end.

(** *** Further concrete inputs *)

(** A table of five rows: a good one, one with a one-letter symbol, one
    whose cells cannot be read, one without a change, and a falling
    one. *)
Definition mixed_rows : list row_read :=
  [ row "BBB" "2.5%" "1,250.75" "12,000";
    row "X" "1.0%" "10" "5";
    RowFails timeout;
    row "CCC" "" "310" "4,500";
    row "DDD" "-0.8%" "310" "4,500" ].

(** The page loads and the scan runs, but the result table never shows
    up. *)
Definition table_timeout : screener_scan :=
  {| scan_page := PageReady; scan_trigger := ScanDone; scan_table := TableFails timeout |}.

(** Saturday 2026-11-07, 11:00. *)
Definition saturday : cycle_env :=
  {| now_gate := DateTime 2026 11 7 11 0 0 0;
     now_start := now_start morning;
     bullish_probe := bullish_probe morning; bearish_probe := bearish_probe morning;
     now_trend := now_trend morning; trend_write := WriteOk;
     results_read := None; now_update := now_update morning;
     scans := scans morning; save := no_save_faults; sleep_interrupted := false;
     other_shape := other_shape morning |}.

(** A world whose results file was cut short after forty characters. *)
Definition truncated_file : world :=
  World {[ RESULTS_FILE := substring 0 40 (Sample.print_results earlier_results) ]} [] [] ∅.

(** A pass in trading hours that gets as far as saving: nothing
    interrupts it and the market trend file is written; pages, scans and
    tables may still fail. *)
Definition reaches_save (env : cycle_env) : Prop :=
  weekday (now_gate env) < 5 ∧
  at_or_before (now_gate env) 23 59 0 ∧
  probe_calm (bullish_probe env) ∧
  probe_calm (bearish_probe env) ∧
  trend_write env = WriteOk ∧
  results_read env = None ∧
  (∀ k, scan_calm (scans env k)).

(** The morning on which the disk fills up while the results are
    saved. *)
Definition disk_fills_up : cycle_env :=
  {| now_gate := now_gate morning; now_start := now_start morning;
     bullish_probe := bullish_probe morning; bearish_probe := bearish_probe morning;
     now_trend := now_trend morning; trend_write := WriteOk;
     results_read := None; now_update := now_update morning;
     scans := scans morning; save := disk_full; sleep_interrupted := false;
     other_shape := other_shape morning |}.

(* ===================================================================== *)
(** * Part III: properties                                                *)
(* ===================================================================== *)

(** ** Computations *)

Lemma bind_logging {A} (l : level) (msg : string) (k : unit → M A) (w : world) :
  (logging l msg ≫= k) w = k () (add_log (l, msg) w).
Proof. done. Qed.

Lemma bind_run {A B} (m : M A) (k : A → M B) (w w1 : world) (a : A) :
  m w = (Ret a, w1) → (m ≫= k) w = k a w1.
Proof. intros Hm. unfold mbind, M_bind. by rewrite Hm. Qed.

Lemma bind_raise {A B} (m : M A) (k : A → M B) (w w1 : world) (e : exn) :
  m w = (Raise e, w1) → (m ≫= k) w = (Raise e, w1).
Proof. intros Hm. unfold mbind, M_bind. by rewrite Hm. Qed.

Lemma bind_ret_inv {A B} (m : M A) (k : A → M B) (w w2 : world) (b : B) :
  (m ≫= k) w = (Ret b, w2) → ∃ a w1, m w = (Ret a, w1) ∧ k a w1 = (Ret b, w2).
Proof.
  unfold mbind, M_bind. destruct (m w) as [[a|e] w1]; [eauto | done].
Qed.

Lemma try_except_ret {A} (body : M A) (handler : exn → M A) (w w1 : world) (a : A) :
  body w = (Ret a, w1) → try_except body handler w = (Ret a, w1).
Proof. intros Hb. unfold try_except. by rewrite Hb. Qed.

Lemma try_except_caught {A} (body : M A) (handler : exn → M A) (w w1 : world) (e : exn) :
  body w = (Raise e, w1) → is_Exception e = true →
  try_except body handler w = handler e w1.
Proof. intros Hb He. unfold try_except. by rewrite Hb, He. Qed.

Lemma try_except_passed {A} (body : M A) (handler : exn → M A) (w w1 : world) (e : exn) :
  body w = (Raise e, w1) → is_Exception e = false →
  try_except body handler w = (Raise e, w1).
Proof. intros Hb He. unfold try_except. by rewrite Hb, He. Qed.

Lemma value_ret {A} (r : outcome A * world) (a : A) :
  value r = Some a ↔ ∃ w, r = (Ret a, w).
Proof.
  unfold value. destruct r as [[a'|e] w]; simpl; split.
  - intros [= ->]. eauto.
  - by intros (w' & [= -> _]).
  - done.
  - by intros (w' & [=]).
Qed.

Lemma bind_eq {A B} (m : M A) (k : A → M B) (w : world) :
  (m ≫= k) w = match m w with
               | (Ret a, w') => k a w'
               | (Raise e, w') => (Raise e, w')
               end.
Proof. done. Qed.

Lemma os_path_exists_present path w text :
  files w !! path = Some text → os_path_exists path w = (Ret true, w).
Proof. intros Hf. unfold os_path_exists. by rewrite Hf. Qed.

Lemma os_path_exists_absent path w :
  files w !! path = None → os_path_exists path w = (Ret false, w).
Proof. intros Hf. unfold os_path_exists. by rewrite Hf. Qed.

(** ** The trading-hours gate *)

Lemma lex_compare_refl (l : list nat) : lex_compare l l = Eq.
Proof.
  induction l as [|x l IH]; cbn -[Nat.compare]; [done|].
  by rewrite Nat.compare_refl.
Qed.

Lemma dt_leb_start (now : datetime) : dt_leb (replace_hms now 0 0 0) now = true.
Proof.
  unfold dt_leb, dt_fields, replace_hms; cbn -[Nat.compare].
  rewrite !Nat.compare_refl.
  destruct (hour now); simpl; [|done].
  destruct (minute now); simpl; [|done].
  by destruct (second now).
Qed.

Lemma dt_leb_end (now : datetime) :
  dt_leb now (replace_hms now 23 59 0) = true ↔
  lex_compare [hour now; minute now; second now] [23; 59; 0] ≠ Gt.
Proof.
  unfold dt_leb, dt_fields, replace_hms; cbn -[Nat.compare].
  rewrite !Nat.compare_refl.
  destruct (hour now ?= 23); [|done|done].
  destruct (minute now ?= 59); [|done|done].
  by destruct (second now ?= 0).
Qed.

Lemma at_or_before_seconds (d : datetime) (h m s : nat) :
  at_or_before d h m s → lex_compare [hour d; minute d; second d] [h; m; s] ≠ Gt.
Proof.
  unfold at_or_before; cbn -[Nat.compare].
  destruct (hour d ?= h); [|done|done].
  destruct (minute d ?= m); [|done|done].
  by destruct (second d ?= s).
Qed.

(** The gate compares [now] with 00:00:00 and 23:59:00 of the same day,
    both carrying the microsecond of [now]. *)
Lemma is_market_hours_run (now : datetime) (w : world) :
  weekday now < 5 →
  lex_compare [hour now; minute now; second now] [23; 59; 0] ≠ Gt →
  is_market_hours now w = (Ret true, w).
Proof.
  intros Hday Htime. unfold is_market_hours.
  destruct (Nat.leb_spec 5 (weekday now)) as [?|_]; [lia|].
  rewrite dt_leb_start. apply dt_leb_end in Htime. by rewrite Htime.
Qed.

(** C10. On a Monday to Friday, at any time of day up to 23:59:00, the
    gate returns true (and logs nothing): the 9:15 to 15:30 window of the
    comment plays no part. *)
Theorem is_market_hours_weekday_open (now : datetime) (w : world) :
  weekday now < 5 →
  at_or_before now 23 59 0 →
  is_market_hours now w = (Ret true, w).
Proof.
  intros Hday Htime. apply is_market_hours_run; [exact Hday|].
  by apply at_or_before_seconds.
Qed.

(** Wednesday 2026-11-04 at 03:00: long before 9:15, and open. *)
Lemma is_market_hours_weekday_open_witness :
  let now := DateTime 2026 11 4 3 0 0 0 in
  weekday now < 5 ∧ at_or_before now 23 59 0 ∧
  is_market_hours now empty_world = (Ret true, empty_world).
Proof.
  assert (Hday : weekday (DateTime 2026 11 4 3 0 0 0) < 5) by (vm_compute; lia).
  assert (Htime : at_or_before (DateTime 2026 11 4 3 0 0 0) 23 59 0) by by vm_compute.
  exact (conj Hday (conj Htime
           (is_market_hours_weekday_open _ empty_world Hday Htime))).
Defined.

(** What makes the gate return false: a weekend, or a time of day past
    23:59:00 to the second. *)
Lemma is_market_hours_closed (now : datetime) (w : world) :
  value (is_market_hours now w) = Some false ↔
  5 ≤ weekday now ∨ lex_compare [hour now; minute now; second now] [23; 59; 0] = Gt.
Proof.
  unfold is_market_hours, value.
  destruct (Nat.leb_spec 5 (weekday now)) as [Hwe|Hwd]; simpl.
  - split; [by left | done].
  - rewrite dt_leb_start. simpl.
    destruct (dt_leb now (replace_hms now 23 59 0)) eqn:Hend; simpl.
    + apply dt_leb_end in Hend. split; [done|]. intros [?|?]; [lia|done].
    + split; [|done]. intros _. right.
      destruct (lex_compare [hour now; minute now; second now] [23; 59; 0]) eqn:Hc;
        [| |done]; exfalso;
        (assert (dt_leb now (replace_hms now 23 59 0) = true) as Ht
           by (apply dt_leb_end; by rewrite Hc)); congruence.
Qed.

Example is_market_hours_saturday :
  value (is_market_hours (DateTime 2026 11 7 11 0 0 0) empty_world) = Some false.
Proof. reflexivity. Qed.

Example is_market_hours_last_minute :
  value (is_market_hours (DateTime 2026 11 4 23 59 30 0) empty_world) = Some false.
Proof. reflexivity. Qed.

(** ** The trend classifier *)

Section Classifier.
Context `{Builtins}.

Lemma SFleb_zero_not_pos (x : spec_float) : SFleb x fzero = true → SFltb fzero x = false.
Proof. by destruct x as [[]|[]| |[] m e]. Qed.

Lemma determine_float (x : spec_float) :
  determine_stock_trend (PyFloat x) = Ret (if SFltb fzero x then "bullish" else "bearish").
Proof. done. Qed.

Lemma determine_int (n : Z) :
  determine_stock_trend (PyInt n) = Ret (if (0 <? n)%Z then "bullish" else "bearish").
Proof. done. Qed.

(** A text is converted first, and classified as the float it reads as. *)
Lemma determine_text (s : string) :
  determine_stock_trend (PyStr s) =
  match py_float s with
  | Some x => determine_stock_trend (PyFloat x)
  | None => Ret "unknown"
  end.
Proof. unfold determine_stock_trend, float_of. by destruct (py_float s). Qed.

(** NaN compares false with everything, so it is "bearish". *)
Lemma determine_nan : determine_stock_trend (PyFloat S754_nan) = Ret "bearish".
Proof. done. Qed.

(** The function never raises. *)
Lemma determine_total (v : pyval) : ∃ t, determine_stock_trend v = Ret t.
Proof.
  destruct v as [|s|x|n]; [by eexists| |by eexists|by eexists].
  rewrite determine_text. destruct (py_float s); by eexists.
Qed.

(** C7. A float or an int above zero is "bullish"; one that is zero or
    below is "bearish", zero itself included; [None], and a text that
    [float()] refuses, are "unknown". *)
Theorem determine_stock_trend_spec :
  (∀ x, SFltb fzero x = true → determine_stock_trend (PyFloat x) = Ret "bullish") ∧
  (∀ x, SFleb x fzero = true → determine_stock_trend (PyFloat x) = Ret "bearish") ∧
  determine_stock_trend (PyFloat fzero) = Ret "bearish" ∧
  (∀ n, (0 < n)%Z → determine_stock_trend (PyInt n) = Ret "bullish") ∧
  (∀ n, (n ≤ 0)%Z → determine_stock_trend (PyInt n) = Ret "bearish") ∧
  determine_stock_trend PyNone = Ret "unknown" ∧
  (∀ s, py_float s = None → determine_stock_trend (PyStr s) = Ret "unknown").
Proof.
  repeat split.
  - intros x Hx. by rewrite determine_float, Hx.
  - intros x Hx. by rewrite determine_float, (SFleb_zero_not_pos x Hx).
  - intros n Hn. rewrite determine_int. by destruct (Z.ltb_spec 0 n); [|lia].
  - intros n Hn. rewrite determine_int. by destruct (Z.ltb_spec 0 n); [lia|].
  - intros s Hs. by rewrite determine_text, Hs.
Qed.

End Classifier.

(** 1.5 is bullish, -1.25 and 0 are bearish, "n/a" is unknown. *)
Lemma determine_stock_trend_spec_witness :
  let H := Sample.builtins in
  let up := S754_finite false 6755399441055744 (-52) in
  let down := S754_finite true 5629499534213120 (-52) in
  (SFltb fzero up = true ∧ determine_stock_trend (PyFloat up) = Ret "bullish") ∧
  (SFleb down fzero = true ∧ determine_stock_trend (PyFloat down) = Ret "bearish") ∧
  ((0 ≤ 0)%Z ∧ determine_stock_trend (PyInt 0) = Ret "bearish") ∧
  (py_float "n/a" = None ∧ determine_stock_trend (PyStr "n/a") = Ret "unknown").
Proof.
  pose proof (determine_stock_trend_spec (H := Sample.builtins))
    as (Hpos & Hneg & _ & _ & Hint & _ & Htext).
  exact (conj (conj eq_refl (Hpos (S754_finite false 6755399441055744 (-52)) eq_refl))
        (conj (conj eq_refl (Hneg (S754_finite true 5629499534213120 (-52)) eq_refl))
        (conj (conj (Z.le_refl 0) (Hint 0%Z (Z.le_refl 0)))
              (conj eq_refl (Htext "n/a" eq_refl))))).
Defined.

Example determine_numeric_text :
  determine_stock_trend (H := Sample.builtins) (PyStr "2.75") = Ret "bullish" ∧
  determine_stock_trend (H := Sample.builtins) (PyStr "-0.4") = Ret "bearish" ∧
  determine_stock_trend (H := Sample.builtins) (PyStr "0") = Ret "bearish".
Proof. by vm_compute. Qed.

(** ** The record validator *)

Section Validator.
Context `{Builtins}.

Lemma truthy_spec (v : option string) : truthy v = true ↔ ∃ s, v = Some s ∧ s ≠ "".
Proof.
  destruct v as [s|]; simpl.
  - destruct (String.eqb_spec s ""); simpl; split; try done.
    + by intros (s' & [= <-] & Hs).
    + eauto.
  - split; [done|]. by intros (s & ? & _).
Qed.

Lemma rejected_truthy {A} (conv : string → option A) clean v :
  rejected conv clean v ↔ truthy v = true ∧ conv (clean (default "" v)) = None.
Proof.
  rewrite truthy_spec. unfold rejected. split.
  - intros (s & -> & Hs & Hc). eauto.
  - intros ((s & -> & Hs) & Hc). eauto.
Qed.

(** The three conversions, each tried only on a text that is there. *)
Ltac fields price change volume :=
  unfold float_of, int_of;
  destruct (truthy price) eqn:Hp;
    [destruct (py_float (str_remove "," (default "" price))) eqn:Hpf|];
  simpl;
  (destruct (truthy change) eqn:Hc;
     [destruct (py_float (str_remove "," (str_remove "%" (default "" change)))) eqn:Hcf|]);
  simpl;
  (destruct (truthy volume) eqn:Hv;
     [destruct (py_int (str_remove "," (default "" volume))) eqn:Hvf|]);
  simpl.

Lemma validate_invalid symbol price change volume :
  invalid_input symbol price change volume →
  ∃ msg, validate_stock_data symbol price change volume = Raise (Exn ValueError msg).
Proof.
  unfold invalid_input, validate_stock_data. intros Hbad.
  destruct (String.eqb symbol "" || (String.length symbol <? 2)%nat) eqn:Hsym; [eauto|].
  apply orb_false_iff in Hsym as [_ Hlen]. apply Nat.ltb_ge in Hlen.
  destruct Hbad as [Hl|Hbad]; [lia|].
  rewrite !rejected_truthy in Hbad. unfold clean_number, clean_percent in Hbad.
  fields price change volume; eauto;
    destruct Hbad as [[? ?]|[[? ?]|[? ?]]]; congruence.
Qed.

Lemma validate_valid symbol price change volume :
  ¬ invalid_input symbol price change volume →
  validate_stock_data symbol price change volume = Ret true.
Proof.
  unfold invalid_input, validate_stock_data. intros Hok.
  destruct (String.eqb_spec symbol "") as [->|_]; [exfalso; apply Hok; left; simpl; lia|].
  destruct (Nat.ltb_spec (String.length symbol) 2) as [?|_]; [exfalso; apply Hok; by left|].
  simpl. rewrite !rejected_truthy in Hok. unfold clean_number, clean_percent in Hok.
  fields price change volume; try done; exfalso; apply Hok; auto.
Qed.

Lemma rejected_dec {A} (conv : string → option A) clean v :
  rejected conv clean v ∨ ¬ rejected conv clean v.
Proof.
  rewrite rejected_truthy.
  destruct (truthy v); [|right; by intros [? _]].
  destruct (conv (clean (default "" v))); [right; by intros [_ ?] | by left].
Qed.

Lemma invalid_input_dec symbol price change volume :
  invalid_input symbol price change volume ∨ ¬ invalid_input symbol price change volume.
Proof.
  unfold invalid_input.
  destruct (decide (String.length symbol < 2)) as [|Hl]; [by auto|].
  destruct (rejected_dec py_float clean_number price) as [|Hp]; [by auto|].
  destruct (rejected_dec py_float clean_percent change) as [|Hc]; [by auto|].
  destruct (rejected_dec py_int clean_number volume) as [|Hv]; [by auto|].
  right. by intros [?|[?|[?|?]]].
Qed.

(** C8, as the code has it. Validation raises [ValueError] exactly when
    the symbol has fewer than two characters or a text that is given and
    not empty fails to convert once its separators (and, for the change,
    its percent sign) are removed; otherwise it returns [True]. *)
Theorem validate_stock_data_spec symbol price change volume :
  (invalid_input symbol price change volume ↔
   ∃ msg, validate_stock_data symbol price change volume = Raise (Exn ValueError msg)) ∧
  (¬ invalid_input symbol price change volume ↔
   validate_stock_data symbol price change volume = Ret true).
Proof.
  split; split.
  - apply validate_invalid.
  - intros [msg Hr].
    destruct (invalid_input_dec symbol price change volume) as [|Hok]; [done|].
    apply validate_valid in Hok. congruence.
  - apply validate_valid.
  - intros Hr Hbad. apply validate_invalid in Hbad as [msg Hbad]. congruence.
Qed.

End Validator.

(** A row as the table shows it passes; a price that is no number does
    not. *)
Lemma validate_stock_data_spec_witness :
  let H := Sample.builtins in
  (¬ invalid_input "RELIANCE" (Some "2,450.50") (Some "-1.25%") (Some "1,234,567") ∧
   validate_stock_data "RELIANCE" (Some "2,450.50") (Some "-1.25%") (Some "1,234,567")
     = Ret true) ∧
  (invalid_input "TCS" (Some "n/a") None None ∧
   ∃ msg, validate_stock_data "TCS" (Some "n/a") None None = Raise (Exn ValueError msg)).
Proof.
  pose proof (validate_stock_data_spec (H := Sample.builtins)
                "RELIANCE" (Some "2,450.50") (Some "-1.25%") (Some "1,234,567"))
    as [_ [Hret Hok]].
  pose proof (validate_stock_data_spec (H := Sample.builtins) "TCS" (Some "n/a") None None)
    as [[Hraise _] _].
  assert (Hbad : invalid_input (H := Sample.builtins) "TCS" (Some "n/a") None None).
  { right; left. exists "n/a". by vm_compute. }
  exact (conj (conj (Hok eq_refl) (Hret (Hok eq_refl))) (conj Hbad (Hraise Hbad))).
Defined.

(** C8 as stated fails on an empty text: [float('')] raises, so the price
    text is one that fails to parse, yet validation skips it and returns
    [True]. *)
Lemma validate_stock_data_accepts_empty_text :
  ¬ (invalid_as_specified (H := Sample.builtins) "AB" (Some "") (Some "") (Some "") →
     ∃ e, validate_stock_data (H := Sample.builtins) "AB" (Some "") (Some "") (Some "")
          = Raise e).
Proof.
  intros Hclaim. destruct Hclaim as [e He].
  - right; left. exists "". by vm_compute.
  - by vm_compute in He.
Qed.

Example validate_returns_true_not_a_record :
  validate_stock_data (H := Sample.builtins) "INFY" (Some "1,500") None None = Ret true.
Proof. by vm_compute. Qed.

Example validate_short_symbol :
  validate_stock_data (H := Sample.builtins) "X" (Some "1") None None
  = Raise (Exn ValueError "Invalid symbol: X").
Proof. by vm_compute. Qed.

(** ** The alignment filter *)

Section Filter.
Context `{Builtins}.

Lemma filter_loop_value bias stocks acc w :
  value (filter_loop bias stocks acc w)
  = Some (acc ++ List.filter (λ s, aligned bias (stock_trend s)) (map (stamp bias) stocks)).
Proof.
  unfold aligned. revert acc w. induction stocks as [|raw rest IH]; intros acc w.
  - by rewrite app_nil_r.
  - cbn [filter_loop map List.filter].
    destruct (String.eqb bias "bullish" && String.eqb (stock_trend (stamp bias raw)) "bullish").
    { rewrite bind_logging, IH. by rewrite <- app_assoc. }
    destruct (String.eqb bias "bearish" && String.eqb (stock_trend (stamp bias raw)) "bearish").
    { rewrite bind_logging, IH. by rewrite <- app_assoc. }
    destruct (String.eqb bias "neutral").
    { rewrite bind_logging, IH. by rewrite <- app_assoc. }
    apply IH.
Qed.

(** What the filter returns, for any bias and any batch. *)
Lemma filter_value stocks bias w :
  value (filter_stocks_by_market_trend stocks bias w)
  = Some (List.filter (λ s, aligned bias (stock_trend s)) (map (stamp bias) stocks)).
Proof.
  destruct stocks as [|raw rest]; [done|].
  unfold filter_stocks_by_market_trend.
  pose proof (filter_loop_value bias (raw :: rest) [] w) as Hloop.
  unfold value, mbind, M_bind in *.
  destruct (filter_loop bias (raw :: rest) [] w) as [[l|e] w']; [|done].
  simpl in *. congruence.
Qed.

Lemma filter_ext_trend (f g : Stock → bool) (l : list Stock) :
  (∀ s, f s = g s) → List.filter f l = List.filter g l.
Proof. intros Hfg. induction l as [|s l IH]; simpl; [done|]. by rewrite Hfg, IH. Qed.

Lemma filter_all (l : list Stock) : List.filter (λ _, true) l = l.
Proof. induction l as [|s l IH]; simpl; [done|]. by rewrite IH. Qed.

Lemma filter_none (l : list Stock) : List.filter (λ _, false) l = [].
Proof. by induction l. Qed.

Lemma observation_stamp bias raw : observation (stamp bias raw) = raw.
Proof. by destruct raw. Qed.

(** What the filter keeps, seen from the batch that went in: the stocks
    returned are, in order, the observations of the batch whose trend
    the bias admits, and each carries the bias. *)
Lemma filter_observations (stocks : list RawStock) (bias : string) (w : world) :
  ∃ out,
    value (filter_stocks_by_market_trend stocks bias w) = Some out ∧
    map observation out = List.filter (λ raw, aligned bias (r_stock_trend raw)) stocks ∧
    Forall (λ st, market_bias st = bias) out.
Proof.
  eexists. split; [apply filter_value|]. split.
  - induction stocks as [|raw rest IH]; [done|]. cbn [map List.filter].
    change (stock_trend (stamp bias raw)) with (r_stock_trend raw).
    destruct (aligned bias (r_stock_trend raw)); [|exact IH].
    cbn [map]. by rewrite observation_stamp, IH.
  - apply Forall_forall. intros st Hst.
    apply list_elem_of_In, filter_In in Hst as [Hin _].
    by apply list_elem_of_In, list_elem_of_fmap in Hin as (raw & -> & _).
Qed.

Lemma filter_ext_raw (f g : RawStock → bool) (l : list RawStock) :
  (∀ raw, f raw = g raw) → List.filter f l = List.filter g l.
Proof. intros Hfg. induction l as [|raw l IH]; simpl; [done|]. by rewrite Hfg, IH. Qed.

Lemma filter_all_raw (l : list RawStock) : List.filter (λ _, true) l = l.
Proof. induction l as [|raw l IH]; simpl; [done|]. by rewrite IH. Qed.

(** C6. Under a bullish bias the filter returns exactly the observations
    of the batch whose trend is bullish, under a bearish bias exactly
    those whose trend is bearish, under a neutral bias the whole batch,
    under an unknown bias nothing. What is returned is the observations
    themselves, in the order of the batch, with nothing changed but the
    bias each now carries. *)
Theorem filter_stocks_by_market_trend_spec (stocks : list RawStock) (w : world) :
  (∃ out,
     value (filter_stocks_by_market_trend stocks "bullish" w) = Some out ∧
     map observation out
     = List.filter (λ raw, String.eqb (r_stock_trend raw) "bullish") stocks ∧
     Forall (λ st, market_bias st = "bullish") out) ∧
  (∃ out,
     value (filter_stocks_by_market_trend stocks "bearish" w) = Some out ∧
     map observation out
     = List.filter (λ raw, String.eqb (r_stock_trend raw) "bearish") stocks ∧
     Forall (λ st, market_bias st = "bearish") out) ∧
  (∃ out,
     value (filter_stocks_by_market_trend stocks "neutral" w) = Some out ∧
     map observation out = stocks ∧
     Forall (λ st, market_bias st = "neutral") out) ∧
  value (filter_stocks_by_market_trend stocks "unknown" w) = Some [].
Proof.
  split_and!.
  - destruct (filter_observations stocks "bullish" w) as (out & Hv & Hobs & Hb).
    exists out. split_and!; [done | | done]. rewrite Hobs. apply filter_ext_raw.
    intros raw. unfold aligned. cbn. by destruct (String.eqb (r_stock_trend raw) "bullish").
  - destruct (filter_observations stocks "bearish" w) as (out & Hv & Hobs & Hb).
    exists out. split_and!; [done | | done]. rewrite Hobs. apply filter_ext_raw.
    intros raw. unfold aligned. cbn. by destruct (String.eqb (r_stock_trend raw) "bearish").
  - destruct (filter_observations stocks "neutral" w) as (out & Hv & Hobs & Hb).
    exists out. split_and!; [done | | done]. rewrite Hobs.
    rewrite <- (filter_all_raw stocks) at 2. apply filter_ext_raw.
    intros raw. by unfold aligned.
  - rewrite filter_value. f_equal.
    rewrite <- (filter_none (map (stamp "unknown") stocks)).
    by apply filter_ext_trend.
Qed.

(** Under a neutral bias the symbols, prices and trends come back as they
    went in, in the same order. *)
Lemma filter_neutral_members (stocks : list RawStock) (w : world) :
  ∃ out, value (filter_stocks_by_market_trend stocks "neutral" w) = Some out ∧
         map symbol out = map r_symbol stocks ∧
         map stock_trend out = map r_stock_trend stocks ∧
         map market_bias out = map (λ _, "neutral") stocks.
Proof.
  exists (map (stamp "neutral") stocks). split.
  - rewrite filter_value. f_equal. rewrite <- (filter_all (map _ _)) at 2.
    apply filter_ext_trend. intros s. by unfold aligned.
  - by rewrite !map_map.
Qed.

(** Any bias other than the three the filter names keeps nothing:
    "unknown" is not singled out. *)
Lemma filter_other_bias (stocks : list RawStock) (bias : string) (w : world) :
  bias ≠ "bullish" → bias ≠ "bearish" → bias ≠ "neutral" →
  value (filter_stocks_by_market_trend stocks bias w) = Some [].
Proof.
  intros H1 H2 H3. rewrite filter_value. f_equal.
  rewrite <- (filter_none (map (stamp bias) stocks)). apply filter_ext_trend.
  intros s. unfold aligned.
  destruct (String.eqb_spec bias "bullish"); [done|].
  destruct (String.eqb_spec bias "bearish"); [done|].
  by destruct (String.eqb_spec bias "neutral").
Qed.

(** The filter only logs. *)
Lemma filter_frame stocks bias w :
  files (snd (filter_stocks_by_market_trend stocks bias w)) = files w.
Proof.
  assert (Hloop : ∀ l acc w0, files (snd (filter_loop bias l acc w0)) = files w0).
  { induction l as [|raw rest IH]; intros acc w0; [done|].
    cbn [filter_loop].
    repeat (match goal with |- context [if ?b then _ else _] => destruct b end);
      rewrite ?bind_logging, ?IH; done. }
  destruct stocks as [|raw rest]; [done|].
  unfold filter_stocks_by_market_trend, mbind, M_bind.
  specialize (Hloop (raw :: rest) [] w).
  destruct (filter_loop bias (raw :: rest) [] w) as [[l|e] w']; simpl in *; done.
Qed.

End Filter.

(** ** The cross-source aggregator *)

Section Aggregator.
Context `{Builtins}.

Lemma update_if_any_run what (s c : gset string) (w : world) :
  ∃ w', update_if_any what s c w = (Ret (c ∪ s), w') ∧ files w' = files w.
Proof.
  unfold update_if_any. destruct (decide (s = ∅)) as [->|Hne].
  - exists w. by rewrite (right_id_L ∅ (∪)).
  - eexists. by rewrite bind_logging.
Qed.

Lemma index_stock_lookup (m : gmap string (list Stock)) (st : Stock) (sym : string) :
  index_stock m st !! sym =
  if decide (symbol st = sym) then Some (default [] (m !! sym) ++ [st]) else m !! sym.
Proof.
  unfold index_stock.
  destruct (decide (symbol st = sym)) as [<-|Hne].
  - rewrite lookup_insert_eq.
    destruct (decide (is_Some (m !! symbol st))) as [[l Hl]|Hnone]; [done|].
    rewrite lookup_insert_eq. apply eq_None_not_Some in Hnone. by rewrite Hnone.
  - rewrite lookup_insert_ne by done.
    destruct (decide (is_Some (m !! symbol st))); [done|].
    by rewrite lookup_insert_ne.
Qed.

Lemma index_list_lookup (l : list Stock) (m : gmap string (list Stock)) (sym : string) :
  foldl index_stock m l !! sym =
  match instances sym l with
  | [] => m !! sym
  | found => Some (default [] (m !! sym) ++ found)
  end.
Proof.
  revert m. induction l as [|st l IH]; intros m; [done|].
  cbn [foldl]. rewrite IH, index_stock_lookup. unfold instances.
  rewrite filter_cons. destruct (decide (symbol st = sym)) as [Heq|Hne]; [|done].
  simpl. destruct (filter _ l) as [|st' found]; [done|].
  by rewrite <- app_assoc.
Qed.

Lemma instances_app sym l1 l2 : instances sym (l1 ++ l2) = instances sym l1 ++ instances sym l2.
Proof. apply filter_app. Qed.

Lemma index_all_lookup (s : Screeners) (sym : string) :
  index_all s !! sym =
  match instances sym (all_stocks s) with
  | [] => None
  | found => Some found
  end.
Proof.
  unfold index_all, all_stocks, screeners_items. cbn [foldl snd].
  rewrite !index_list_lookup, !instances_app, lookup_empty.
  destruct (instances sym (of_price_crossover_200 s)) as [|a la],
    (instances sym (of_one_hour_rsi s)) as [|b lb],
    (instances sym (of_five_min_rsi s)) as [|c lc]; simpl; try done.
  all: by rewrite ?app_nil_r, <- ?app_assoc.
Qed.

Lemma instances_symbols sym l : sym ∈ symbols_of l ↔ instances sym l ≠ [].
Proof.
  unfold symbols_of, instances. rewrite elem_of_list_to_set, list_elem_of_fmap.
  split.
  - intros (st & -> & Hin) Hnil.
    assert (st ∈ filter (λ st', symbol st' = symbol st) l) as Hf
      by by apply list_elem_of_filter.
    rewrite Hnil in Hf. by apply elem_of_nil in Hf.
  - intros Hne. destruct (filter _ l) as [|st found] eqn:Hf; [done|].
    assert (st ∈ filter (λ st', symbol st' = sym) l) as Hin by (rewrite Hf; left).
    apply list_elem_of_filter in Hin as [Hs Hin]. eauto.
Qed.

Lemma combine_loop_run (syms : list string) (s : Screeners) (acc : list CombinedStock)
    (w : world) :
  ∃ w', combine_loop syms (index_all s) acc w = (Ret (acc ++ omap (combined_of s) syms), w')
        ∧ files w' = files w.
Proof.
  revert acc w. induction syms as [|sym syms IH]; intros acc w.
  - exists w. by rewrite app_nil_r.
  - cbn [combine_loop omap list_omap]. rewrite index_all_lookup.
    assert (Hc : combined_of s sym = match instances sym (all_stocks s) with
                                     | [] => None
                                     | b :: r => Some (combine sym (b :: r) b)
                                     end) by done.
    destruct (instances sym (all_stocks s)) as [|base_stock rest];
      rewrite Hc; cbn [default from_option id].
    + apply IH.
    + rewrite bind_logging.
      destruct (IH (acc ++ [combine sym (base_stock :: rest) base_stock])
                  (add_log (INFO, "Combined stock: " +:+ sym +:+ " found in " +:+
                     pretty (match_count (combine sym (base_stock :: rest) base_stock))
                     +:+ " screeners") w))
        as (w' & -> & Hfiles).
      exists w'. by rewrite <- app_assoc.
Qed.

Lemma two_or_more_sets (pc oh fm : gset string) :
  ∅ ∪ pc ∩ oh ∩ fm ∪ pc ∩ (oh ∖ fm) ∪ pc ∩ (fm ∖ oh) ∪ oh ∩ (fm ∖ pc)
  = (pc ∩ oh) ∪ (pc ∩ fm) ∪ (oh ∩ fm) ∪ (pc ∩ oh ∩ fm).
Proof.
  apply set_eq. intros x.
  rewrite !elem_of_union, !elem_of_intersection, !elem_of_difference, elem_of_empty.
  destruct (decide (x ∈ pc)), (decide (x ∈ oh)), (decide (x ∈ fm)); tauto.
Qed.

(** What the aggregator returns: one entry per symbol found in two or
    more screeners, in the order the set is iterated; it only logs. *)
Lemma find_stocks_run (rd : ResultsData) (w : world) :
  ∃ w', find_stocks_in_multiple_screeners rd w
        = (Ret (omap (combined_of (screeners rd))
                  (elements (in_two_or_more (screeners rd)))), w')
        ∧ files w' = files w.
Proof.
  unfold find_stocks_in_multiple_screeners.
  set (pc := symbols_of (of_price_crossover_200 (screeners rd))).
  set (oh := symbols_of (of_one_hour_rsi (screeners rd))).
  set (fm := symbols_of (of_five_min_rsi (screeners rd))).
  destruct (update_if_any_run "all three screeners" (pc ∩ oh ∩ fm) ∅ w)
    as (w1 & Hr1 & Hf1).
  rewrite (bind_run _ _ _ _ _ Hr1).
  destruct (update_if_any_run "price_crossover and one_hour_rsi" (pc ∩ (oh ∖ fm))
              (∅ ∪ pc ∩ oh ∩ fm) w1) as (w2 & Hr2 & Hf2).
  rewrite (bind_run _ _ _ _ _ Hr2).
  destruct (update_if_any_run "price_crossover and five_min_rsi" (pc ∩ (fm ∖ oh))
              (∅ ∪ pc ∩ oh ∩ fm ∪ pc ∩ (oh ∖ fm)) w2) as (w3 & Hr3 & Hf3).
  rewrite (bind_run _ _ _ _ _ Hr3).
  destruct (update_if_any_run "one_hour_rsi and five_min_rsi" (oh ∩ (fm ∖ pc))
              (∅ ∪ pc ∩ oh ∩ fm ∪ pc ∩ (oh ∖ fm) ∪ pc ∩ (fm ∖ oh)) w3)
    as (w4 & Hr4 & Hf4).
  rewrite (bind_run _ _ _ _ _ Hr4).
  rewrite two_or_more_sets.
  destruct (combine_loop_run
              (elements (pc ∩ oh ∪ pc ∩ fm ∪ oh ∩ fm ∪ pc ∩ oh ∩ fm)) (screeners rd) [] w4)
    as (w5 & Hr5 & Hf5).
  exists w5. split; [exact Hr5 | congruence].
Qed.

Lemma in_two_or_more_spec (s : Screeners) (sym : string) :
  sym ∈ in_two_or_more s ↔
  (sym ∈ symbols_of (of_price_crossover_200 s) ∧ sym ∈ symbols_of (of_one_hour_rsi s)) ∨
  (sym ∈ symbols_of (of_price_crossover_200 s) ∧ sym ∈ symbols_of (of_five_min_rsi s)) ∨
  (sym ∈ symbols_of (of_one_hour_rsi s) ∧ sym ∈ symbols_of (of_five_min_rsi s)).
Proof.
  unfold in_two_or_more. rewrite !elem_of_union, !elem_of_intersection. tauto.
Qed.

Lemma instances_length sym l : sym ∈ symbols_of l → 1 ≤ length (instances sym l).
Proof.
  rewrite instances_symbols. destruct (instances sym l); [done | simpl; lia].
Qed.

(** A symbol found in two screeners has at least two instances. *)
Lemma instances_two_or_more (s : Screeners) (sym : string) :
  sym ∈ in_two_or_more s → 2 ≤ length (instances sym (all_stocks s)).
Proof.
  rewrite in_two_or_more_spec. unfold all_stocks.
  rewrite !instances_app, !length_app.
  intros [[H1 H2]|[[H1 H2]|[H1 H2]]];
    apply instances_length in H1; apply instances_length in H2; lia.
Qed.

Lemma combined_of_two_or_more (s : Screeners) (sym : string) :
  sym ∈ in_two_or_more s →
  ∃ base_stock rest,
    instances sym (all_stocks s) = base_stock :: rest ∧
    combined_of s sym = Some (combine sym (base_stock :: rest) base_stock).
Proof.
  intros Hin. apply instances_two_or_more in Hin. unfold combined_of.
  destruct (instances sym (all_stocks s)) as [|base_stock rest]; [simpl in Hin; lia|].
  eauto.
Qed.

Lemma combined_symbols (s : Screeners) (syms : list string) :
  Forall (λ sym, sym ∈ in_two_or_more s) syms →
  map c_symbol (omap (combined_of s) syms) = syms.
Proof.
  induction 1 as [|sym syms Hin _ IH]; [done|].
  cbn [omap list_omap].
  destruct (combined_of_two_or_more s sym Hin) as (b & r & _ & ->).
  cbn. by rewrite IH.
Qed.

Lemma elements_two_or_more (s : Screeners) :
  Forall (λ sym, sym ∈ in_two_or_more s) (elements (in_two_or_more s)).
Proof. apply Forall_forall. intros sym. by rewrite elem_of_elements. Qed.

(** The symbols of what the aggregator returns, in order. *)
Lemma find_stocks_symbol_list (rd : ResultsData) (w : world) :
  ∃ combined w',
    find_stocks_in_multiple_screeners rd w = (Ret combined, w') ∧
    map c_symbol combined = elements (in_two_or_more (screeners rd)).
Proof.
  destruct (find_stocks_run rd w) as (w' & Hrun & _).
  eexists _, w'. split; [exact Hrun|].
  by rewrite combined_symbols by apply elements_two_or_more.
Qed.

Lemma symbols_of_lists (s : Screeners) (k : ScreenerType) (sym : string) :
  sym ∈ symbols_of (screeners_get s k) ↔ lists s k sym.
Proof.
  unfold symbols_of, lists. rewrite elem_of_list_to_set, list_elem_of_fmap.
  split; intros (st & H1 & H2); exists st; by split.
Qed.

(** C4. The aggregator returns on every input, and the symbols of what it
    returns are exactly those that at least two of the three lists hold a
    stock for, each once: a symbol that one list alone holds is left out,
    and an empty list adds none. *)
Theorem find_stocks_symbols (rd : ResultsData) (w : world) :
  ∃ combined w',
    find_stocks_in_multiple_screeners rd w = (Ret combined, w') ∧
    NoDup (map c_symbol combined) ∧
    ∀ sym,
      sym ∈ map c_symbol combined ↔
      (lists (screeners rd) price_crossover_200 sym ∧ lists (screeners rd) one_hour_rsi sym) ∨
      (lists (screeners rd) price_crossover_200 sym ∧ lists (screeners rd) five_min_rsi sym) ∨
      (lists (screeners rd) one_hour_rsi sym ∧ lists (screeners rd) five_min_rsi sym) ∨
      (lists (screeners rd) price_crossover_200 sym ∧ lists (screeners rd) one_hour_rsi sym ∧
       lists (screeners rd) five_min_rsi sym).
Proof.
  destruct (find_stocks_symbol_list rd w) as (combined & w' & Hrun & Hsyms).
  exists combined, w'. split; [exact Hrun|]. rewrite Hsyms.
  split; [apply NoDup_elements|]. intros sym.
  rewrite elem_of_elements, in_two_or_more_spec, <- !symbols_of_lists. tauto.
Qed.

(** A symbol found in one screener only is left out. *)
Lemma find_stocks_single_source (rd : ResultsData) (w : world) (sym : string) :
  sym ∈ symbols_of (of_price_crossover_200 (screeners rd)) →
  sym ∉ symbols_of (of_one_hour_rsi (screeners rd)) →
  sym ∉ symbols_of (of_five_min_rsi (screeners rd)) →
  ∃ combined w',
    find_stocks_in_multiple_screeners rd w = (Ret combined, w') ∧
    sym ∉ map c_symbol combined.
Proof.
  intros Hpc Hoh Hfm.
  destruct (find_stocks_symbol_list rd w) as (combined & w' & Hrun & Hsyms).
  exists combined, w'. split; [done|].
  rewrite Hsyms, elem_of_elements, in_two_or_more_spec. tauto.
Qed.

(** With an empty list for one screener, what is left is the intersection
    of the other two. *)
Lemma find_stocks_empty_source (rd : ResultsData) (w : world) :
  of_five_min_rsi (screeners rd) = [] →
  ∃ combined w',
    find_stocks_in_multiple_screeners rd w = (Ret combined, w') ∧
    list_to_set (map c_symbol combined)
    = symbols_of (of_price_crossover_200 (screeners rd)) ∩
      symbols_of (of_one_hour_rsi (screeners rd)).
Proof.
  intros Hfm.
  destruct (find_stocks_symbol_list rd w) as (combined & w' & Hrun & Hsyms).
  exists combined, w'. split; [done|].
  rewrite Hsyms, list_to_set_elements_L. unfold in_two_or_more. rewrite Hfm.
  apply set_eq. intros x. unfold symbols_of at 3 4 6. cbn [map list_to_set].
  rewrite !elem_of_union, !elem_of_intersection, elem_of_empty. tauto.
Qed.

(** Each entry returned is the consolidated entry of a symbol found in two
    or more screeners, built from all the stocks that carry the symbol. *)
Lemma find_stocks_entries (rd : ResultsData) (w w' : world) (combined : list CombinedStock)
    (c : CombinedStock) :
  find_stocks_in_multiple_screeners rd w = (Ret combined, w') →
  c ∈ combined →
  ∃ sym base_stock rest,
    sym ∈ in_two_or_more (screeners rd) ∧
    instances sym (all_stocks (screeners rd)) = base_stock :: rest ∧
    c = combine sym (base_stock :: rest) base_stock.
Proof.
  intros Hrun Hc.
  destruct (find_stocks_run rd w) as (w1 & Hrun1 & _).
  rewrite Hrun in Hrun1. injection Hrun1 as -> _.
  apply list_elem_of_omap in Hc as (sym & Hsym & Hcomb).
  apply elem_of_elements in Hsym.
  destruct (combined_of_two_or_more _ _ Hsym) as (b & r & Hinst & Hsome).
  exists sym, b, r. split_and!; [done | done | congruence].
Qed.

(** The count is the length of the list of screeners, and is at least
    two, whatever the input. *)
Lemma find_stocks_match_count (rd : ResultsData) (w w' : world)
    (combined : list CombinedStock) (c : CombinedStock) :
  find_stocks_in_multiple_screeners rd w = (Ret combined, w') →
  c ∈ combined →
  match_count c = length (screeners_found_in c) ∧ 2 ≤ match_count c.
Proof.
  intros Hrun Hc.
  destruct (find_stocks_entries _ _ _ _ _ Hrun Hc) as (sym & b & r & Hsym & Hinst & ->).
  split; [done|]. cbn [combine match_count]. rewrite length_map, <- Hinst.
  by apply instances_two_or_more.
Qed.

Lemma instances_absent sym l : sym ∉ map symbol l → instances sym l = [].
Proof.
  intros Hnot. destruct (instances sym l) as [|st found] eqn:Hf; [done|].
  exfalso. apply Hnot.
  assert (st ∈ instances sym l) as Hin by (rewrite Hf; left).
  apply list_elem_of_filter in Hin as [<- Hin]. by apply list_elem_of_fmap_2.
Qed.

Lemma instances_at_most_one sym l : NoDup (map symbol l) → length (instances sym l) ≤ 1.
Proof.
  induction l as [|st l IH]; intros Hnd; [simpl; lia|].
  cbn [map] in Hnd. apply NoDup_cons in Hnd as [Hnot Hnd].
  unfold instances. rewrite filter_cons.
  destruct (decide (symbol st = sym)) as [<-|Hne]; [|by apply IH].
  fold (instances (symbol st) l). by rewrite instances_absent.
Qed.

Lemma instances_tags sym l k :
  Forall (λ st, screener_type st = k) l →
  map screener_type (instances sym l) = replicate (length (instances sym l)) k.
Proof.
  intros Hall.
  assert (Forall (λ st, screener_type st = k) (instances sym l)) as Hf.
  { rewrite Forall_forall in Hall. apply Forall_forall.
    intros st [_ Hin]%list_elem_of_filter. by apply Hall. }
  induction Hf as [|st found Hst _ IH]; [done|]. simpl. by rewrite Hst, IH.
Qed.

(** When no screener lists a symbol twice and every stock carries the key
    of its screener, no entry names a screener twice. *)
Lemma find_stocks_sources_nodup (rd : ResultsData) (w w' : world)
    (combined : list CombinedStock) (c : CombinedStock) :
  well_tagged (screeners rd) → no_repeats (screeners rd) →
  find_stocks_in_multiple_screeners rd w = (Ret combined, w') →
  c ∈ combined →
  NoDup (screeners_found_in c).
Proof.
  intros Htag Hrep Hrun Hc.
  destruct (find_stocks_entries _ _ _ _ _ Hrun Hc) as (sym & b & r & _ & Hinst & ->).
  cbn [combine screeners_found_in]. rewrite <- Hinst. unfold all_stocks.
  rewrite !instances_app, !map_app.
  pose proof (instances_tags sym _ _ (Htag price_crossover_200)) as T1.
  pose proof (instances_tags sym _ _ (Htag one_hour_rsi)) as T2.
  pose proof (instances_tags sym _ _ (Htag five_min_rsi)) as T3.
  pose proof (instances_at_most_one sym _ (Hrep price_crossover_200)) as H1.
  pose proof (instances_at_most_one sym _ (Hrep one_hour_rsi)) as H2.
  pose proof (instances_at_most_one sym _ (Hrep five_min_rsi)) as H3.
  cbn [screeners_get] in *. rewrite T1, T2, T3. clear T1 T2 T3.
  destruct (length (instances sym (of_price_crossover_200 (screeners rd))))
    as [|[|n1]]; [| |lia];
  destruct (length (instances sym (of_one_hour_rsi (screeners rd))))
    as [|[|n2]]; try lia;
  destruct (length (instances sym (of_five_min_rsi (screeners rd))))
    as [|[|n3]]; try lia;
  cbn [replicate app]; by apply (bool_decide_unpack _).
Qed.

(** C3 at a repeated symbol. AAA is in two screeners; the entry built for
    it names price_crossover_200 twice and counts three matches. *)
Theorem find_stocks_repeated_symbol :
  ∃ c, value (find_stocks_in_multiple_screeners repeated_symbol_results empty_world)
       = Some [c] ∧
       c_symbol c = "AAA" ∧
       screeners_found_in c = [price_crossover_200; price_crossover_200; one_hour_rsi] ∧
       match_count c = 3 ∧
       ¬ NoDup (screeners_found_in c).
Proof.
  eexists. split; [by vm_compute|].
  cbn [combine c_symbol screeners_found_in match_count length map].
  split_and!; try done.
  intros Hnd. apply NoDup_cons in Hnd as [Hnot _]. apply Hnot. left.
Qed.

(** Scenario A: S1 = {AAA, BBB}, S2 = {BBB, CCC}, S3 = {}. *)
Example find_stocks_scenario_a :
  (λ l, map (λ c, (c_symbol c, screeners_found_in c, match_count c)) l) <$>
  value (find_stocks_in_multiple_screeners
           (results_of [stock_of "AAA" price_crossover_200; stock_of "BBB" price_crossover_200]
                       [stock_of "BBB" one_hour_rsi; stock_of "CCC" one_hour_rsi] [])
           empty_world)
  = Some [("BBB", [price_crossover_200; one_hour_rsi], 2)].
Proof. by vm_compute. Qed.

(** Scenario B: all three screeners hold XYZ. *)
Example find_stocks_scenario_b :
  (λ l, map (λ c, (c_symbol c, screeners_found_in c, match_count c)) l) <$>
  value (find_stocks_in_multiple_screeners
           (results_of [stock_of "XYZ" price_crossover_200] [stock_of "XYZ" one_hour_rsi]
                       [stock_of "XYZ" five_min_rsi])
           empty_world)
  = Some [("XYZ", [price_crossover_200; one_hour_rsi; five_min_rsi], 3)].
Proof. by vm_compute. Qed.

End Aggregator.

(** ** Market bias *)

Section MarketBias.
Context `{Builtins}.

Lemma load_page_failed url (p : page_load) w :
  page_failed p →
  ∃ w', load_page url p w = (Ret false, w') ∧ files w' = files w.
Proof.
  unfold page_failed, load_page. destruct p as [|e|e]; [done| |]; intros He.
  - rewrite (try_except_caught _ _ w w e) by done. by eexists.
  - rewrite (try_except_caught _ _ w
               (add_log (INFO, "Accessing " +:+ url +:+ "...") w) e) by done.
    by eexists.
Qed.

Lemma run_probe_load_failed label Label url (p : probe) indices w :
  probe_load_failed p →
  ∃ w', run_probe label Label url p indices w = (Ret indices, w') ∧ files w' = files w.
Proof.
  intros Hp. unfold run_probe.
  destruct (load_page_failed url (probe_page p) w Hp) as (w' & Hl & Hf).
  rewrite (bind_run _ _ _ _ _ Hl). by exists w'.
Qed.

(** C1 on the code. When both probe pages fail to load, no index is
    collected either way and the bias comes out "neutral", not
    "unknown". *)
Theorem check_market_trend_probes_fail (bullish bearish : probe) (now : datetime)
    (w : world) :
  probe_load_failed bullish → probe_load_failed bearish →
  value (check_market_trend bullish bearish now WriteOk w) = Some "neutral".
Proof.
  intros Hb1 Hb2. unfold check_market_trend.
  destruct (run_probe_load_failed "bullish" "Bullish" MARKET_BULLISH_URL bullish [] w Hb1)
    as (w1 & Hr1 & _).
  rewrite (bind_run _ _ _ _ _ Hr1).
  destruct (run_probe_load_failed "bearish" "Bearish" MARKET_BEARISH_URL bearish [] w1 Hb2)
    as (w2 & Hr2 & _).
  by rewrite (bind_run _ _ _ _ _ Hr2).
Qed.

(** The bias returned is the one [classify_market] gives for the indices
    read, whatever the probes do: it is never "unknown". *)
Lemma check_market_trend_classifies bullish bearish now fault w bias :
  value (check_market_trend bullish bearish now fault w) = Some bias →
  ∃ b1 b2, bias = classify_market b1 b2.
Proof.
  rewrite value_ret. intros (w' & Hrun). unfold check_market_trend in Hrun.
  apply bind_ret_inv in Hrun as (b1 & w1 & _ & Hrun).
  apply bind_ret_inv in Hrun as (b2 & w2 & _ & Hrun).
  apply bind_ret_inv in Hrun as (? & w3 & _ & Hrun).
  apply bind_ret_inv in Hrun as (? & w4 & _ & Hrun).
  injection Hrun as <- _. by exists b1, b2.
Qed.

Lemma classify_market_cases b1 b2 :
  classify_market b1 b2 = "bullish" ∨ classify_market b1 b2 = "bearish" ∨
  classify_market b1 b2 = "neutral".
Proof.
  unfold classify_market.
  destruct (key_count b2 <? key_count b1)%nat; [by left|].
  destruct (key_count b1 <? key_count b2)%nat; auto.
Qed.

Lemma check_market_trend_never_unknown bullish bearish now fault w :
  value (check_market_trend bullish bearish now fault w) ≠ Some "unknown".
Proof.
  intros Hv. apply check_market_trend_classifies in Hv as (b1 & b2 & Hb).
  by destruct (classify_market_cases b1 b2) as [Hc|[Hc|Hc]]; rewrite Hc in Hb.
Qed.

(** Swapping the two index lists swaps "bullish" and "bearish". *)
Lemma classify_market_swap b1 b2 :
  classify_market b2 b1 =
  (if String.eqb (classify_market b1 b2) "bullish" then "bearish"
   else if String.eqb (classify_market b1 b2) "bearish" then "bullish"
   else "neutral").
Proof.
  unfold classify_market.
  destruct (Nat.ltb_spec (key_count b2) (key_count b1)),
           (Nat.ltb_spec (key_count b1) (key_count b2)); try done; lia.
Qed.

(** Scenario C: one key index bullish, two bearish. *)
Example classify_market_scenario_c :
  classify_market ["NIFTY"; "SENSEX"] ["BANKNIFTY"; "NIFTYFINSERVICE"] = "bearish".
Proof. reflexivity. Qed.

End MarketBias.

(** Both probe pages time out. *)
Lemma check_market_trend_probes_fail_witness :
  let H := Sample.builtins in
  let timeout := GetFails (Exn WebDriverException "timeout") in
  let p := {| probe_page := timeout; probe_scan := ScanDone; probe_table := IndexRows [] |} in
  probe_load_failed p ∧
  value (check_market_trend p p (DateTime 2026 11 4 10 0 0 0) WriteOk empty_world)
  = Some "neutral".
Proof.
  assert (Hp : probe_load_failed
                 {| probe_page := GetFails (Exn WebDriverException "timeout");
                    probe_scan := ScanDone; probe_table := IndexRows [] |}) by done.
  exact (conj Hp (check_market_trend_probes_fail (H := Sample.builtins) _ _
                    (DateTime 2026 11 4 10 0 0 0) empty_world Hp Hp)).
Defined.

(** ** The persistent state store *)

Section Store.
Context `{Builtins}.

Lemma temp_is_not_canonical : TEMP_FILE ≠ RESULTS_FILE.
Proof. done. Qed.

Lemma load_run (fault : option exn) (w : world) :
  ∃ r w', load_current_results fault w = (r, w') ∧
          files w' = files w ∧ slept w' = slept w ∧ drivers w' = drivers w ∧
          value (r, w') = loaded fault (files w !! RESULTS_FILE).
Proof.
  unfold load_current_results, loaded.
  destruct (files w !! RESULTS_FILE) as [text|] eqn:Hfile.
  - destruct fault as [e|].
    + destruct (is_Exception e) eqn:He.
      * erewrite try_except_caught; [| |exact He].
        2:{ rewrite bind_eq, (os_path_exists_present _ _ _ Hfile). reflexivity. }
        by eexists _, _.
      * erewrite try_except_passed; [| |exact He].
        2:{ rewrite bind_eq, (os_path_exists_present _ _ _ Hfile). reflexivity. }
        by eexists _, _.
    + destruct (json_loads_results text) as [data|] eqn:Hjson.
      * erewrite try_except_ret.
        2:{ rewrite bind_eq, (os_path_exists_present _ _ _ Hfile). cbv beta iota.
            rewrite bind_eq. unfold read_file. rewrite Hfile, Hjson. reflexivity. }
        by eexists _, _.
      * rewrite (try_except_caught _ _ w w (Exn JSONDecodeError "Expecting value"));
          [by eexists _, _ | | done].
        rewrite bind_eq, (os_path_exists_present _ _ _ Hfile). cbv beta iota.
        rewrite bind_eq. unfold read_file. by rewrite Hfile, Hjson.
  - erewrite try_except_ret.
    2:{ rewrite bind_eq, (os_path_exists_absent _ _ Hfile). reflexivity. }
    by eexists _, _.
Qed.

Lemma load_value (fault : option exn) (w : world) :
  value (load_current_results fault w) = loaded fault (files w !! RESULTS_FILE).
Proof. destruct (load_run fault w) as (r & w' & -> & _ & _ & _ & Hv). exact Hv. Qed.

(** Loading looks at the canonical file only. *)
Lemma load_reads_canonical (fault : option exn) (w1 w2 : world) :
  files w1 !! RESULTS_FILE = files w2 !! RESULTS_FILE →
  value (load_current_results fault w1) = value (load_current_results fault w2).
Proof. intros Hsame. by rewrite !load_value, Hsame. Qed.

(** With no file, and with a file that cannot be read or parsed, loading
    returns the defaults: it never raises an [Exception]. *)
Lemma load_missing_file (fault : option exn) (w : world) :
  files w !! RESULTS_FILE = None →
  value (load_current_results fault w) = Some (JsonResults empty_results).
Proof. intros Hnone. by rewrite load_value, Hnone. Qed.

(** With no fault, the state is written in full to the temporary file,
    which then replaces the canonical one in a single step. *)
Lemma save_succeeds (data : ResultsData) (f : save_faults) (w : world) :
  save_failure f = None →
  ∃ w', save_scan_results data f w = (Ret (), w') ∧
        files w' = <[RESULTS_FILE := json_dumps_results data]> (delete TEMP_FILE (files w)) ∧
        slept w' = slept w ∧ drivers w' = drivers w.
Proof.
  unfold save_failure. destruct f as [tw rf mf]. cbn [temp_write replace_fault].
  destruct tw; [|done|done]. intros ->.
  unfold save_scan_results. cbn [temp_write replace_fault remove_fault].
  eexists. erewrite try_except_ret.
  2:{ rewrite bind_eq. unfold write_file. cbv beta iota.
      rewrite bind_eq. unfold os_replace. cbn [files set_files].
      rewrite lookup_insert_eq. reflexivity. }
  split; [done|]. cbn [files add_log set_files slept drivers].
  by rewrite delete_insert_eq.
Qed.

(** The [except] block of [save_scan_results], run in a world [w1]: the
    temporary file is gone afterwards and nothing else has changed. *)
Lemma save_cleanup_run (e : exn) (w1 : world) :
  ∃ w2,
    (logging ERROR ("Error saving to results file: " +:+ exn_msg e);;
     present ← os_path_exists (RESULTS_FILE +:+ ".tmp");
     (if present : bool then os_remove (RESULTS_FILE +:+ ".tmp") None else mret ());;
     (raise e : M unit)) w1 = (Raise e, w2) ∧
    files w2 = delete TEMP_FILE (files w1) ∧
    slept w2 = slept w1 ∧ drivers w2 = drivers w1.
Proof.
  rewrite bind_logging, bind_eq.
  destruct (files w1 !! TEMP_FILE) as [text|] eqn:Htemp.
  - rewrite (os_path_exists_present _ _ text) by done. cbv beta iota.
    rewrite bind_eq. unfold os_remove. cbn [files add_log].
    fold TEMP_FILE. rewrite Htemp. by eexists.
  - rewrite os_path_exists_absent by done. eexists. split; [done|].
    cbn [files add_log slept drivers]. by rewrite delete_id.
Qed.

(** What the body of [save_scan_results] does when a step of it fails: it
    raises, having touched the temporary file at most. *)
Lemma save_body_fails (data : ResultsData) (f : save_faults) (w : world) (e : exn) :
  save_failure f = Some e →
  ∃ w1,
    (write_file (RESULTS_FILE +:+ ".tmp") (json_dumps_results data) (temp_write f);;
     os_replace (RESULTS_FILE +:+ ".tmp") RESULTS_FILE (replace_fault f);;
     logging INFO "Successfully saved scan results to file") w = (Raise e, w1) ∧
    files w1 !! RESULTS_FILE = files w !! RESULTS_FILE ∧
    slept w1 = slept w ∧ drivers w1 = drivers w.
Proof.
  unfold save_failure. destruct f as [tw rf mf]. cbn [temp_write replace_fault].
  destruct tw as [|e'|n e']; intros Hfail; simplify_eq.
  - exists (set_files <[TEMP_FILE := json_dumps_results data]> w). split; [done|].
    cbn [files set_files slept drivers]. by rewrite lookup_insert_ne.
  - by exists w.
  - eexists. split; [done|]. cbn [files set_files slept drivers].
    by rewrite lookup_insert_ne.
Qed.

(** C5, as the code has it. Saving writes the whole state to the
    temporary file and moves it onto the canonical path in one
    [os.replace]. When a step fails the call raises, the canonical file is
    as it was, and loading gives what it gave before. The temporary file
    is gone, and the error raised is the one of the step, when that error
    is an [Exception] and the removal in the handler goes through; an
    interruption is not caught, so no cleanup runs for it. *)
Theorem save_scan_results_atomic (data : ResultsData) (f : save_faults) (w : world)
    (read_fault : option exn) :
  ∃ r w',
    save_scan_results data f w = (r, w') ∧
    match save_failure f with
    | None =>
        r = Ret () ∧
        files w' !! RESULTS_FILE = Some (json_dumps_results data) ∧
        files w' !! TEMP_FILE = None
    | Some e =>
        (∃ e', r = Raise e') ∧
        files w' !! RESULTS_FILE = files w !! RESULTS_FILE ∧
        value (load_current_results read_fault w')
        = value (load_current_results read_fault w) ∧
        (is_Exception e = true → remove_fault f = None →
         r = Raise e ∧ files w' !! TEMP_FILE = None) ∧
        (is_Exception e = false → r = Raise e)
    end.
Proof.
  destruct (save_failure f) as [e|] eqn:Hfail.
  - destruct (save_body_fails data f w e Hfail) as (w1 & Hbody & Hcanon & _).
    unfold save_scan_results.
    destruct (is_Exception e) eqn:He.
    + rewrite (try_except_caught _ _ w w1 e Hbody He).
      destruct (remove_fault f) as [e2|] eqn:Hremove.
      * rewrite bind_logging, bind_eq.
        destruct (files w1 !! TEMP_FILE) as [text|] eqn:Htemp.
        -- rewrite (os_path_exists_present _ _ text) by done.
           eexists _, _. split; [reflexivity|].
           split_and!; [by eexists | done | by apply load_reads_canonical | done | done].
        -- rewrite os_path_exists_absent by done.
           eexists _, _. split; [reflexivity|].
           split_and!; [by eexists | done | by apply load_reads_canonical | done | done].
      * destruct (save_cleanup_run e w1) as (w2 & Hclean & Hfiles & _).
        exists (Raise e), w2. split; [exact Hclean|].
        assert (Hsame : files w2 !! RESULTS_FILE = files w !! RESULTS_FILE).
        { rewrite Hfiles, lookup_delete_ne by apply temp_is_not_canonical. exact Hcanon. }
        split_and!; [by eexists | done | by apply load_reads_canonical | | done].
        intros _ _. by rewrite Hfiles, lookup_delete_eq.
    + rewrite (try_except_passed _ _ w w1 e Hbody He).
      exists (Raise e), w1. split; [done|].
      split_and!; [by eexists | done | by apply load_reads_canonical | done | done].
  - destruct (save_succeeds data f w Hfail) as (w' & Hrun & Hfiles & _).
    exists (Ret ()), w'. split; [exact Hrun|]. rewrite Hfiles.
    split_and!; [done | by rewrite lookup_insert_eq |].
    rewrite lookup_insert_ne by (intros Heq; by apply temp_is_not_canonical).
    by rewrite lookup_delete_eq.
Qed.

(** However saving ends (an interruption in the middle of the write, a
    cleanup that fails too), the canonical file is replaced whole or not
    touched. *)
Lemma save_keeps_canonical (data : ResultsData) (f : save_faults) (w : world) (e : exn) :
  save_failure f = Some e →
  ∃ e' w', save_scan_results data f w = (Raise e', w') ∧
           files w' !! RESULTS_FILE = files w !! RESULTS_FILE.
Proof.
  intros Hfail.
  destruct (save_body_fails data f w e Hfail) as (w1 & Hbody & Hcanon & _).
  unfold save_scan_results.
  destruct (is_Exception e) eqn:He.
  - rewrite (try_except_caught _ _ w w1 e Hbody He).
    destruct (remove_fault f) as [e2|] eqn:Hremove.
    + rewrite bind_logging, bind_eq.
      destruct (files w1 !! TEMP_FILE) as [text|] eqn:Htemp.
      * rewrite (os_path_exists_present _ _ text) by done. by exists e2; eexists.
      * rewrite os_path_exists_absent by done. by exists e; eexists.
    + destruct (save_cleanup_run e w1) as (w2 & Hclean & Hfiles & _).
      exists e, w2. split; [exact Hclean|].
      rewrite Hfiles, lookup_delete_ne by apply temp_is_not_canonical. exact Hcanon.
  - rewrite (try_except_passed _ _ w w1 e Hbody He). by exists e, w1.
Qed.

End Store.

(** The disk fills up forty characters into the temporary file: the
    error is raised, the temporary file is gone, and the state persisted
    before is still what loading returns. *)
Lemma save_scan_results_atomic_witness :
  let H := Sample.builtins in
  let e := Exn OSError "No space left on device" in
  save_failure disk_full = Some e ∧
  ∃ r w',
    save_scan_results later_results disk_full (persisted earlier_results) = (r, w') ∧
    (∃ e', r = Raise e') ∧
    files w' !! RESULTS_FILE = files (persisted earlier_results) !! RESULTS_FILE ∧
    value (load_current_results None w')
    = value (load_current_results None (persisted earlier_results)) ∧
    (is_Exception e = true → remove_fault disk_full = None →
     r = Raise e ∧ files w' !! TEMP_FILE = None) ∧
    (is_Exception e = false → r = Raise e).
Proof.
  exact (conj eq_refl
           (save_scan_results_atomic (H := Sample.builtins) later_results disk_full
              (persisted earlier_results) None)).
Defined.

(** C5 as stated fails. "If any step fails, the temporary file is
    removed": when the write is interrupted from the keyboard, no handler
    runs and the forty characters written stay behind; when the disk is
    full and the removal of the temporary file fails too, the removal's
    error is raised and the file stays behind as well. *)
Lemma save_failure_leaves_temp_file :
  let H := Sample.builtins in
  let interrupted := {| temp_write := WriteFailsAfter 40 (Exn KeyboardInterrupt "");
                        replace_fault := None; remove_fault := None |} in
  let stuck := {| temp_write := WriteFailsAfter 40 (Exn OSError "No space left on device");
                  replace_fault := None;
                  remove_fault := Some (Exn OSError "Permission denied") |} in
  let w1 := snd (save_scan_results later_results interrupted (persisted earlier_results)) in
  let w2 := snd (save_scan_results later_results stuck (persisted earlier_results)) in
  is_Some (save_failure interrupted) ∧ is_Some (save_failure stuck) ∧
  ¬ (files w1 !! TEMP_FILE = None) ∧
  ¬ (files w2 !! TEMP_FILE = None) ∧
  files w1 !! TEMP_FILE = Some (substring 0 40 (json_dumps_results later_results)) ∧
  files w2 !! TEMP_FILE = Some (substring 0 40 (json_dumps_results later_results)) ∧
  fst (save_scan_results later_results interrupted (persisted earlier_results))
  = Raise (Exn KeyboardInterrupt "") ∧
  fst (save_scan_results later_results stuck (persisted earlier_results))
  = Raise (Exn OSError "Permission denied").
Proof.
  split_and!; try (by eexists); try (vm_compute; reflexivity);
    intros Hnone; vm_compute in Hnone; discriminate Hnone.
Qed.

(** Scenario D: the write is cut short; the next load returns the state
    persisted before, and the next save goes through. *)
Example save_interrupted_then_load :
  let H := Sample.builtins in
  let w' := snd (save_scan_results later_results disk_full (persisted earlier_results)) in
  value (load_current_results None w') = Some (JsonResults earlier_results) ∧
  value (load_current_results None
           (snd (save_scan_results later_results no_save_faults w')))
  = Some (JsonResults later_results).
Proof. by vm_compute. Qed.

(** ** Computations that only log *)

Section Calm.
Context {A B : Type}.

Lemma total_calm (m : M A) : total_run m → calm_run m.
Proof. intros Hm w. destruct (Hm w) as (a & w' & -> & Hf). by exists (Ret a), w'. Qed.

Lemma total_ret (a : A) : total_run (mret a).
Proof. intros w. by exists a, w. Qed.

Lemma calm_raise (e : exn) : is_Exception e = true → calm_run (raise e : M A).
Proof. intros He w. by exists (Raise e), w. Qed.

Lemma calm_lift (o : outcome A) : calm o → calm_run (lift o).
Proof. intros Ho w. by exists o, w. Qed.

Lemma calm_bind (m : M A) (k : A → M B) :
  calm_run m → (∀ a, calm_run (k a)) → calm_run (m ≫= k).
Proof.
  intros Hm Hk w. destruct (Hm w) as ([a|e] & w1 & Hr & Hf & Hc).
  - rewrite (bind_run _ _ _ _ _ Hr).
    destruct (Hk a w1) as (r & w2 & -> & Hf2 & Hc2). exists r, w2.
    split_and!; [done | congruence | done].
  - rewrite (bind_raise _ _ _ _ _ Hr). by exists (Raise e), w1.
Qed.

Lemma total_bind (m : M A) (k : A → M B) :
  total_run m → (∀ a, total_run (k a)) → total_run (m ≫= k).
Proof.
  intros Hm Hk w. destruct (Hm w) as (a & w1 & Hr & Hf).
  rewrite (bind_run _ _ _ _ _ Hr).
  destruct (Hk a w1) as (b & w2 & -> & Hf2). exists b, w2. split; [done | congruence].
Qed.

(** A handler for [Exception] that returns makes a calm body total. *)
Lemma total_try_except (body : M A) (handler : exn → M A) :
  calm_run body → (∀ e, total_run (handler e)) → total_run (try_except body handler).
Proof.
  intros Hb Hh w. destruct (Hb w) as ([a|e] & w1 & Hr & Hf & Hc).
  - rewrite (try_except_ret _ _ _ _ _ Hr). by exists a, w1.
  - rewrite (try_except_caught _ _ _ _ _ Hr Hc).
    destruct (Hh e w1) as (a & w2 & -> & Hf2). exists a, w2. split; [done | congruence].
Qed.

End Calm.

Lemma total_logging (l : level) (msg : string) : total_run (logging l msg).
Proof. intros w. by eexists _, _. Qed.

Lemma total_sleep (n : nat) : total_run (time_sleep n false).
Proof. intros w. by eexists _, _. Qed.

(** Proves [total_run] and [calm_run] goals by following the binds. *)
Ltac calm :=
  repeat first
    [ apply total_logging | apply total_sleep | apply total_ret
    | apply total_bind; [|intros ?]
    | apply calm_bind; [|intros ?]
    | apply total_calm ].

(** ** One screener *)

Section Screener.
Context `{Builtins}.

Lemma load_page_ready url w :
  ∃ w', load_page url PageReady w = (Ret true, w') ∧ files w' = files w.
Proof. by eexists. Qed.

Lemma run_scan_done w :
  ∃ w', run_scan ScanDone w = (Ret true, w') ∧ files w' = files w.
Proof. by eexists. Qed.

Lemma run_scan_failed (s : scan_run) w :
  trigger_failed s →
  ∃ w', run_scan s w = (Ret false, w') ∧ files w' = files w.
Proof.
  unfold trigger_failed, run_scan. destruct s as [|e|e]; [done| |]; intros He.
  - rewrite (try_except_caught _ _ w w e) by done. by eexists.
  - rewrite (try_except_caught _ _ w (add_log (INFO, "Clicked Run Scan button...") w) e)
      by done.
    by eexists.
Qed.

Lemma validate_calm symbol price change volume :
  calm (validate_stock_data symbol price change volume).
Proof.
  destruct (invalid_input_dec symbol price change volume) as [Hbad|Hok].
  - apply validate_invalid in Hbad as [msg ->]. done.
  - apply validate_valid in Hok as ->. done.
Qed.

Lemma float_of_calm s : calm (float_of s).
Proof. unfold float_of. by destruct (py_float s). Qed.

Lemma int_of_calm s : calm (int_of s).
Proof. unfold int_of. by destruct (py_int s). Qed.

Lemma determine_calm v : calm (determine_stock_trend v).
Proof. by destruct (determine_total v) as [t ->]. Qed.

Lemma extract_row_total k r stocks : row_calm r → total_run (extract_row k r stocks).
Proof.
  intros Hr. unfold extract_row. apply total_try_except.
  - apply calm_bind.
    { destruct r as [c|e]; [calm | by apply calm_raise]. }
    intros cells. apply calm_bind; [apply calm_lift, validate_calm|].
    intros [|]; [|calm].
    apply calm_bind; [apply calm_lift, float_of_calm|]. intros price.
    apply calm_bind; [apply calm_lift, float_of_calm|]. intros change.
    apply calm_bind; [apply calm_lift, int_of_calm|]. intros volume.
    apply calm_bind; [apply calm_lift, determine_calm|]. intros trend.
    calm.
  - intros e. calm.
Qed.

Lemma extract_rows_total k rows stocks :
  Forall row_calm rows → total_run (extract_rows k rows stocks).
Proof.
  intros Hrows. revert stocks.
  induction Hrows as [|r rows Hr _ IH]; intros stocks; cbn [extract_rows]; [calm|].
  apply total_bind; [by apply extract_row_total | intros stocks'; apply IH].
Qed.

Lemma extract_stock_data_total t k : table_calm t → total_run (extract_stock_data t k).
Proof.
  intros Ht. unfold extract_stock_data. apply total_try_except.
  - destruct t as [e|rows]; [by apply calm_raise|].
    by apply total_calm, extract_rows_total.
  - intros e. calm.
Qed.

(** The filter returns the stocks it keeps. *)
Lemma filter_run stocks bias w :
  ∃ w', filter_stocks_by_market_trend stocks bias w = (Ret (kept bias stocks), w') ∧
        files w' = files w.
Proof.
  pose proof (filter_value stocks bias w) as Hv. pose proof (filter_frame stocks bias w) as Hf.
  apply value_ret in Hv as (w' & Hrun). rewrite Hrun in Hf. by exists w'.
Qed.

(** C9 for one call. When the page of a screener does not load or its
    scan does not run, [run_screener] hands the results back as it got
    them. *)
Lemma run_screener_failed (s : screener_scan) k url bias (rd : ResultsData) w :
  source_failed s →
  ∃ w', run_screener s k url bias rd w = (Ret rd, w') ∧ files w' = files w.
Proof.
  intros Hfail. unfold run_screener. rewrite bind_logging.
  destruct Hfail as [Hpage|[Hready Htrig]].
  - destruct (load_page_failed url (scan_page s) (add_log
                (INFO, "Running " +:+ screener_name k +:+ " screener...") w) Hpage)
      as (w1 & Hl & Hf1).
    rewrite (bind_run _ _ _ _ _ Hl). exists w1. split; [done|].
    cbn [files add_log] in *. congruence.
  - rewrite Hready.
    destruct (load_page_ready url (add_log
                (INFO, "Running " +:+ screener_name k +:+ " screener...") w))
      as (w1 & Hl & Hf1).
    rewrite (bind_run _ _ _ _ _ Hl). cbv beta iota.
    destruct (run_scan_failed (scan_trigger s) w1 Htrig) as (w2 & Hs & Hf2).
    rewrite (bind_run _ _ _ _ _ Hs). cbv beta iota. rewrite bind_logging.
    eexists. split; [done|]. cbn [files add_log] in *. congruence.
Qed.

(** When the scan runs, the entry of the screener becomes what the filter
    keeps of the stocks read from the table. *)
Lemma run_screener_scanned (s : screener_scan) k url bias (rd : ResultsData) w :
  source_scanned s → table_calm (scan_table s) →
  ∃ raws w0 w1 w',
    extract_stock_data (scan_table s) k w0 = (Ret raws, w1) ∧
    run_screener s k url bias rd w = (Ret (set_screener rd k (kept bias raws)), w') ∧
    files w' = files w.
Proof.
  intros [Hready Hdone] Htable. unfold run_screener. rewrite bind_logging, Hready, Hdone.
  destruct (load_page_ready url (add_log
              (INFO, "Running " +:+ screener_name k +:+ " screener...") w))
    as (w1 & Hl & Hf1).
  rewrite (bind_run _ _ _ _ _ Hl). cbv beta iota.
  destruct (run_scan_done w1) as (w2 & Hs & Hf2).
  rewrite (bind_run _ _ _ _ _ Hs). cbv beta iota.
  rewrite (bind_run _ _ w2 (add_sleep 2 w2) ()) by done.
  destruct (extract_stock_data_total (scan_table s) k Htable (add_sleep 2 w2))
    as (raws & w3 & Hx & Hf3).
  rewrite (bind_run _ _ _ _ _ Hx).
  exists raws, (add_sleep 2 w2), w3.
  destruct raws as [|raw raws].
  - rewrite bind_logging. eexists. split_and!; [done | done |].
    cbn [files add_log add_sleep] in *. congruence.
  - destruct (filter_run (raw :: raws) bias w3) as (w4 & Hfl & Hf4).
    rewrite (bind_run _ _ _ _ _ Hfl). rewrite bind_logging.
    eexists. split_and!; [done | done |].
    cbn [files add_log add_sleep] in *. congruence.
Qed.

Lemma screeners_get_set (rd : ResultsData) (k k' : ScreenerType) (v : list Stock) :
  screeners_get (screeners (set_screener rd k v)) k'
  = if decide (k = k') then v else screeners_get (screeners rd) k'.
Proof. by destruct k, k'. Qed.

Lemma scan_calm_cases (s : screener_scan) :
  scan_calm s → source_failed s ∨ source_scanned s.
Proof.
  unfold scan_calm, source_failed, source_scanned, page_failed, trigger_failed.
  intros (Hp & Ht & _).
  destruct (scan_page s) as [|e|e]; [|by left; left|by left; left].
  destruct (scan_trigger s) as [|e|e]; [by right | by left; right | by left; right].
Qed.

Lemma failed_not_scanned (s : screener_scan) : source_failed s → source_scanned s → False.
Proof.
  unfold source_failed, source_scanned, page_failed, trigger_failed.
  intros [Hp|[_ Ht]] [Hready Hdone].
  - by rewrite Hready in Hp.
  - by rewrite Hdone in Ht.
Qed.

(** One call of [run_screener] returns, touches no file, leaves the
    entries of the other screeners alone, and leaves or renews its own. *)
Lemma run_screener_step (s : screener_scan) k url bias (rd : ResultsData) w :
  scan_calm s →
  ∃ rd' w',
    run_screener s k url bias rd w = (Ret rd', w') ∧ files w' = files w ∧
    rd_market_bias rd' = rd_market_bias rd ∧
    (∀ k', k' ≠ k → screeners_get (screeners rd') k' = screeners_get (screeners rd) k') ∧
    (source_failed s → screeners_get (screeners rd') k = screeners_get (screeners rd) k) ∧
    (source_scanned s →
     ∃ raws w0 w1, extract_stock_data (scan_table s) k w0 = (Ret raws, w1) ∧
                   screeners_get (screeners rd') k = kept bias raws).
Proof.
  intros Hcalm. destruct (scan_calm_cases s Hcalm) as [Hfail|Hscan].
  - destruct (run_screener_failed s k url bias rd w Hfail) as (w' & Hrun & Hf).
    exists rd, w'. split_and!; try done.
    intros Hscan. destruct (failed_not_scanned s Hfail Hscan).
  - destruct Hcalm as (_ & _ & Htable).
    destruct (run_screener_scanned s k url bias rd w Hscan Htable)
      as (raws & w0 & w1 & w' & Hx & Hrun & Hf).
    exists (set_screener rd k (kept bias raws)), w'. split_and!; try done.
    + intros k' Hne. rewrite screeners_get_set. by destruct (decide (k = k')).
    + intros Hfail. destruct (failed_not_scanned s Hfail Hscan).
    + intros _. exists raws, w0, w1. split; [done|].
      rewrite screeners_get_set. by destruct (decide (k = k)).
Qed.

(** In the pass over the three screeners, the entry of a screener whose
    scan fails stays what it was in the results the pass started from, and
    the entry of a screener whose scan runs becomes what the filter keeps
    of the stocks read from its table in this pass. *)
Lemma run_screeners_effect (env : cycle_env) (bias : string)
    (rd : ResultsData) (w : world) :
  (∀ k, scan_calm (scans env k)) →
  ∃ rd' w',
    run_screeners env SCREENER_URLS bias rd w = (Ret rd', w') ∧
    files w' = files w ∧
    rd_market_bias rd' = rd_market_bias rd ∧
    ∀ k,
      (source_failed (scans env k) →
       screeners_get (screeners rd') k = screeners_get (screeners rd) k) ∧
      (source_scanned (scans env k) →
       ∃ raws w0 w1,
         extract_stock_data (scan_table (scans env k)) k w0 = (Ret raws, w1) ∧
         screeners_get (screeners rd') k = kept bias raws).
Proof.
  intros Hcalm. unfold SCREENER_URLS. cbn [run_screeners].
  destruct (run_screener_step (scans env price_crossover_200) price_crossover_200
              "https://chartink.com/screener/price-corssover-200" bias rd w
              (Hcalm _)) as (rd1 & w1 & Hr1 & Hf1 & Hb1 & Ho1 & Hk1 & Hs1).
  rewrite (bind_run _ _ _ _ _ Hr1).
  destruct (run_screener_step (scans env one_hour_rsi) one_hour_rsi
              "https://chartink.com/screener/1-hour-rsi-2119" bias rd1 w1
              (Hcalm _)) as (rd2 & w2 & Hr2 & Hf2 & Hb2 & Ho2 & Hk2 & Hs2).
  rewrite (bind_run _ _ _ _ _ Hr2).
  destruct (run_screener_step (scans env five_min_rsi) five_min_rsi
              "https://chartink.com/screener/5-minutes-rsi-100" bias rd2 w2
              (Hcalm _)) as (rd3 & w3 & Hr3 & Hf3 & Hb3 & Ho3 & Hk3 & Hs3).
  rewrite (bind_run _ _ _ _ _ Hr3).
  exists rd3, w3. split_and!; [done | congruence | congruence |].
  intros [| |]; split.
  - intros Hfail. rewrite Ho3, Ho2 by done. by apply Hk1.
  - intros Hscan. destruct (Hs1 Hscan) as (raws & w0 & w0' & Hx & Hget).
    exists raws, w0, w0'. split; [done|]. by rewrite Ho3, Ho2.
  - intros Hfail. rewrite Ho3, (Hk2 Hfail) by done. by apply Ho1.
  - intros Hscan. destruct (Hs2 Hscan) as (raws & w0 & w0' & Hx & Hget).
    exists raws, w0, w0'. split; [done|]. by rewrite Ho3.
  - intros Hfail. rewrite (Hk3 Hfail), Ho2 by done. by apply Ho1.
  - intros Hscan. destruct (Hs3 Hscan) as (raws & w0 & w0' & Hx & Hget).
    by exists raws, w0, w0'.
Qed.

End Screener.

(** ** One pass of the loop *)

Section Cycle.
Context `{Builtins}.

Lemma load_page_total url p : page_calm p → total_run (load_page url p).
Proof.
  intros Hp w. destruct p as [|e|e].
  - destruct (load_page_ready url w) as (w' & -> & Hf). by eexists _, _.
  - destruct (load_page_failed url (GetFails e) w Hp) as (w' & -> & Hf). by eexists _, _.
  - destruct (load_page_failed url (ButtonWaitFails e) w Hp) as (w' & -> & Hf).
    by eexists _, _.
Qed.

Lemma run_scan_total s : trigger_calm s → total_run (run_scan s).
Proof.
  intros Hs w. destruct s as [|e|e].
  - destruct (run_scan_done w) as (w' & -> & Hf). by eexists _, _.
  - destruct (run_scan_failed (ClickFails e) w Hs) as (w' & -> & Hf). by eexists _, _.
  - destruct (run_scan_failed (CompletionWaitFails e) w Hs) as (w' & -> & Hf).
    by eexists _, _.
Qed.

Lemma read_indices_total label Label t indices :
  index_table_calm t → total_run (read_indices label Label t indices).
Proof.
  intros Ht. unfold read_indices. apply total_try_except.
  - destruct t as [e|rows]; [by apply calm_raise | calm].
  - intros e. calm.
Qed.

Lemma run_probe_total label Label url p indices :
  probe_calm p → total_run (run_probe label Label url p indices).
Proof.
  intros (Hp & Hs & Ht). unfold run_probe.
  apply total_bind; [by apply load_page_total|]. intros [|]; [|calm].
  apply total_bind; [by apply run_scan_total|]. intros [|]; [|calm].
  by apply read_indices_total.
Qed.

Lemma trend_is_not_results : MARKET_TREND_FILE ≠ RESULTS_FILE.
Proof. done. Qed.

(** A probe yields the symbols it collects. *)
Lemma run_probe_collects label Label url (p : probe) w :
  probe_calm p →
  ∃ w', run_probe label Label url p [] w = (Ret (collected p), w') ∧ files w' = files w.
Proof.
  intros (Hp & Hs & Ht). unfold run_probe, collected.
  destruct p as [pg sc tb]. cbn [probe_page probe_scan probe_table] in *.
  destruct pg as [|e|e].
  - destruct (load_page_ready url w) as (w1 & Hl & Hf1).
    rewrite (bind_run _ _ _ _ _ Hl). cbv beta iota.
    destruct sc as [|e|e].
    + destruct (run_scan_done w1) as (w2 & Hr & Hf2).
      rewrite (bind_run _ _ _ _ _ Hr). cbv beta iota.
      destruct tb as [e|rows].
      * unfold read_indices. rewrite (try_except_caught _ _ w2 w2 e) by done.
        eexists. split; [done|]. cbn [files add_log]. congruence.
      * eexists. split; [done|]. cbn [files add_log]. congruence.
    + destruct (run_scan_failed (ClickFails e) w1 Hs) as (w2 & Hr & Hf2).
      rewrite (bind_run _ _ _ _ _ Hr). exists w2. split; [done | congruence].
    + destruct (run_scan_failed (CompletionWaitFails e) w1 Hs) as (w2 & Hr & Hf2).
      rewrite (bind_run _ _ _ _ _ Hr). exists w2. split; [done | congruence].
  - destruct (load_page_failed url (GetFails e) w Hp) as (w1 & Hl & Hf1).
    rewrite (bind_run _ _ _ _ _ Hl). by exists w1.
  - destruct (load_page_failed url (ButtonWaitFails e) w Hp) as (w1 & Hl & Hf1).
    rewrite (bind_run _ _ _ _ _ Hl). by exists w1.
Qed.

(** Detecting the bias returns what the counts of key indices among the
    symbols collected decide, and leaves the results file alone. *)
Lemma check_market_trend_run (bullish bearish : probe) now w :
  probe_calm bullish → probe_calm bearish →
  ∃ w',
    check_market_trend bullish bearish now WriteOk w
    = (Ret (classify_market (collected bullish) (collected bearish)), w') ∧
    files w' !! RESULTS_FILE = files w !! RESULTS_FILE.
Proof.
  intros Hb1 Hb2. unfold check_market_trend.
  destruct (run_probe_collects "bullish" "Bullish" MARKET_BULLISH_URL bullish w Hb1)
    as (w1 & Hr1 & Hf1).
  rewrite (bind_run _ _ _ _ _ Hr1).
  destruct (run_probe_collects "bearish" "Bearish" MARKET_BEARISH_URL bearish w1 Hb2)
    as (w2 & Hr2 & Hf2).
  rewrite (bind_run _ _ _ _ _ Hr2). rewrite bind_logging.
  eexists. split; [reflexivity|].
  cbn [files set_files add_log]. rewrite lookup_insert_ne by apply trend_is_not_results.
  congruence.
Qed.

(** The program's count of key indices is the number of the three
    names that are among the symbols. *)
Lemma key_count_hits (l : list string) : key_count l = key_hits l.
Proof.
  unfold key_count, key_hits, key_indices. rewrite !filter_cons, filter_nil.
  repeat case_decide; repeat case_bool_decide; done.
Qed.

(** The bias is "bullish" when more of NIFTY, BANKNIFTY and
    NIFTYFINSERVICE are among the bullish symbols collected than among
    the bearish ones, "bearish" when fewer, "neutral" when as many. *)
Lemma check_market_trend_value (bullish bearish : probe) now w :
  probe_calm bullish → probe_calm bearish →
  ∃ bias,
    value (check_market_trend bullish bearish now WriteOk w) = Some bias ∧
    (key_hits (collected bearish) < key_hits (collected bullish) → bias = "bullish") ∧
    (key_hits (collected bullish) < key_hits (collected bearish) → bias = "bearish") ∧
    (key_hits (collected bullish) = key_hits (collected bearish) → bias = "neutral").
Proof.
  intros Hb1 Hb2.
  destruct (check_market_trend_run bullish bearish now w Hb1 Hb2) as (w' & -> & _).
  eexists. split; [reflexivity|]. unfold classify_market. rewrite !key_count_hits.
  destruct (Nat.ltb_spec (key_hits (collected bearish)) (key_hits (collected bullish)));
    [split_and!; [done | lia | lia]|].
  destruct (Nat.ltb_spec (key_hits (collected bullish)) (key_hits (collected bearish)));
    split_and!; done || lia.
Qed.


End Cycle.


(** Scenario E, run: AAA stays under one_hour_rsi, BBB is new under the
    other two (CCC fell and is dropped under the bullish bias), and BBB is
    the one symbol confirmed twice. *)
Example scan_cycle_scenario_e :
  let H := Sample.builtins in
  let w' := snd (scan_cycle morning (persisted earlier_results)) in
  (λ d, (rd_market_bias d,
         map symbol (of_price_crossover_200 (screeners d)),
         map symbol (of_one_hour_rsi (screeners d)),
         map symbol (of_five_min_rsi (screeners d)),
         map (λ c, (c_symbol c, screeners_found_in c)) (combined_stocks d))) <$>
  file_state (files w' !! RESULTS_FILE)
  = Some ("bullish", ["BBB"], ["AAA"], ["BBB"],
          [("BBB", [price_crossover_200; five_min_rsi])]).
Proof. by vm_compute. Qed.

(** ** The loop and its handlers *)

Section Loop.
Context `{Builtins}.

(** When pass [i + n] raises, the loop ends there, however much fuel is
    left. *)
Lemma scan_loop_stops (n : nat) (envs : nat → cycle_env) :
  ∀ i w w1 e w2,
    scan_loop n envs i w = (Ret (), w1) →
    scan_cycle (envs (i + n)) w1 = (Raise e, w2) →
    ∀ fuel, n < fuel → scan_loop fuel envs i w = (Raise e, w2).
Proof.
  induction n as [|n IH]; intros i w w1 e w2 Hloop Hcycle fuel Hfuel;
    destruct fuel as [|fuel]; try lia; cbn [scan_loop] in *.
  - injection Hloop as <-. rewrite Nat.add_0_r in Hcycle.
    by rewrite (bind_raise _ _ _ _ _ Hcycle).
  - apply bind_ret_inv in Hloop as ([] & wa & Hfirst & Hrest).
    rewrite (bind_run _ _ _ _ _ Hfirst).
    apply (IH (S i) wa w1 e w2 Hrest); [|lia].
    by replace (S i + n) with (i + S n) by lia.
Qed.

Lemma main_starts (init_write : write_fault) (envs : nat → cycle_env) (fuel : nat)
    (w w0 : world) :
  startup init_write w = (Ret (), w0) →
  main init_write None envs fuel w = main_try None envs fuel w0.
Proof.
  unfold startup, main. rewrite !bind_logging. intros Hstart.
  apply bind_ret_inv in Hstart as ([] & wa & Hinit & Hcreate).
  rewrite (bind_run _ _ _ _ _ Hinit).
  by rewrite (bind_run _ _ _ _ _ Hcreate).
Qed.

Lemma main_handlers_run (e : exn) (w : world) :
  main_handlers e w = (Ret (), add_log (final_record e) w).
Proof. unfold main_handlers, final_record, is_Exception. by destruct (exn_cls e). Qed.

Lemma kill_browser_run (name : string) (w : world) :
  ∃ w', kill_browser name w = (Ret (), w') ∧ (name ∉ drivers w') ∧
        log w' = log w ∧ files w' = files w ∧ slept w' = slept w.
Proof.
  unfold kill_browser. destruct (decide (name ∈ drivers w)) as [Hin|Hout].
  - eexists. split; [done|]. cbn [drivers set_drivers log files slept].
    split_and!; try done.
    rewrite elem_of_difference, elem_of_singleton. tauto.
  - by exists w.
Qed.

(** The handlers and the [finally] block, run after the loop has raised
    [e] in a world [w2]. *)
Lemma main_cleanup_run (e : exn) (w2 : world) :
  ∃ w3,
    try_finally (main_handlers e;; mret Finished)
      (kill_browser "combined_scanner";; logging INFO "Browser closed") w2
    = (Ret Finished, w3) ∧
    log w3 = log w2 ++ [final_record e; (INFO, "Browser closed")] ∧
    files w3 = files w2 ∧
    slept w3 = slept w2 ∧
    "combined_scanner" ∉ drivers w3.
Proof.
  unfold try_finally.
  rewrite (bind_run _ _ _ _ _ (main_handlers_run e w2)).
  destruct (kill_browser_run "combined_scanner" (add_log (final_record e) w2))
    as (wk & Hkill & Hgone & Hlog & Hfiles & Hslept).
  unfold mret at 1, M_ret at 1. cbv beta iota. rewrite (bind_run _ _ _ _ _ Hkill).
  eexists. split; [reflexivity|].
  cbn [log files slept drivers add_log] in *.
  rewrite Hlog, Hfiles, Hslept, <- app_assoc. done.
Qed.

(** C2, as the code has it. The handlers enclose the loop: an exception
    raised in a pass ends the loop. It is logged (as critical, unless it
    is the interruption), the browser is closed and [main] returns; no
    further pass runs, whatever the fuel. *)
Theorem main_stops_at_first_exception (init_write : write_fault)
    (envs : nat → cycle_env) (n : nat) (w w0 w1 w2 : world) (e : exn) :
  startup init_write w = (Ret (), w0) →
  scan_loop n envs 0 (browser_started w0) = (Ret (), w1) →
  scan_cycle (envs n) w1 = (Raise e, w2) →
  ∀ fuel, n < fuel →
    ∃ w3,
      main init_write None envs fuel w = (Ret Finished, w3) ∧
      log w3 = log w2 ++ [final_record e; (INFO, "Browser closed")] ∧
      files w3 = files w2 ∧
      slept w3 = slept w2 ∧
      "combined_scanner" ∉ drivers w3.
Proof.
  intros Hstart Hloop Hcycle fuel Hfuel.
  rewrite (main_starts _ _ _ _ _ Hstart).
  pose proof (scan_loop_stops n envs 0 _ w1 e w2 Hloop Hcycle fuel Hfuel) as Hstop.
  unfold main_try, initialize_browser. fold (browser_started w0). rewrite Hstop.
  apply main_cleanup_run.
Qed.


End Loop.

(** The first pass goes through, the second cannot write the market trend
    file: with fuel for five passes, [main] returns after the second. *)
Lemma main_stops_at_first_exception_witness :
  let H := Sample.builtins in
  let e := permission_denied in
  let w0 := snd (startup WriteOk empty_world) in
  let w1 := snd (scan_loop 1 second_pass_fails 0 (browser_started w0)) in
  let w2 := snd (scan_cycle (second_pass_fails 1) w1) in
  startup WriteOk empty_world = (Ret (), w0) ∧
  scan_loop 1 second_pass_fails 0 (browser_started w0) = (Ret (), w1) ∧
  scan_cycle (second_pass_fails 1) w1 = (Raise e, w2) ∧
  1 < 5 ∧
  ∃ w3,
    main WriteOk None second_pass_fails 5 empty_world = (Ret Finished, w3) ∧
    log w3 = log w2 ++ [final_record e; (INFO, "Browser closed")] ∧
    files w3 = files w2 ∧
    slept w3 = slept w2 ∧
    "combined_scanner" ∉ drivers w3.
Proof.
  pose (H := Sample.builtins).
  pose (e := permission_denied).
  pose (w0 := snd (startup WriteOk empty_world)).
  pose (w1 := snd (scan_loop 1 second_pass_fails 0 (browser_started w0))).
  pose (w2 := snd (scan_cycle (second_pass_fails 1) w1)).
  assert (H0 : startup WriteOk empty_world = (Ret (), w0))
    by (vm_compute; reflexivity).
  assert (H1 : scan_loop 1 second_pass_fails 0 (browser_started w0) = (Ret (), w1))
    by (vm_compute; reflexivity).
  assert (H2 : scan_cycle (second_pass_fails 1) w1 = (Raise e, w2))
    by (vm_compute; reflexivity).
  assert (Hlt : 1 < 5) by lia.
  exact (conj H0 (conj H1 (conj H2 (conj Hlt
           (main_stops_at_first_exception (H := Sample.builtins) WriteOk
              second_pass_fails 1 empty_world w0 w1 w2 e H0 H1 H2 5 Hlt))))).
Defined.

(** C2 as stated fails. The first pass raises an [OSError]; the loop does
    not go on to a second pass: with fuel for five passes [main] has
    returned, in the very world it returns in with fuel for one. *)
Lemma main_exception_ends_loop :
  let H := Sample.builtins in
  let envs := λ _ : nat, trend_file_locked in
  let w0 := browser_started (snd (startup WriteOk empty_world)) in
  is_Exception permission_denied = true ∧
  fst (scan_cycle (envs 0) w0) = Raise permission_denied ∧
  ¬ (∃ w1, scan_loop 1 envs 0 w0 = (Ret (), w1)) ∧
  fst (main WriteOk None envs 5 empty_world) = Ret Finished ∧
  main WriteOk None envs 5 empty_world = main WriteOk None envs 1 empty_world.
Proof.
  split_and!.
  - reflexivity.
  - vm_compute. reflexivity.
  - intros [w1 Hloop]. apply (f_equal fst) in Hloop.
    vm_compute in Hloop. discriminate Hloop.
  - vm_compute. reflexivity.
  - vm_compute. reflexivity.
Qed.

(** ** Concrete instances of further properties *)

(** Scenario C, through the probes: one key index shows up bullish and two
    bearish. *)
Lemma check_market_trend_value_witness :
  let H := Sample.builtins in
  let up := indices ["NIFTY"; "SENSEX"] in
  let down := indices ["BANKNIFTY"; "NIFTYFINSERVICE"] in
  (probe_calm up ∧ probe_calm down) ∧
  ∃ bias,
    value (check_market_trend up down (DateTime 2026 11 4 10 0 0 0) WriteOk empty_world)
    = Some bias ∧
    (key_hits (collected down) < key_hits (collected up) → bias = "bullish") ∧
    (key_hits (collected up) < key_hits (collected down) → bias = "bearish") ∧
    (key_hits (collected up) = key_hits (collected down) → bias = "neutral").
Proof.
  assert (Hup : probe_calm (indices ["NIFTY"; "SENSEX"])) by done.
  assert (Hdown : probe_calm (indices ["BANKNIFTY"; "NIFTYFINSERVICE"])) by done.
  exact (conj (conj Hup Hdown)
           (check_market_trend_value (H := Sample.builtins) _ _
              (DateTime 2026 11 4 10 0 0 0) empty_world Hup Hdown)).
Defined.

(** Scenario A: BBB is the one entry, with two screeners and a count of
    two. *)
Lemma find_stocks_match_count_witness :
  let rd := results_of [stock_of "AAA" price_crossover_200; stock_of "BBB" price_crossover_200]
                       [stock_of "BBB" one_hour_rsi; stock_of "CCC" one_hour_rsi] [] in
  let c := combine "BBB" [stock_of "BBB" price_crossover_200; stock_of "BBB" one_hour_rsi]
             (stock_of "BBB" price_crossover_200) in
  let w' := snd (find_stocks_in_multiple_screeners rd empty_world) in
  find_stocks_in_multiple_screeners rd empty_world = (Ret [c], w') ∧
  c ∈ [c] ∧
  match_count c = length (screeners_found_in c) ∧ 2 ≤ match_count c.
Proof.
  pose (rd := results_of
                [stock_of "AAA" price_crossover_200; stock_of "BBB" price_crossover_200]
                [stock_of "BBB" one_hour_rsi; stock_of "CCC" one_hour_rsi] []).
  pose (c := combine "BBB" [stock_of "BBB" price_crossover_200; stock_of "BBB" one_hour_rsi]
               (stock_of "BBB" price_crossover_200)).
  pose (w' := snd (find_stocks_in_multiple_screeners rd empty_world)).
  assert (Hrun : find_stocks_in_multiple_screeners rd empty_world = (Ret [c], w'))
    by (vm_compute; reflexivity).
  assert (Hin : c ∈ [c]) by left.
  exact (conj Hrun (conj Hin (find_stocks_match_count rd empty_world w' [c] c Hrun Hin))).
Defined.

(** Scenario B: XYZ is in all three screeners, each named once. *)
Lemma find_stocks_sources_nodup_witness :
  let rd := results_of [stock_of "XYZ" price_crossover_200] [stock_of "XYZ" one_hour_rsi]
                       [stock_of "XYZ" five_min_rsi] in
  let c := combine "XYZ" [stock_of "XYZ" price_crossover_200; stock_of "XYZ" one_hour_rsi;
                          stock_of "XYZ" five_min_rsi]
             (stock_of "XYZ" price_crossover_200) in
  let w' := snd (find_stocks_in_multiple_screeners rd empty_world) in
  well_tagged (screeners rd) ∧ no_repeats (screeners rd) ∧
  find_stocks_in_multiple_screeners rd empty_world = (Ret [c], w') ∧
  c ∈ [c] ∧
  NoDup (screeners_found_in c).
Proof.
  pose (rd := results_of [stock_of "XYZ" price_crossover_200] [stock_of "XYZ" one_hour_rsi]
                [stock_of "XYZ" five_min_rsi]).
  pose (c := combine "XYZ" [stock_of "XYZ" price_crossover_200; stock_of "XYZ" one_hour_rsi;
                            stock_of "XYZ" five_min_rsi]
               (stock_of "XYZ" price_crossover_200)).
  pose (w' := snd (find_stocks_in_multiple_screeners rd empty_world)).
  assert (Htag : well_tagged (screeners rd))
    by (intros k; destruct k; by repeat constructor).
  assert (Hrep : no_repeats (screeners rd))
    by (intros k; destruct k; apply NoDup_singleton).
  assert (Hrun : find_stocks_in_multiple_screeners rd empty_world = (Ret [c], w'))
    by (vm_compute; reflexivity).
  assert (Hin : c ∈ [c]) by left.
  exact (conj Htag (conj Hrep (conj Hrun (conj Hin
           (find_stocks_sources_nodup rd empty_world w' [c] c Htag Hrep Hrun Hin))))).
Defined.

(** The write is interrupted from the keyboard forty characters in: no
    handler runs, the temporary file stays behind, the canonical file is
    as it was. *)
Lemma save_keeps_canonical_witness :
  let H := Sample.builtins in
  let e := Exn KeyboardInterrupt "" in
  let f := {| temp_write := WriteFailsAfter 40 e; replace_fault := None;
              remove_fault := None |} in
  save_failure f = Some e ∧
  ∃ e' w', save_scan_results later_results f (persisted earlier_results) = (Raise e', w') ∧
           files w' !! RESULTS_FILE = files (persisted earlier_results) !! RESULTS_FILE.
Proof.
  exact (conj eq_refl
           (save_keeps_canonical (H := Sample.builtins) later_results
              {| temp_write := WriteFailsAfter 40 (Exn KeyboardInterrupt "");
                 replace_fault := None; remove_fault := None |}
              (persisted earlier_results) (Exn KeyboardInterrupt "") eq_refl)).
Defined.

(** The first pass of a fresh installation: no results file yet. *)
Lemma load_missing_file_witness :
  let H := Sample.builtins in
  files empty_world !! RESULTS_FILE = None ∧
  value (load_current_results None empty_world) = Some (JsonResults empty_results).
Proof.
  exact (conj eq_refl
           (load_missing_file (H := Sample.builtins) None empty_world eq_refl)).
Defined.


(* ===================================================================== *)
(** * Part IV: passes of the loop, and further properties                 *)
(* ===================================================================== *)

(** ** Computations that do nothing but log *)

Section Quiet.
Context {A B : Type}.

Lemma quiet_ret (a : A) : quiet (mret a : M A).
Proof. done. Qed.

Lemma quiet_raise (e : exn) : quiet (raise e : M A).
Proof. done. Qed.

Lemma quiet_lift (o : outcome A) : quiet (lift o).
Proof. done. Qed.

Lemma quiet_bind (m : M A) (k : A → M B) :
  quiet m → (∀ a, quiet (k a)) → quiet (m ≫= k).
Proof.
  intros Hm Hk w. specialize (Hm w). unfold mbind, M_bind.
  destruct (m w) as [[a|e] w1]; simpl in *; [|done]. by rewrite Hk.
Qed.

Lemma quiet_try_except (body : M A) (handler : exn → M A) :
  quiet body → (∀ e, quiet (handler e)) → quiet (try_except body handler).
Proof.
  intros Hb Hh w. specialize (Hb w). unfold try_except.
  destruct (body w) as [[a|e] w1]; simpl in *; [done|].
  destruct (is_Exception e); [by rewrite Hh | done].
Qed.

End Quiet.

Lemma quiet_logging (l : level) (msg : string) : quiet (logging l msg).
Proof. done. Qed.

(** Proves [quiet] goals by following the binds, the handlers and the
    case distinctions. *)
Ltac quiet :=
  repeat first
    [ apply quiet_logging | apply quiet_ret | apply quiet_raise | apply quiet_lift
    | apply quiet_bind; [|intros ?]
    | apply quiet_try_except; [|intros ?]
    | match goal with
      | |- quiet (match ?x with _ => _ end) => destruct x
      end ].

Section QuietCode.
Context `{Builtins}.

Lemma load_page_quiet url p : quiet (load_page url p).
Proof. unfold load_page. quiet. Qed.

Lemma run_scan_quiet s : quiet (run_scan s).
Proof. unfold run_scan. quiet. Qed.

Lemma run_probe_quiet label Label url p indices : quiet (run_probe label Label url p indices).
Proof.
  unfold run_probe, read_indices.
  apply quiet_bind; [apply load_page_quiet|]. intros [|]; [|quiet].
  apply quiet_bind; [apply run_scan_quiet|]. intros [|]; quiet.
Qed.

Lemma extract_stock_data_quiet t k : quiet (extract_stock_data t k).
Proof.
  assert (Hrows : ∀ rows stocks, quiet (extract_rows k rows stocks)).
  { induction rows as [|r rows IH]; intros stocks; cbn [extract_rows]; [quiet|].
    apply quiet_bind; [|intros ?; apply IH]. unfold extract_row. quiet. }
  unfold extract_stock_data. apply quiet_try_except; [|intros e; quiet].
  destruct t; [quiet | apply Hrows].
Qed.

Lemma filter_quiet stocks bias : quiet (filter_stocks_by_market_trend stocks bias).
Proof.
  assert (Hloop : ∀ l acc, quiet (filter_loop bias l acc)).
  { induction l as [|raw rest IH]; intros acc; cbn [filter_loop]; [quiet|].
    repeat (match goal with |- context [if ?b then _ else _] => destruct b end);
      try apply IH; (apply quiet_bind; [quiet | intros ?; apply IH]). }
  unfold filter_stocks_by_market_trend. destruct stocks; [quiet|].
  apply quiet_bind; [apply Hloop | intros ?; quiet].
Qed.

Lemma find_stocks_quiet rd : quiet (find_stocks_in_multiple_screeners rd).
Proof.
  assert (Hloop : ∀ syms m acc, quiet (combine_loop syms m acc)).
  { induction syms as [|sym syms IH]; intros m acc; cbn [combine_loop]; [quiet|].
    destruct (default [] (m !! sym)); [apply IH|].
    apply quiet_bind; [quiet | intros ?; apply IH]. }
  assert (Hup : ∀ what s c, quiet (update_if_any what s c)).
  { intros what s c. unfold update_if_any. destruct (decide (s = ∅)); quiet. }
  unfold find_stocks_in_multiple_screeners.
  repeat (apply quiet_bind; [apply Hup | intros ?]). apply Hloop.
Qed.

End QuietCode.

(** ** Computations that leave the browser registry alone *)

Section Registry.
Context {A B : Type}.

Lemma registry_quiet (m : M A) : quiet m → registry_kept m.
Proof. intros Hq w. specialize (Hq w). unfold unlogged in Hq. by injection Hq. Qed.

Lemma registry_bind (m : M A) (k : A → M B) :
  registry_kept m → (∀ a, registry_kept (k a)) → registry_kept (m ≫= k).
Proof.
  intros Hm Hk w. specialize (Hm w). unfold mbind, M_bind.
  destruct (m w) as [[a|e] w1]; simpl in *; [|done]. by rewrite Hk.
Qed.

End Registry.

Lemma registry_sleep (n : nat) (interrupted : bool) : registry_kept (time_sleep n interrupted).
Proof. intros w. unfold time_sleep. by destruct interrupted. Qed.

Section RegistryCode.
Context `{Builtins}.

Lemma run_screener_registry s k url bias rd : registry_kept (run_screener s k url bias rd).
Proof.
  unfold run_screener.
  apply registry_bind; [apply registry_quiet; quiet | intros _].
  apply registry_bind; [apply registry_quiet, load_page_quiet | intros [|]];
    [|apply registry_quiet; quiet].
  apply registry_bind; [apply registry_quiet, run_scan_quiet | intros [|]];
    [|apply registry_quiet; quiet].
  apply registry_bind; [apply registry_sleep | intros _].
  apply registry_bind; [apply registry_quiet, extract_stock_data_quiet | intros raws].
  destruct raws; [apply registry_quiet; quiet|].
  apply registry_bind; [apply registry_quiet, filter_quiet | intros ?].
  apply registry_quiet. quiet.
Qed.

Lemma run_screeners_registry env urls bias rd :
  registry_kept (run_screeners env urls bias rd).
Proof.
  revert rd. induction urls as [|[k url] urls IH]; intros rd; cbn [run_screeners].
  - apply registry_quiet. quiet.
  - apply registry_bind; [apply run_screener_registry | intros ?; apply IH].
Qed.

End RegistryCode.

(** ** Reading the result table *)

Section TableReading.
Context `{Builtins}.

Lemma row_stock_invalid k c :
  invalid_input (cell_symbol c) (Some (cell_price c)) (Some (cell_change c))
    (Some (cell_volume c)) →
  row_stock k (RowCells c) = None.
Proof.
  unfold invalid_input, row_stock. intros [Hlen|Hrej].
  - by destruct (Nat.ltb_spec (String.length (cell_symbol c)) 2); [|lia].
  - destruct (String.length (cell_symbol c) <? 2)%nat; [done|].
    destruct Hrej as [(s & [= <-] & _ & Hc)|[(s & [= <-] & _ & Hc)|(s & [= <-] & _ & Hc)]].
    + by rewrite Hc.
    + destruct (py_float (clean_number (cell_price c))); [|done].
      cbn [mbind option_bind]. by rewrite Hc.
    + destruct (py_float (clean_number (cell_price c))); [|done]. cbn [mbind option_bind].
      destruct (py_float (clean_percent (cell_change c))); [|done].
      cbn [mbind option_bind]. by rewrite Hc.
Qed.

(** One row: the stock it yields is appended, or the row is skipped. *)
Lemma extract_row_run k r stocks w :
  row_calm r →
  ∃ w', extract_row k r stocks w = (Ret (stocks ++ option_list (row_stock k r)), w').
Proof.
  intros Hr. destruct r as [c|e].
  - destruct (invalid_input_dec (cell_symbol c) (Some (cell_price c))
                (Some (cell_change c)) (Some (cell_volume c))) as [Hbad|Hok].
    + rewrite (row_stock_invalid k c Hbad). cbn [option_list]. rewrite app_nil_r.
      apply validate_invalid in Hbad as [msg Hbad].
      unfold extract_row, try_except, mbind, M_bind, mret, M_ret, lift.
      rewrite Hbad. cbn. by eexists.
    + pose proof (validate_valid _ _ _ _ Hok) as Hval.
      assert (Hlen : (String.length (cell_symbol c) <? 2)%nat = false).
      { apply Nat.ltb_ge. unfold invalid_input in Hok.
        destruct (decide (String.length (cell_symbol c) < 2)); [|lia]. exfalso. auto. }
      unfold extract_row, row_stock, try_except, mbind, M_bind, mret, M_ret, lift.
      rewrite Hval, Hlen. unfold float_of, int_of, clean_number, clean_percent.
      destruct (py_float (str_remove "," (cell_price c))) as [p|];
        [|cbn; rewrite app_nil_r; by eexists].
      destruct (py_float (str_remove "," (str_remove "%" (cell_change c)))) as [ch|];
        [|cbn; rewrite app_nil_r; by eexists].
      destruct (py_int (str_remove "," (cell_volume c))) as [v|];
        [|cbn; rewrite app_nil_r; by eexists].
      cbn. by eexists.
  - unfold extract_row, try_except, mbind, M_bind, raise. cbn in Hr. rewrite Hr.
    cbn. rewrite app_nil_r. by eexists.
Qed.

Lemma extract_rows_run k rows stocks w :
  Forall row_calm rows →
  ∃ w', extract_rows k rows stocks w = (Ret (stocks ++ omap (row_stock k) rows), w').
Proof.
  intros Hrows. revert stocks w.
  induction Hrows as [|r rows Hr _ IH]; intros stocks w; cbn [extract_rows].
  - exists w. by rewrite app_nil_r.
  - destruct (extract_row_run k r stocks w Hr) as (w1 & Hrow).
    rewrite (bind_run _ _ _ _ _ Hrow).
    destruct (IH (stocks ++ option_list (row_stock k r)) w1) as (w2 & ->).
    exists w2. do 2 f_equal. rewrite <- app_assoc. f_equal.
    cbn [omap list_omap]. by destruct (row_stock k r).
Qed.

(** What the extraction returns, and that it only logs. *)
Lemma extract_stock_data_run (t : table_read) k w :
  table_calm t →
  ∃ w', extract_stock_data t k w = (Ret (table_stocks k t), w') ∧ files w' = files w.
Proof.
  intros Ht.
  destruct (extract_stock_data_total t k Ht w) as (raws & w' & Hrun & Hf).
  exists w'. split; [|done]. rewrite Hrun. do 2 f_equal.
  unfold extract_stock_data in Hrun. destruct t as [e|rows]; cbn [table_stocks].
  - cbn in Ht. unfold try_except, raise in Hrun. rewrite Ht in Hrun.
    rewrite bind_logging in Hrun. by injection Hrun.
  - destruct (extract_rows_run k rows [] w Ht) as (w1 & Hrows).
    rewrite (try_except_ret _ _ _ _ _ Hrows) in Hrun. by injection Hrun.
Qed.

End TableReading.

(** ** One screener, and the pass over the three *)

Section Passes.
Context `{Builtins}.

Lemma is_scanned_spec (s : screener_scan) : is_scanned s = true ↔ source_scanned s.
Proof.
  unfold is_scanned, source_scanned.
  destruct (scan_page s), (scan_trigger s); split; try done; by intros [? ?].
Qed.

(** What one call of [run_screener] returns. *)
Lemma run_screener_run (s : screener_scan) k url bias (rd : ResultsData) w :
  scan_calm s →
  ∃ w', run_screener s k url bias rd w = (Ret (screened s k bias rd), w') ∧
        files w' = files w.
Proof.
  intros Hcalm. unfold screened. destruct (scan_calm_cases s Hcalm) as [Hfail|Hscan].
  - assert (Hno : is_scanned s = false).
    { destruct (is_scanned s) eqn:E; [|done]. apply is_scanned_spec in E.
      destruct (failed_not_scanned s Hfail E). }
    rewrite Hno. by apply run_screener_failed.
  - rewrite (proj2 (is_scanned_spec s) Hscan). destruct Hcalm as (_ & _ & Ht).
    destruct (run_screener_scanned s k url bias rd w Hscan Ht)
      as (raws & w0 & w1 & w' & Hx & Hrun & Hf).
    destruct (extract_stock_data_run (scan_table s) k w0 Ht) as (w1' & Hx' & _).
    rewrite Hx in Hx'. injection Hx' as -> _. by exists w'.
Qed.

Lemma run_screeners_run (env : cycle_env) (bias : string) urls (rd : ResultsData) w :
  (∀ k, scan_calm (scans env k)) →
  ∃ w', run_screeners env urls bias rd w = (Ret (pass_screeners env urls bias rd), w') ∧
        files w' = files w.
Proof.
  intros Hcalm. revert rd w.
  induction urls as [|[k url] urls IH]; intros rd w; cbn [run_screeners].
  - by exists w.
  - destruct (run_screener_run (scans env k) k url bias rd w (Hcalm k)) as (w1 & Hr & Hf).
    rewrite (bind_run _ _ _ _ _ Hr).
    destruct (IH (screened (scans env k) k bias rd) w1) as (w2 & Hr2 & Hf2).
    exists w2. split; [exact Hr2 | congruence].
Qed.

(** The fields of the results a call of [run_screener] leaves alone. *)
Lemma screened_frame (s : screener_scan) k bias (rd : ResultsData) :
  last_update (screened s k bias rd) = last_update rd ∧
  rd_market_bias (screened s k bias rd) = rd_market_bias rd ∧
  combined_stocks (screened s k bias rd) = combined_stocks rd ∧
  ∀ k', k' ≠ k →
    screeners_get (screeners (screened s k bias rd)) k' = screeners_get (screeners rd) k'.
Proof.
  unfold screened. destruct (is_scanned s); [|done]. split_and!; try done.
  intros k' Hne. rewrite screeners_get_set. by destruct (decide (k = k')).
Qed.

Lemma omap_length_le {A B} (f : A → option B) (l : list A) :
  length (omap f l) ≤ length l.
Proof.
  induction l as [|x l IH]; [done|]. cbn [omap list_omap].
  destruct (f x); simpl; lia.
Qed.

Lemma kept_stocks bias raws st :
  st ∈ kept bias raws →
  market_bias st = bias ∧ aligned bias (stock_trend st) = true ∧
  ∃ raw, raw ∈ raws ∧ st = stamp bias raw.
Proof.
  unfold kept. rewrite list_elem_of_In, filter_In, <- list_elem_of_In.
  intros [Hin Hal]. apply list_elem_of_fmap in Hin as (raw & -> & Hraw).
  split_and!; [done | done | by exists raw].
Qed.

Lemma table_stocks_row k t raw :
  raw ∈ table_stocks k t →
  ∃ c, row_stock k (RowCells c) = Some raw ∧
       match t with TableRows rows => RowCells c ∈ rows | TableFails _ => False end.
Proof.
  destruct t as [e|rows]; cbn [table_stocks]; [by intros ?%elem_of_nil|].
  intros (r & Hr & Hsome)%list_elem_of_omap. destruct r as [c|e]; [|done]. by exists c.
Qed.

Lemma row_stock_fields k c raw :
  row_stock k (RowCells c) = Some raw →
  r_symbol raw = cell_symbol c ∧ 2 ≤ String.length (r_symbol raw) ∧
  r_screener_type raw = k ∧
  py_float (clean_number (cell_price c)) = Some (r_price raw) ∧
  py_float (clean_percent (cell_change c)) = Some (r_change raw) ∧
  py_int (clean_number (cell_volume c)) = Some (r_volume raw) ∧
  r_stock_trend raw = (if SFltb fzero (r_change raw) then "bullish" else "bearish").
Proof.
  unfold row_stock.
  destruct (Nat.ltb_spec (String.length (cell_symbol c)) 2) as [|Hlen]; [done|].
  destruct (py_float (clean_number (cell_price c))) as [p|]; [|done].
  destruct (py_float (clean_percent (cell_change c))) as [ch|]; [|done].
  destruct (py_int (clean_number (cell_volume c))) as [v|]; [|done].
  cbn. intros [= <-]. by cbn.
Qed.

End Passes.

(** ** Market bias: the record written and the indices that count *)

Section TrendFile.
Context `{Builtins}.

(** Up to the write of the market trend file, detecting the bias only
    logs. *)
Lemma check_market_trend_steps (bullish bearish : probe) now fault w :
  probe_calm bullish → probe_calm bearish →
  ∃ w2,
    unlogged w2 = unlogged w ∧
    check_market_trend bullish bearish now fault w
    = (write_file MARKET_TREND_FILE (json_dumps_trend (trend_record bullish bearish now))
         fault;;
       mret (classify_market (collected bullish) (collected bearish))) w2.
Proof.
  intros Hb1 Hb2. unfold check_market_trend.
  destruct (run_probe_collects "bullish" "Bullish" MARKET_BULLISH_URL bullish w Hb1)
    as (w1 & Hr1 & _).
  pose proof (run_probe_quiet "bullish" "Bullish" MARKET_BULLISH_URL bullish [] w) as Hq1.
  rewrite Hr1 in Hq1. rewrite (bind_run _ _ _ _ _ Hr1).
  destruct (run_probe_collects "bearish" "Bearish" MARKET_BEARISH_URL bearish w1 Hb2)
    as (w2 & Hr2 & _).
  pose proof (run_probe_quiet "bearish" "Bearish" MARKET_BEARISH_URL bearish [] w1) as Hq2.
  rewrite Hr2 in Hq2. rewrite (bind_run _ _ _ _ _ Hr2). rewrite bind_logging.
  eexists. split; [|reflexivity]. simpl in *. unfold unlogged in *. simpl. congruence.
Qed.

Lemma check_market_trend_written (bullish bearish : probe) now w :
  probe_calm bullish → probe_calm bearish →
  ∃ w',
    check_market_trend bullish bearish now WriteOk w
    = (Ret (classify_market (collected bullish) (collected bearish)), w') ∧
    files w' = <[MARKET_TREND_FILE := json_dumps_trend (trend_record bullish bearish now)]>
                 (files w) ∧
    slept w' = slept w ∧ drivers w' = drivers w.
Proof.
  intros Hb1 Hb2.
  destruct (check_market_trend_steps bullish bearish now WriteOk w Hb1 Hb2)
    as (w2 & Hq & ->).
  unfold unlogged in Hq. injection Hq as Hf Hs Hd.
  eexists. split; [reflexivity|]. cbn [files slept drivers set_files]. by rewrite Hf, Hs, Hd.
Qed.

(** When the write goes through, the market trend file holds the time
    stamp, the bias returned and the two lists of index symbols the bias
    was computed from; no other file is touched. *)
Theorem check_market_trend_trend_file (bullish bearish : probe) (now : datetime)
    (w : world) :
  probe_calm bullish → probe_calm bearish →
  ∃ bias w',
    check_market_trend bullish bearish now WriteOk w = (Ret bias, w') ∧
    files w' = <[MARKET_TREND_FILE :=
                   json_dumps_trend {| md_timestamp := strftime now;
                                       md_market_bias := bias;
                                       bullish_indices := collected bullish;
                                       bearish_indices := collected bearish |}]> (files w) ∧
    slept w' = slept w ∧ drivers w' = drivers w.
Proof.
  intros Hb1 Hb2.
  destruct (check_market_trend_written bullish bearish now w Hb1 Hb2) as (w' & Hrun & Hrest).
  by exists (classify_market (collected bullish) (collected bearish)), w'.
Qed.

(** There is no handler around the write of the market trend file: when
    it fails, the error leaves [check_market_trend], whatever its class,
    although the bias has been determined and logged. Every other file is
    as it was. *)
Theorem check_market_trend_write_fails (bullish bearish : probe) (now : datetime)
    (fault : write_fault) (e : exn) (w : world) :
  probe_calm bullish → probe_calm bearish →
  write_error fault = Some e →
  ∃ w',
    check_market_trend bullish bearish now fault w = (Raise e, w') ∧
    last (log w')
    = Some (INFO, "Market bias determined as: " +:+
                  upper (classify_market (collected bullish) (collected bearish))) ∧
    ∀ path, path ≠ MARKET_TREND_FILE → files w' !! path = files w !! path.
Proof.
  intros Hb1 Hb2 Hfault. unfold check_market_trend.
  destruct (run_probe_collects "bullish" "Bullish" MARKET_BULLISH_URL bullish w Hb1)
    as (w1 & Hr1 & Hf1).
  rewrite (bind_run _ _ _ _ _ Hr1).
  destruct (run_probe_collects "bearish" "Bearish" MARKET_BEARISH_URL bearish w1 Hb2)
    as (w2 & Hr2 & Hf2).
  rewrite (bind_run _ _ _ _ _ Hr2). rewrite bind_logging.
  destruct fault as [|e'|n e']; simplify_eq/=.
  - eexists. split; [reflexivity|]. cbn [log add_log files].
    split; [apply last_snoc | intros path _; congruence].
  - eexists. split; [reflexivity|]. cbn [log add_log files set_files].
    split; [apply last_snoc|]. intros path Hne. rewrite lookup_insert_ne by done. congruence.
Qed.

Lemma key_count_ext (l1 l2 : list string) :
  (∀ idx, idx ∈ key_indices → (idx ∈ l1 ↔ idx ∈ l2)) → key_count l1 = key_count l2.
Proof.
  intros Hsame. unfold key_count.
  assert (Hgen : ∀ keys : list string,
            (∀ idx, idx ∈ keys → (idx ∈ l1 ↔ idx ∈ l2)) →
            filter (λ idx, idx ∈ l1) keys = filter (λ idx, idx ∈ l2) keys).
  { induction keys as [|key keys IH]; intros Hk; [done|].
    rewrite !filter_cons.
    pose proof (Hk key (list_elem_of_here _ _)) as Hkey.
    rewrite IH by (intros idx Hin; apply Hk; by right).
    destruct (decide (key ∈ l1)), (decide (key ∈ l2)); tauto || done. }
  by rewrite (Hgen key_indices Hsame).
Qed.

(** Only NIFTY, BANKNIFTY and NIFTYFINSERVICE count: two runs in which
    each of the three shows up in the same tables return the same bias,
    whatever else the tables list, in whatever order and however often. *)
Theorem check_market_trend_key_indices_only (bullish bearish bullish' bearish' : probe)
    (now now' : datetime) (w w' : world) :
  probe_calm bullish → probe_calm bearish → probe_calm bullish' → probe_calm bearish' →
  (∀ idx, idx ∈ key_indices → (idx ∈ collected bullish ↔ idx ∈ collected bullish')) →
  (∀ idx, idx ∈ key_indices → (idx ∈ collected bearish ↔ idx ∈ collected bearish')) →
  value (check_market_trend bullish bearish now WriteOk w)
  = value (check_market_trend bullish' bearish' now' WriteOk w').
Proof.
  intros Hb1 Hb2 Hb1' Hb2' Hup Hdown.
  destruct (check_market_trend_written bullish bearish now w Hb1 Hb2) as (w1 & -> & _).
  destruct (check_market_trend_written bullish' bearish' now' w' Hb1' Hb2') as (w2 & -> & _).
  unfold value, classify_market. cbn [fst].
  by rewrite (key_count_ext _ _ Hup), (key_count_ext _ _ Hdown).
Qed.

End TrendFile.

(** ** What the extraction and a screener scan yield *)

Section PassProperties.
Context `{Builtins}.

(** The extraction returns, in the order of the table, one stock for each
    row whose cells can be read, whose symbol has two characters or more
    and whose price, change and volume texts convert once cleaned; every
    other row is skipped. When the table does not show up it returns no
    stock. It never raises an [Exception]. *)
Theorem extract_stock_data_rows (t : table_read) (k : ScreenerType) (w : world) :
  table_calm t →
  value (extract_stock_data t k w) = Some (table_stocks k t).
Proof.
  intros Ht. by destruct (extract_stock_data_run t k w Ht) as (w' & -> & _).
Qed.

Lemma table_stocks_fields k t raw :
  raw ∈ table_stocks k t →
  2 ≤ String.length (r_symbol raw) ∧ r_screener_type raw = k ∧
  r_stock_trend raw = (if SFltb fzero (r_change raw) then "bullish" else "bearish").
Proof.
  intros (c & Hrow & _)%table_stocks_row.
  by destruct (row_stock_fields k c raw Hrow) as (_ & ? & ? & _ & _ & _ & ?).
Qed.

(** Every stock extracted has a symbol of two characters or more, carries
    the key of the screener scanned, and is "bullish" when its change is
    above zero and "bearish" otherwise: never "unknown". There are no
    more stocks than rows, and nothing but the log is touched. *)
Theorem extract_stock_data_stocks (rows : list row_read) (k : ScreenerType) (w : world) :
  Forall row_calm rows →
  ∃ raws w',
    extract_stock_data (TableRows rows) k w = (Ret raws, w') ∧
    unlogged w' = unlogged w ∧
    length raws ≤ length rows ∧
    Forall (λ raw, 2 ≤ String.length (r_symbol raw) ∧
                   r_screener_type raw = k ∧
                   r_stock_trend raw
                   = (if SFltb fzero (r_change raw) then "bullish" else "bearish") ∧
                   r_stock_trend raw ≠ "unknown") raws.
Proof.
  intros Hrows.
  destruct (extract_stock_data_run (TableRows rows) k w Hrows) as (w' & Hrun & _).
  pose proof (extract_stock_data_quiet (TableRows rows) k w) as Hq. rewrite Hrun in Hq.
  exists (table_stocks k (TableRows rows)), w'. split_and!; [done | done | |].
  - cbn [table_stocks]. apply omap_length_le.
  - apply Forall_forall. intros raw Hraw.
    destruct (table_stocks_fields _ _ _ Hraw) as (Hlen & Hk & Htrend).
    split_and!; try done. rewrite Htrend. by destruct (SFltb fzero (r_change raw)).
Qed.

(** A call of [run_screener] returns and changes at most the entry of its
    own screener: the time stamp, the bias, the combined stocks and the
    entries of the other two screeners are handed back as they came, and
    no file is touched. *)
Theorem run_screener_own_entry (s : screener_scan) (k : ScreenerType) (url bias : string)
    (rd : ResultsData) (w : world) :
  scan_calm s →
  ∃ rd' w',
    run_screener s k url bias rd w = (Ret rd', w') ∧
    files w' = files w ∧
    last_update rd' = last_update rd ∧
    rd_market_bias rd' = rd_market_bias rd ∧
    combined_stocks rd' = combined_stocks rd ∧
    ∀ k', k' ≠ k → screeners_get (screeners rd') k' = screeners_get (screeners rd) k'.
Proof.
  intros Hcalm.
  destruct (run_screener_run s k url bias rd w Hcalm) as (w' & Hrun & Hf).
  destruct (screened_frame s k bias rd) as (Hu & Hb & Hc & Hk).
  by exists (screened s k bias rd), w'.
Qed.

(** When the page loads and the scan runs, the entry of the screener is
    replaced, whatever it held, by the stocks of the table that align
    with the bias: by the empty list when the table does not show up or
    none of its rows yields such a stock. Every stock stored carries the
    bias and the key of the screener. *)
Theorem run_screener_renews_entry (s : screener_scan) (k : ScreenerType) (url bias : string)
    (rd : ResultsData) (w : world) :
  scan_calm s → source_scanned s →
  ∃ rd' w',
    run_screener s k url bias rd w = (Ret rd', w') ∧
    screeners_get (screeners rd') k = kept bias (table_stocks k (scan_table s)) ∧
    (table_stocks k (scan_table s) = [] → screeners_get (screeners rd') k = []) ∧
    Forall (λ st, market_bias st = bias ∧ screener_type st = k ∧
                  aligned bias (stock_trend st) = true)
      (screeners_get (screeners rd') k).
Proof.
  intros Hcalm Hscan.
  destruct (run_screener_run s k url bias rd w Hcalm) as (w' & Hrun & _).
  exists (screened s k bias rd), w'. split; [done|].
  assert (Hget : screeners_get (screeners (screened s k bias rd)) k
                 = kept bias (table_stocks k (scan_table s))).
  { unfold screened. rewrite (proj2 (is_scanned_spec s) Hscan), screeners_get_set.
    by destruct (decide (k = k)). }
  rewrite Hget. split_and!; [done | by intros -> |].
  apply Forall_forall. intros st Hst.
  destruct (kept_stocks _ _ _ Hst) as (Hb & Hal & raw & Hraw & ->).
  split_and!; [done | | done].
  by destruct (table_stocks_fields _ _ _ Hraw) as (_ & ? & _).
Qed.

Lemma screened_well_tagged (s : screener_scan) k bias (rd : ResultsData) :
  well_tagged (screeners rd) → well_tagged (screeners (screened s k bias rd)).
Proof.
  intros Htag k'. unfold screened. destruct (is_scanned s); [|apply Htag].
  rewrite screeners_get_set. destruct (decide (k = k')) as [<-|_]; [|apply Htag].
  apply Forall_forall. intros st Hst.
  destruct (kept_stocks _ _ _ Hst) as (_ & _ & raw & Hraw & ->).
  by destruct (table_stocks_fields _ _ _ Hraw) as (_ & ? & _).
Qed.

Lemma pass_screeners_cons (env : cycle_env) k url urls bias (rd : ResultsData) :
  pass_screeners env ((k, url) :: urls) bias rd
  = pass_screeners env urls bias (screened (scans env k) k bias rd).
Proof. done. Qed.

Lemma pass_screeners_well_tagged (env : cycle_env) urls bias (rd : ResultsData) :
  well_tagged (screeners rd) → well_tagged (screeners (pass_screeners env urls bias rd)).
Proof.
  revert rd. induction urls as [|[k url] urls IH]; intros rd Htag; [done|].
  rewrite pass_screeners_cons. apply IH. by apply screened_well_tagged.
Qed.

Lemma pass_screeners_bias (env : cycle_env) urls bias (rd : ResultsData) :
  rd_market_bias (pass_screeners env urls bias rd) = rd_market_bias rd ∧
  last_update (pass_screeners env urls bias rd) = last_update rd.
Proof.
  revert rd. induction urls as [|[k url] urls IH]; intros rd; [done|].
  rewrite pass_screeners_cons. destruct (IH (screened (scans env k) k bias rd)) as [-> ->].
  by destruct (screened_frame (scans env k) k bias rd) as (? & ? & _).
Qed.

(** What loading returns is the state the file stands for. *)
Lemma file_state_loaded (file : option string) (prior : ResultsData) :
  file_state file = Some prior ↔ loaded None file = Some (JsonResults prior).
Proof.
  unfold file_state, loaded. destruct file as [text|]; [|split; by intros [= ->]].
  destruct (json_loads_results text) as [[data|]|]; cbn;
    split; intros Heq; by simplify_eq.
Qed.

Lemma file_state_load (w : world) (prior : ResultsData) :
  file_state (files w !! RESULTS_FILE) = Some prior ↔
  value (load_current_results None w) = Some (JsonResults prior).
Proof. by rewrite load_value, file_state_loaded. Qed.

(** A pass up to the point where it saves: the market trend file is
    written, the state [prior] is loaded, and the state [cycle_results]
    gives for it is handed to [save_scan_results]. *)
Lemma scan_cycle_steps (env : cycle_env) (w : world) (prior : ResultsData) :
  reaches_save env →
  file_state (files w !! RESULTS_FILE) = Some prior →
  ∃ w4,
    files w4 = <[MARKET_TREND_FILE :=
                   json_dumps_trend (trend_record (bullish_probe env)
                                       (bearish_probe env) (now_trend env))]> (files w) ∧
    drivers w4 = drivers w ∧
    scan_cycle env w
    = (save_scan_results (cycle_results env prior) (save env);;
       logging INFO ("Complete scan cycle finished. Found " +:+
                     pretty (length (combined_stocks (cycle_results env prior))) +:+
                     " stocks in multiple screeners.");;
       logging INFO ("Waiting " +:+ pretty SCAN_INTERVAL +:+ " seconds for next scan...");;
       time_sleep SCAN_INTERVAL (sleep_interrupted env)) w4.
Proof.
  intros (Hday & Htime & Hb1 & Hb2 & Htrend & Hread & Hscans) Hstate.
  unfold scan_cycle.
  rewrite (bind_run _ _ _ _ _
             (is_market_hours_run _ w Hday (at_or_before_seconds _ _ _ _ Htime))).
  cbv beta iota. cbn [negb]. rewrite bind_logging, Htrend.
  set (w0 := add_log _ w).
  destruct (check_market_trend_written (bullish_probe env) (bearish_probe env)
              (now_trend env) w0 Hb1 Hb2) as (w1 & Hr1 & Hf1 & _ & Hd1).
  fold (cycle_bias env) in Hr1.
  rewrite (bind_run _ _ _ _ _ Hr1), Hread.
  destruct (load_run None w1) as (r & w2 & Hr2 & Hf2 & _ & Hd2 & Hv2).
  assert (Hsame : files w1 !! RESULTS_FILE = files w !! RESULTS_FILE).
  { rewrite Hf1. cbn [files add_log]. by rewrite lookup_insert_ne by apply trend_is_not_results. }
  rewrite Hsame, (proj1 (file_state_loaded _ _) Hstate) in Hv2.
  destruct r as [loaded_data|e]; [|done]. injection Hv2 as ->.
  rewrite (bind_run _ _ _ _ _ Hr2). cbv beta iota.
  set (rd0 := {| last_update := strftime (now_update env); rd_market_bias := cycle_bias env;
                 screeners := screeners prior;
                 combined_stocks := combined_stocks prior |}).
  destruct (run_screeners_run env (cycle_bias env) SCREENER_URLS rd0 w2 Hscans)
    as (w3 & Hr3 & Hf3).
  pose proof (run_screeners_registry env SCREENER_URLS (cycle_bias env) rd0 w2) as Hd3.
  rewrite Hr3 in Hd3. rewrite (bind_run _ _ _ _ _ Hr3).
  destruct (find_stocks_run (pass_screeners env SCREENER_URLS (cycle_bias env) rd0) w3)
    as (w4 & Hr4 & Hf4).
  pose proof (registry_quiet _ (find_stocks_quiet
                (pass_screeners env SCREENER_URLS (cycle_bias env) rd0)) w3) as Hd4.
  rewrite Hr4 in Hd4. rewrite (bind_run _ _ _ _ _ Hr4).
  fold (cycle_results env prior).
  exists w4. split_and!.
  - by rewrite Hf4, Hf3, Hf2, Hf1.
  - cbn [snd] in Hd3, Hd4. by rewrite Hd4, Hd3, Hd2, Hd1.
  - reflexivity.
Qed.

Lemma undisturbed_reaches_save (env : cycle_env) :
  cycle_undisturbed env →
  reaches_save env ∧ save_failure (save env) = None ∧ sleep_interrupted env = false.
Proof.
  intros (? & ? & ? & ? & ? & ? & ? & ? & ?). unfold reaches_save. by split_and!.
Qed.

(** A whole pass that nothing disturbs, on a results file that stands
    for the state [prior]: it returns, and the files it leaves are those
    it found, with the market trend record and the state [cycle_results]
    gives for [prior]; the browser registry is as it was. *)
Lemma scan_cycle_run (env : cycle_env) (w : world) (prior : ResultsData) :
  cycle_undisturbed env →
  file_state (files w !! RESULTS_FILE) = Some prior →
  ∃ w',
    scan_cycle env w = (Ret (), w') ∧
    files w' = <[RESULTS_FILE := json_dumps_results (cycle_results env prior)]>
                 (delete TEMP_FILE
                    (<[MARKET_TREND_FILE :=
                         json_dumps_trend (trend_record (bullish_probe env)
                                             (bearish_probe env) (now_trend env))]>
                       (files w))) ∧
    drivers w' = drivers w.
Proof.
  intros (Hpass & Hsave & Hsleep)%undisturbed_reaches_save Hstate.
  destruct (scan_cycle_steps env w prior Hpass Hstate) as (w4 & Hf4 & Hd4 & ->).
  destruct (save_succeeds (cycle_results env prior) (save env) w4 Hsave)
    as (w5 & Hr5 & Hf5 & _ & Hd5).
  rewrite (bind_run _ _ _ _ _ Hr5). rewrite !bind_logging, Hsleep.
  eexists. split_and!; [reflexivity | |].
  - cbn [files add_sleep add_log]. by rewrite Hf5, Hf4.
  - cbn [drivers add_sleep add_log]. by rewrite Hd5, Hd4.
Qed.

End PassProperties.

(** ** A whole pass *)

Section PassResults.
Context `{Builtins}.

Lemma screened_get (s : screener_scan) k k' bias (rd : ResultsData) :
  screeners_get (screeners (screened s k bias rd)) k'
  = if decide (k = k')
    then (if is_scanned s then kept bias (table_stocks k (scan_table s))
          else screeners_get (screeners rd) k')
    else screeners_get (screeners rd) k'.
Proof.
  unfold screened. destruct (is_scanned s); [|by destruct (decide (k = k'))].
  apply screeners_get_set.
Qed.

(** The entries after the pass over the three screeners. *)
Lemma pass_screeners_get (env : cycle_env) bias (rd : ResultsData) k :
  screeners_get (screeners (pass_screeners env SCREENER_URLS bias rd)) k
  = if is_scanned (scans env k)
    then kept bias (table_stocks k (scan_table (scans env k)))
    else screeners_get (screeners rd) k.
Proof.
  unfold SCREENER_URLS. rewrite !pass_screeners_cons.
  change (pass_screeners env [] bias ?x) with x.
  rewrite !screened_get. by destruct k.
Qed.

Lemma failed_is_not_scanned (s : screener_scan) : source_failed s → is_scanned s = false.
Proof.
  intros Hfail. destruct (is_scanned s) eqn:E; [|done].
  apply is_scanned_spec in E. destruct (failed_not_scanned s Hfail E).
Qed.

(** C9. In a pass of the loop that nothing disturbs, on a results file
    that stands for the state [prior] (the state the pass before saved; the
    defaults, with their empty lists, when there is no file yet), the
    file saved at the end holds, for a screener whose page did not load or
    whose scan did not run, the entry of [prior], and for a screener whose
    scan ran, what the filter keeps of the stocks of its table in this
    pass. *)
Theorem scan_cycle_failed_source_kept (env : cycle_env) (w : world) (prior : ResultsData) :
  cycle_undisturbed env →
  file_state (files w !! RESULTS_FILE) = Some prior →
  ∃ saved w',
    scan_cycle env w = (Ret (), w') ∧
    files w' !! RESULTS_FILE = Some (json_dumps_results saved) ∧
    (∀ k, source_failed (scans env k) →
          screeners_get (screeners saved) k = screeners_get (screeners prior) k) ∧
    (∀ k, source_scanned (scans env k) →
          screeners_get (screeners saved) k
          = kept (rd_market_bias saved) (table_stocks k (scan_table (scans env k)))) ∧
    (files w !! RESULTS_FILE = None →
     ∀ k, source_failed (scans env k) → screeners_get (screeners saved) k = []).
Proof.
  intros Hcalm Hstate.
  destruct (scan_cycle_run env w prior Hcalm Hstate) as (w' & Hrun & Hf & _).
  exists (cycle_results env prior), w'.
  pose proof (pass_screeners_bias env SCREENER_URLS (cycle_bias env)
                {| last_update := strftime (now_update env);
                   rd_market_bias := cycle_bias env;
                   screeners := screeners prior;
                   combined_stocks := combined_stocks prior |}) as [Hbias _].
  assert (Hfailed : ∀ k, source_failed (scans env k) →
            screeners_get (screeners (cycle_results env prior)) k
            = screeners_get (screeners prior) k).
  { intros k Hfail. cbn [cycle_results screeners].
    by rewrite pass_screeners_get, (failed_is_not_scanned _ Hfail). }
  split_and!; [done | by rewrite Hf, lookup_insert_eq | done | |].
  - intros k Hscan. cbn [cycle_results screeners rd_market_bias].
    rewrite pass_screeners_get, (proj2 (is_scanned_spec _) Hscan).
    by rewrite Hbias.
  - intros Hnone k Hfail. rewrite (Hfailed k Hfail).
    rewrite Hnone in Hstate. injection Hstate as <-. by destruct k.
Qed.

(** After a pass that nothing disturbs, on a results file that stands
    for a state, the results file holds the bias this pass determined (the
    same the market trend file records), the time stamp of this pass, and
    as combined stocks exactly what the aggregator returns for the
    screener lists saved beside them, the lists kept from an earlier pass
    included; the temporary file is gone. *)
Theorem scan_cycle_saved_state (env : cycle_env) (w : world) (prior : ResultsData) :
  cycle_undisturbed env →
  file_state (files w !! RESULTS_FILE) = Some prior →
  ∃ saved trend w',
    scan_cycle env w = (Ret (), w') ∧
    files w' !! RESULTS_FILE = Some (json_dumps_results saved) ∧
    files w' !! MARKET_TREND_FILE = Some (json_dumps_trend trend) ∧
    files w' !! TEMP_FILE = None ∧
    rd_market_bias saved
    = classify_market (collected (bullish_probe env)) (collected (bearish_probe env)) ∧
    md_market_bias trend = rd_market_bias saved ∧
    last_update saved = strftime (now_update env) ∧
    ∀ w0, value (find_stocks_in_multiple_screeners saved w0) = Some (combined_stocks saved).
Proof.
  intros Hcalm Hstate.
  destruct (scan_cycle_run env w prior Hcalm Hstate) as (w' & Hrun & Hf & _).
  exists (cycle_results env prior),
         (trend_record (bullish_probe env) (bearish_probe env) (now_trend env)), w'.
  pose proof (pass_screeners_bias env SCREENER_URLS (cycle_bias env)
                {| last_update := strftime (now_update env);
                   rd_market_bias := cycle_bias env;
                   screeners := screeners prior;
                   combined_stocks := combined_stocks prior |}) as [Hbias Hupd].
  split_and!; try done.
  - by rewrite Hf, lookup_insert_eq.
  - rewrite Hf, lookup_insert_ne by (intros Heq; by apply trend_is_not_results).
    rewrite lookup_delete_ne by done. by rewrite lookup_insert_eq.
  - rewrite Hf, lookup_insert_ne by (intros Heq; by apply temp_is_not_canonical).
    by rewrite lookup_delete_eq.
  - intros w0. by destruct (find_stocks_run (cycle_results env prior) w0) as (w1 & -> & _).
Qed.

(** A pass keeps the results well tagged: when every stock of the state
    loaded sits under the key it carries, so does every stock of the
    state saved. *)
Theorem scan_cycle_keeps_well_tagged (env : cycle_env) (prior : ResultsData) (w : world) :
  cycle_undisturbed env →
  value (load_current_results None w) = Some (JsonResults prior) →
  well_tagged (screeners prior) →
  ∃ saved w',
    scan_cycle env w = (Ret (), w') ∧
    files w' !! RESULTS_FILE = Some (json_dumps_results saved) ∧
    well_tagged (screeners saved).
Proof.
  intros Hcalm Hload%file_state_load Htag.
  destruct (scan_cycle_run env w prior Hcalm Hload) as (w' & Hrun & Hf & _).
  exists (cycle_results env prior), w'. split_and!; [done | by rewrite Hf, lookup_insert_eq |].
  cbn [cycle_results screeners]. by apply pass_screeners_well_tagged.
Qed.

Lemma is_market_hours_shut (now : datetime) (w : world) :
  market_closed now →
  ∃ msg, is_market_hours now w = (Ret false, add_log (INFO, msg) w).
Proof.
  unfold market_closed, is_market_hours. intros Hshut.
  destruct (Nat.leb_spec 5 (weekday now)) as [Hwe|Hwd]; [by eexists|].
  destruct Hshut as [?|Hlate]; [lia|]. rewrite dt_leb_start.
  destruct (dt_leb now (replace_hms now 23 59 0)) eqn:Hend.
  - apply dt_leb_end in Hend. congruence.
  - by eexists.
Qed.

(** On a weekend, and after 23:59:00, a pass loads no page and touches no
    file: it logs one record and sleeps sixty seconds. An interruption
    during the sleep is raised. *)
Theorem scan_cycle_market_closed (env : cycle_env) (w : world) :
  market_closed (now_gate env) →
  ∃ msg w',
    scan_cycle env w
    = (if sleep_interrupted env then Raise (Exn KeyboardInterrupt "") else Ret (), w') ∧
    log w' = log w ++ [(INFO, msg)] ∧
    slept w' = slept w ++ [60] ∧
    files w' = files w ∧ drivers w' = drivers w.
Proof.
  intros Hshut. destruct (is_market_hours_shut _ w Hshut) as (msg & Hgate).
  unfold scan_cycle. rewrite (bind_run _ _ _ _ _ Hgate). cbn [negb]. unfold time_sleep.
  exists msg. by destruct (sleep_interrupted env); eexists.
Qed.

End PassResults.

(** ** The results file: round trip, unreadable file, first start *)

Section ResultsFile.
Context `{Builtins}.

(** What is saved is what is loaded next, provided the JSON text of the
    state reads back as the state. *)
Theorem save_then_load (data : ResultsData) (f : save_faults) (w : world) :
  json_loads_results (json_dumps_results data) = Some (JsonResults data) →
  save_failure f = None →
  ∃ w',
    save_scan_results data f w = (Ret (), w') ∧
    value (load_current_results None w') = Some (JsonResults data).
Proof.
  intros Hcodec Hsave.
  destruct (save_succeeds data f w Hsave) as (w' & Hrun & Hf & _).
  exists w'. split; [done|].
  rewrite load_value, Hf, lookup_insert_eq. cbn [loaded]. by rewrite Hcodec.
Qed.

(** A results file that cannot be read, or whose text is not JSON, is
    answered with the defaults and one error record; the file itself is
    left as it is. *)
Theorem load_unreadable_file (fault : option exn) (text : string) (w : world) :
  files w !! RESULTS_FILE = Some text →
  match fault with
  | Some e => is_Exception e = true
  | None => json_loads_results text = None
  end →
  ∃ msg w',
    load_current_results fault w = (Ret (JsonResults empty_results), w') ∧
    log w' = log w ++ [(ERROR, "Error loading results file: " +:+ msg)] ∧
    files w' = files w.
Proof.
  intros Hfile Hbad. unfold load_current_results.
  destruct fault as [e|].
  - exists (exn_msg e). eexists. rewrite (try_except_caught _ _ w w e); [done| |done].
    by rewrite bind_eq, (os_path_exists_present _ _ _ Hfile).
  - exists "Expecting value". eexists.
    rewrite (try_except_caught _ _ w w (Exn JSONDecodeError "Expecting value")); [done| |done].
    rewrite bind_eq, (os_path_exists_present _ _ _ Hfile). cbv beta iota.
    rewrite bind_eq. unfold read_file. by rewrite Hfile, Hbad.
Qed.

(** What [initialize_results_file] does, case by case. *)
Lemma initialize_run (init_write : write_fault) (w : world) :
  match files w !! RESULTS_FILE with
  | Some _ =>
      initialize_results_file init_write w
      = (Ret (), add_log (INFO, "Results file initialized: " +:+ RESULTS_FILE) w)
  | None =>
      match init_write with
      | WriteOk =>
          initialize_results_file init_write w
          = (Ret (), add_log (INFO, "Results file initialized: " +:+ RESULTS_FILE)
                       (set_files <[RESULTS_FILE := json_dumps_results empty_results]> w))
      | OpenFails e =>
          initialize_results_file init_write w
          = (Raise e, if is_Exception e
                      then add_log (ERROR, "Error initializing results file: " +:+ exn_msg e) w
                      else w)
      | WriteFailsAfter n e =>
          let w1 := set_files
                      <[RESULTS_FILE := substring 0 n (json_dumps_results empty_results)]> w in
          initialize_results_file init_write w
          = (Raise e, if is_Exception e
                      then add_log (ERROR, "Error initializing results file: " +:+ exn_msg e) w1
                      else w1)
      end
  end.
Proof.
  unfold initialize_results_file, try_except.
  destruct (files w !! RESULTS_FILE) as [text|] eqn:Hfile.
  - by rewrite bind_eq, (os_path_exists_present _ _ _ Hfile).
  - rewrite bind_eq, (os_path_exists_absent _ _ Hfile). cbn [negb].
    destruct init_write as [|e|n e]; [done| |];
      unfold mbind, M_bind, write_file, logging, raise; by destruct (is_Exception e).
Qed.

(** Initialising never changes what is loaded: a file that is there is
    left alone, whatever it holds, and a file that is created holds the
    defaults, which is what loading gives when there is no file. *)
Theorem initialize_then_load (init_write : write_fault) (w w' : world) :
  json_loads_results (json_dumps_results empty_results) = Some (JsonResults empty_results) →
  initialize_results_file init_write w = (Ret (), w') →
  is_Some (files w' !! RESULTS_FILE) ∧
  (is_Some (files w !! RESULTS_FILE) → files w' = files w) ∧
  value (load_current_results None w') = value (load_current_results None w).
Proof.
  intros Hcodec Hrun. pose proof (initialize_run init_write w) as Hcases.
  rewrite !load_value.
  destruct (files w !! RESULTS_FILE) as [text|] eqn:Hfile.
  - rewrite Hrun in Hcases. injection Hcases as ->. cbn [files add_log]. by rewrite Hfile.
  - destruct init_write as [|e|n e]; rewrite Hrun in Hcases; [|done|done].
    injection Hcases as ->. cbn [files add_log set_files].
    rewrite lookup_insert_eq. split_and!; [done | by intros [? ?] |].
    cbn [loaded]. by rewrite Hcodec.
Qed.

(** [initialize_results_file] is called before the [try] statement of
    [main]: when there is no results file and it cannot be created, the
    error leaves [main]. No handler of [main] logs it, no browser is
    started and no pass runs. *)
Theorem main_init_failure_escapes (init_write : write_fault) (start_fault : option exn)
    (envs : nat → cycle_env) (fuel : nat) (e : exn) (w : world) :
  files w !! RESULTS_FILE = None →
  write_error init_write = Some e →
  ∃ w',
    main init_write start_fault envs fuel w = (Raise e, w') ∧
    log w' = log w ++
             (INFO, "Starting Combined ChartInk Scanner...") ::
             (if is_Exception e
              then [(ERROR, "Error initializing results file: " +:+ exn_msg e)] else []) ∧
    slept w' = slept w ∧ drivers w' = drivers w.
Proof.
  intros Hfile Hfault. unfold main. rewrite bind_logging.
  set (w0 := add_log _ w).
  pose proof (initialize_run init_write w0) as Hcases.
  replace (files w0 !! RESULTS_FILE) with (@None string) in Hcases by done.
  destruct init_write as [|e'|n e']; simplify_eq/=;
    rewrite (bind_raise _ _ _ _ _ Hcases); eexists; (split; [reflexivity|]);
    destruct (is_Exception e); cbn [log slept drivers add_log set_files w0];
    by rewrite <- ?app_assoc.
Qed.

(** When Chrome cannot be started, [main] logs the error and returns: no
    pass runs, and as there is no driver the [finally] block closes
    nothing. *)
Theorem main_browser_start_failure (init_write : write_fault) (envs : nat → cycle_env)
    (fuel : nat) (e : exn) (w w0 : world) :
  startup init_write w = (Ret (), w0) →
  main init_write (Some e) envs fuel w = (Ret Finished, add_log (final_record e) w0) ∧
  drivers w0 = ∅.
Proof.
  unfold startup, main. rewrite !bind_logging. intros Hstart.
  apply bind_ret_inv in Hstart as ([] & wa & Hinit & Hcreate).
  rewrite (bind_run _ _ _ _ _ Hinit), (bind_run _ _ _ _ _ Hcreate).
  unfold main_try, initialize_browser. rewrite (bind_run _ _ _ _ _ (main_handlers_run e w0)).
  split; [done|]. unfold create_browser_manager in Hcreate. by injection Hcreate as <-.
Qed.

End ResultsFile.

(** ** The browser manager *)

(** A browser that is registered and then killed leaves the registry
    without its name and with every other name it had, and nothing else
    changed. Killing a name that is not registered, whatever the name and
    the world, returns and changes nothing at all. *)
Theorem initialize_then_kill (name : string) (w : world) :
  (∃ w1 w2,
     initialize_browser name None w = (Ret (), w1) ∧ name ∈ drivers w1 ∧
     kill_browser name w1 = (Ret (), w2) ∧
     drivers w2 = drivers w ∖ {[name]} ∧
     files w2 = files w ∧ log w2 = log w ∧ slept w2 = slept w) ∧
  (∀ other w0, other ∉ drivers w0 → kill_browser other w0 = (Ret (), w0)).
Proof.
  split.
  - exists (set_drivers (λ d, {[name]} ∪ d) w),
           (set_drivers (λ d, d ∖ {[name]}) (set_drivers (λ d, {[name]} ∪ d) w)).
    unfold initialize_browser, kill_browser. cbn [drivers set_drivers files log slept].
    destruct (decide (name ∈ {[name]} ∪ drivers w)) as [_|Hout].
    2:{ exfalso. apply Hout. rewrite elem_of_union, elem_of_singleton. by left. }
    split_and!; try done.
    + rewrite elem_of_union, elem_of_singleton. by left.
    + apply set_eq. intros x.
      rewrite !elem_of_difference, elem_of_union, elem_of_singleton. tauto.
  - intros other w0 Hout. unfold kill_browser.
    by destruct (decide (other ∈ drivers w0)).
Qed.

(** ** Page load and scan trigger *)

Section Pages.
Context `{Builtins}.

(** [load_page] and [run_scan] report a failure by their result: whatever
    [Exception] the browser raises, they return [False] and log it as an
    error; they return [True] only when the page is ready, respectively
    the scan has run to its end. They touch nothing but the log. *)
Theorem load_page_run_scan_report (url : string) (p : page_load) (s : scan_run)
    (w : world) :
  page_calm p → trigger_calm s →
  (∃ w', load_page url p w = (Ret (page_ready p), w') ∧
         unlogged w' = unlogged w ∧
         (page_ready p = false → ∃ msg, last (log w') = Some (ERROR, "Page load failed: " +:+ msg)))
  ∧
  (∃ w', run_scan s w = (Ret (scan_done s), w') ∧
         unlogged w' = unlogged w ∧
         (scan_done s = false → ∃ msg, last (log w') = Some (ERROR, "Scan failed: " +:+ msg))).
Proof.
  intros Hp Hs. split.
  - unfold load_page. destruct p as [|e|e]; cbn [page_calm page_ready] in *.
    + eexists. split; [reflexivity|]. by split.
    + rewrite (try_except_caught _ _ w w e) by done. rewrite bind_logging.
      eexists. split; [reflexivity|]. split; [done|]. intros _.
      exists (exn_msg e). apply last_snoc.
    + rewrite (try_except_caught _ _ w
                 (add_log (INFO, "Accessing " +:+ url +:+ "...") w) e) by done.
      rewrite bind_logging.
      eexists. split; [reflexivity|]. split; [done|]. intros _.
      exists (exn_msg e). apply last_snoc.
  - unfold run_scan. destruct s as [|e|e]; cbn [trigger_calm scan_done] in *.
    + eexists. split; [reflexivity|]. by split.
    + rewrite (try_except_caught _ _ w w e) by done. rewrite bind_logging.
      eexists. split; [reflexivity|]. split; [done|]. intros _.
      exists (exn_msg e). apply last_snoc.
    + rewrite (try_except_caught _ _ w (add_log (INFO, "Clicked Run Scan button...") w) e)
        by done.
      rewrite bind_logging.
      eexists. split; [reflexivity|]. split; [done|]. intros _.
      exists (exn_msg e). apply last_snoc.
Qed.

End Pages.

(** ** The aggregator: base data and sources *)

Section Sources.
Context `{Builtins}.

(** The price, change, volume, trend and bias of a combined entry are
    those of the first stock that carries its symbol, the screeners taken
    in the order price_crossover_200, one_hour_rsi, five_min_rsi and each
    list from its head; [screeners_found_in] names the screener of every
    stock that carries the symbol, in that order. *)
Theorem find_stocks_first_listing (rd : ResultsData) (w w' : world)
    (combined : list CombinedStock) (c : CombinedStock) :
  find_stocks_in_multiple_screeners rd w = (Ret combined, w') →
  c ∈ combined →
  ∃ base,
    head (instances (c_symbol c) (all_stocks (screeners rd))) = Some base ∧
    c_price c = price base ∧ c_change c = change base ∧ c_volume c = volume base ∧
    c_stock_trend c = stock_trend base ∧ c_market_bias c = market_bias base ∧
    screeners_found_in c
    = map screener_type (instances (c_symbol c) (all_stocks (screeners rd))).
Proof.
  intros Hrun Hc.
  destruct (find_stocks_entries _ _ _ _ _ Hrun Hc) as (sym & b & r & _ & Hinst & ->).
  exists b. cbn [combine c_symbol c_price c_change c_volume c_stock_trend c_market_bias
                 screeners_found_in].
  by rewrite Hinst.
Qed.

Lemma instances_listed sym l k :
  Forall (λ st, screener_type st = k) l → NoDup (map symbol l) →
  map screener_type (instances sym l)
  = if decide (sym ∈ symbols_of l) then [k] else [].
Proof.
  intros Htag Hrep. rewrite (instances_tags sym l k Htag).
  pose proof (instances_at_most_one sym l Hrep) as Hmost.
  destruct (decide (sym ∈ symbols_of l)) as [Hin|Hout].
  - apply instances_length in Hin.
    by replace (length (instances sym l)) with 1 by lia.
  - rewrite instances_symbols in Hout.
    destruct (instances sym l); [done|]. by destruct Hout.
Qed.

(** When no screener lists a symbol twice and every stock carries the key
    of its screener, [screeners_found_in] is the list of the screeners
    that list the symbol, each once and in the order of the results, and
    the count is two or three. *)
Theorem find_stocks_listed_in (rd : ResultsData) (w w' : world)
    (combined : list CombinedStock) (c : CombinedStock) :
  well_tagged (screeners rd) → no_repeats (screeners rd) →
  find_stocks_in_multiple_screeners rd w = (Ret combined, w') →
  c ∈ combined →
  screeners_found_in c = listed_in (screeners rd) (c_symbol c) ∧
  (match_count c = 2 ∨ match_count c = 3).
Proof.
  intros Htag Hrep Hrun Hc.
  destruct (find_stocks_entries _ _ _ _ _ Hrun Hc) as (sym & b & r & Hsym & Hinst & ->).
  cbn [combine c_symbol screeners_found_in match_count]. rewrite <- Hinst.
  apply instances_two_or_more in Hsym. rewrite <- (length_map screener_type) in Hsym.
  revert Hsym. unfold all_stocks, listed_in.
  rewrite !instances_app, !map_app, !filter_cons, filter_nil.
  rewrite (instances_listed sym (of_price_crossover_200 (screeners rd)) _
             (Htag price_crossover_200) (Hrep price_crossover_200)).
  rewrite (instances_listed sym (of_one_hour_rsi (screeners rd)) _
             (Htag one_hour_rsi) (Hrep one_hour_rsi)).
  rewrite (instances_listed sym (of_five_min_rsi (screeners rd)) _
             (Htag five_min_rsi) (Hrep five_min_rsi)).
  cbn [screeners_get].
  destruct (decide (sym ∈ symbols_of (of_price_crossover_200 (screeners rd)))),
           (decide (sym ∈ symbols_of (of_one_hour_rsi (screeners rd)))),
           (decide (sym ∈ symbols_of (of_five_min_rsi (screeners rd))));
    cbn [app length]; intros Hlen; (split; [done|]); lia.
Qed.

End Sources.

(** ** Passes that end in a failed save, and the order of the screeners *)

Section SaveFails.
Context `{Builtins}.

(** A failed save raises and leaves the canonical file as it was; when
    the failure is an error and the cleanup goes through, the error
    raised is that very error and the temporary file is gone. *)
Lemma save_fails_run (data : ResultsData) (f : save_faults) (w : world) (e : exn) :
  save_failure f = Some e →
  ∃ e' w',
    save_scan_results data f w = (Raise e', w') ∧
    files w' !! RESULTS_FILE = files w !! RESULTS_FILE ∧
    (is_Exception e = true → remove_fault f = None →
     e' = e ∧ files w' !! TEMP_FILE = None).
Proof.
  intros Hfail.
  destruct (save_body_fails data f w e Hfail) as (w1 & Hbody & Hcanon & _).
  unfold save_scan_results.
  destruct (is_Exception e) eqn:He.
  - rewrite (try_except_caught _ _ w w1 e Hbody He).
    destruct (remove_fault f) as [e2|] eqn:Hremove.
    + rewrite bind_logging, bind_eq.
      destruct (files w1 !! TEMP_FILE) as [text|] eqn:Htemp.
      * rewrite (os_path_exists_present _ _ text) by done. by exists e2; eexists.
      * rewrite os_path_exists_absent by done. by exists e; eexists.
    + destruct (save_cleanup_run e w1) as (w2 & Hclean & Hfiles & _).
      exists e, w2. split; [exact Hclean|]. rewrite Hfiles. split.
      * rewrite lookup_delete_ne by apply temp_is_not_canonical. exact Hcanon.
      * intros _ _. by rewrite lookup_delete_eq.
  - rewrite (try_except_passed _ _ w w1 e Hbody He). by exists e, w1.
Qed.

(** When the save at the end of a pass fails, on a results file that
    stands for a state, the pass raises and the results file holds what it
    held before the pass: the results of the
    pass are lost, the stored state is not. When the failure is an error
    and the temporary file can be removed, the pass raises that error and
    leaves no temporary file. *)
Theorem scan_cycle_save_fails (env : cycle_env) (w : world) (prior : ResultsData)
    (e : exn) :
  reaches_save env →
  file_state (files w !! RESULTS_FILE) = Some prior →
  save_failure (save env) = Some e →
  ∃ e' w',
    scan_cycle env w = (Raise e', w') ∧
    files w' !! RESULTS_FILE = files w !! RESULTS_FILE ∧
    (is_Exception e = true → remove_fault (save env) = None →
     e' = e ∧ files w' !! TEMP_FILE = None).
Proof.
  intros Hpass Hstate Hfail.
  destruct (scan_cycle_steps env w prior Hpass Hstate) as (w4 & Hf4 & _ & ->).
  destruct (save_fails_run (cycle_results env prior) (save env) w4 e Hfail)
    as (e' & w' & Hrun & Hcanon & Hclean).
  exists e', w'. rewrite (bind_raise _ _ _ _ _ Hrun). split_and!; [done | | done].
  rewrite Hcanon, Hf4. by rewrite lookup_insert_ne by apply trend_is_not_results.
Qed.

Lemma set_screener_commute (rd : ResultsData) k1 k2 v1 v2 :
  k1 ≠ k2 →
  set_screener (set_screener rd k1 v1) k2 v2 = set_screener (set_screener rd k2 v2) k1 v1.
Proof. by destruct k1, k2. Qed.

Lemma screened_commute s1 s2 k1 k2 bias (rd : ResultsData) :
  k1 ≠ k2 →
  screened s2 k2 bias (screened s1 k1 bias rd) = screened s1 k1 bias (screened s2 k2 bias rd).
Proof.
  intros Hne. unfold screened. destruct (is_scanned s1), (is_scanned s2); try done.
  by apply set_screener_commute.
Qed.

(** The screeners are independent of each other: scanning two of them in
    one order or the other gives the same results. *)
Theorem run_screener_commute (s1 s2 : screener_scan) (k1 k2 : ScreenerType)
    (url1 url2 bias : string) (rd : ResultsData) (w : world) :
  k1 ≠ k2 → scan_calm s1 → scan_calm s2 →
  ∃ rd',
    value ((rd1 ← run_screener s1 k1 url1 bias rd; run_screener s2 k2 url2 bias rd1) w)
    = Some rd' ∧
    value ((rd2 ← run_screener s2 k2 url2 bias rd; run_screener s1 k1 url1 bias rd2) w)
    = Some rd'.
Proof.
  intros Hne Hc1 Hc2.
  exists (screened s2 k2 bias (screened s1 k1 bias rd)). split.
  - destruct (run_screener_run s1 k1 url1 bias rd w Hc1) as (w1 & Hr1 & _).
    rewrite (bind_run _ _ _ _ _ Hr1).
    by destruct (run_screener_run s2 k2 url2 bias (screened s1 k1 bias rd) w1 Hc2)
      as (w2 & -> & _).
  - destruct (run_screener_run s2 k2 url2 bias rd w Hc2) as (w1 & Hr1 & _).
    rewrite (bind_run _ _ _ _ _ Hr1).
    destruct (run_screener_run s1 k1 url1 bias (screened s2 k2 bias rd) w1 Hc1)
      as (w2 & -> & _).
    by rewrite (screened_commute s1 s2 k1 k2 bias rd Hne).
Qed.

End SaveFails.

(** ** The loop while nothing disturbs it *)

Section Running.
Context `{Builtins}.

(** Passes that nothing disturbs follow one another: each loads the state
    the one before saved, and the browser stays registered. *)
Lemma scan_loop_run (envs : nat → cycle_env) (fuel : nat) :
  ∀ i w prior,
    (∀ j, i ≤ j < i + fuel → cycle_undisturbed (envs j)) →
    file_state (files w !! RESULTS_FILE) = Some prior →
    (∀ n, 0 < n ≤ fuel → reads_back (pass_states envs i prior n)) →
    ∃ w',
      scan_loop fuel envs i w = (Ret (), w') ∧
      drivers w' = drivers w ∧
      file_state (files w' !! RESULTS_FILE) = Some (pass_states envs i prior fuel).
Proof.
  induction fuel as [|fuel IH]; intros i w prior Hcalm Hstate Hback; cbn [scan_loop].
  - by exists w.
  - destruct (scan_cycle_run (envs i) w prior (Hcalm i ltac:(lia)) Hstate)
      as (w1 & Hrun & Hf1 & Hd1).
    rewrite (bind_run _ _ _ _ _ Hrun).
    assert (Hstate1 : file_state (files w1 !! RESULTS_FILE)
                      = Some (cycle_results (envs i) prior)).
    { rewrite Hf1, lookup_insert_eq. unfold file_state.
      pose proof (Hback 1 ltac:(lia)) as Hone. unfold reads_back in Hone.
      cbn [pass_states] in Hone. by rewrite Hone. }
    destruct (IH (S i) w1 (cycle_results (envs i) prior)) as (w' & Hloop & Hd & Hs).
    + intros j Hj. apply Hcalm. lia.
    + exact Hstate1.
    + intros n Hn. apply (Hback (S n)). lia.
    + exists w'. split_and!; [done | congruence | done].
Qed.

(** While nothing disturbs the passes, [main] does not return: after any
    number of passes it is still in its loop, the browser is still
    registered, and the results file holds the state the last pass
    saved. *)
Theorem main_keeps_running (init_write : write_fault) (envs : nat → cycle_env)
    (fuel : nat) (w w0 : world) (prior : ResultsData) :
  startup init_write w = (Ret (), w0) →
  file_state (files w0 !! RESULTS_FILE) = Some prior →
  (∀ i, i < fuel → cycle_undisturbed (envs i)) →
  (∀ n, 0 < n ≤ fuel → reads_back (pass_states envs 0 prior n)) →
  ∃ w1,
    main init_write None envs fuel w = (Ret Running, w1) ∧
    "combined_scanner" ∈ drivers w1 ∧
    file_state (files w1 !! RESULTS_FILE) = Some (pass_states envs 0 prior fuel).
Proof.
  intros Hstart Hstate Hcalm Hback. rewrite (main_starts _ _ _ _ _ Hstart).
  unfold main_try, initialize_browser. fold (browser_started w0).
  destruct (scan_loop_run envs fuel 0 (browser_started w0) prior) as (w1 & Hloop & Hd & Hs).
  - intros j Hj. apply Hcalm. lia.
  - exact Hstate.
  - exact Hback.
  - rewrite Hloop. exists w1. split_and!; [done | | done].
    rewrite Hd. unfold browser_started. cbn [drivers set_drivers].
    rewrite elem_of_union, elem_of_singleton. by left.
Qed.

End Running.

(** ** Concrete instances *)

(** Of five rows, the first and the last yield a stock: BBB rose and is
    bullish, DDD fell and is bearish. *)
Lemma extract_stock_data_rows_witness :
  let H := Sample.builtins in
  let t := TableRows mixed_rows in
  table_calm t ∧
  value (extract_stock_data t five_min_rsi empty_world)
  = Some (table_stocks five_min_rsi t) ∧
  map (λ raw, (r_symbol raw, r_stock_trend raw)) (table_stocks five_min_rsi t)
  = [("BBB", "bullish"); ("DDD", "bearish")].
Proof.
  assert (Ht : table_calm (TableRows mixed_rows)) by (by repeat constructor).
  assert (Hv : map (λ raw, (r_symbol raw, r_stock_trend raw))
                 (table_stocks (H := Sample.builtins) five_min_rsi (TableRows mixed_rows))
               = [("BBB", "bullish"); ("DDD", "bearish")]) by (vm_compute; reflexivity).
  exact (conj Ht (conj (extract_stock_data_rows (H := Sample.builtins)
                          (TableRows mixed_rows) five_min_rsi empty_world Ht) Hv)).
Defined.

Lemma extract_stock_data_stocks_witness :
  let H := Sample.builtins in
  Forall row_calm mixed_rows ∧
  ∃ raws w',
    extract_stock_data (TableRows mixed_rows) one_hour_rsi empty_world = (Ret raws, w') ∧
    unlogged w' = unlogged empty_world ∧
    length raws ≤ length mixed_rows ∧
    Forall (λ raw, 2 ≤ String.length (r_symbol raw) ∧
                   r_screener_type raw = one_hour_rsi ∧
                   r_stock_trend raw
                   = (if SFltb fzero (r_change raw) then "bullish" else "bearish") ∧
                   r_stock_trend raw ≠ "unknown") raws.
Proof.
  assert (Hrows : Forall row_calm mixed_rows) by (by repeat constructor).
  exact (conj Hrows (extract_stock_data_stocks (H := Sample.builtins) mixed_rows
                       one_hour_rsi empty_world Hrows)).
Defined.

(** The five-minute screener is scanned: the other two entries and the
    rest of the state come back as they went in. *)
Lemma run_screener_own_entry_witness :
  let H := Sample.builtins in
  let s := scanned mixed_rows in
  scan_calm s ∧
  ∃ rd' w',
    run_screener s five_min_rsi "https://chartink.com/screener/5-minutes-rsi-100"
      "bullish" earlier_results empty_world = (Ret rd', w') ∧
    files w' = files empty_world ∧
    last_update rd' = last_update earlier_results ∧
    rd_market_bias rd' = rd_market_bias earlier_results ∧
    combined_stocks rd' = combined_stocks earlier_results ∧
    ∀ k', k' ≠ five_min_rsi →
      screeners_get (screeners rd') k' = screeners_get (screeners earlier_results) k'.
Proof.
  assert (Hs : scan_calm (scanned mixed_rows)) by (by repeat constructor).
  exact (conj Hs (run_screener_own_entry (H := Sample.builtins) (scanned mixed_rows)
                    five_min_rsi "https://chartink.com/screener/5-minutes-rsi-100"
                    "bullish" earlier_results empty_world Hs)).
Defined.

(** The table of the first screener never shows up: the AAA it held from
    the earlier pass is gone. *)
Lemma run_screener_renews_entry_witness :
  let H := Sample.builtins in
  let k := price_crossover_200 in
  let url := "https://chartink.com/screener/price-corssover-200" in
  (scan_calm table_timeout ∧ source_scanned table_timeout) ∧
  screeners_get (screeners earlier_results) k = [stock_of "AAA" price_crossover_200] ∧
  table_stocks k (scan_table table_timeout) = [] ∧
  ∃ rd' w',
    run_screener table_timeout k url "bullish" earlier_results empty_world = (Ret rd', w') ∧
    screeners_get (screeners rd') k = kept "bullish" (table_stocks k (scan_table table_timeout)) ∧
    (table_stocks k (scan_table table_timeout) = [] → screeners_get (screeners rd') k = []) ∧
    Forall (λ st, market_bias st = "bullish" ∧ screener_type st = k ∧
                  aligned "bullish" (stock_trend st) = true)
      (screeners_get (screeners rd') k).
Proof.
  assert (Hc : scan_calm table_timeout) by (by repeat constructor).
  assert (Hs : source_scanned table_timeout) by done.
  exact (conj (conj Hc Hs) (conj eq_refl (conj eq_refl
           (run_screener_renews_entry (H := Sample.builtins) table_timeout
              price_crossover_200 "https://chartink.com/screener/price-corssover-200"
              "bullish" earlier_results empty_world Hc Hs)))).
Defined.

(** Two key indices rise and one falls: the file records "bullish" and
    the three symbols. *)
Lemma check_market_trend_trend_file_witness :
  let H := Sample.builtins in
  let up := indices ["NIFTY"; "BANKNIFTY"] in
  let down := indices ["NIFTYFINSERVICE"] in
  let now := DateTime 2026 11 4 10 0 20 0 in
  (probe_calm up ∧ probe_calm down) ∧
  ∃ bias w',
    check_market_trend up down now WriteOk empty_world = (Ret bias, w') ∧
    files w' = <[MARKET_TREND_FILE :=
                   json_dumps_trend {| md_timestamp := strftime now;
                                       md_market_bias := bias;
                                       bullish_indices := collected up;
                                       bearish_indices := collected down |}]>
                 (files empty_world) ∧
    slept w' = slept empty_world ∧ drivers w' = drivers empty_world.
Proof.
  assert (Hup : probe_calm (indices ["NIFTY"; "BANKNIFTY"])) by done.
  assert (Hdown : probe_calm (indices ["NIFTYFINSERVICE"])) by done.
  exact (conj (conj Hup Hdown)
           (check_market_trend_trend_file (H := Sample.builtins) _ _
              (DateTime 2026 11 4 10 0 20 0) empty_world Hup Hdown)).
Defined.

(** The market trend file is write-protected. *)
Lemma check_market_trend_write_fails_witness :
  let H := Sample.builtins in
  let up := indices ["NIFTY"; "BANKNIFTY"] in
  let down := indices ["NIFTYFINSERVICE"] in
  let now := DateTime 2026 11 4 10 0 20 0 in
  let w := persisted earlier_results in
  (probe_calm up ∧ probe_calm down ∧
   write_error (OpenFails permission_denied) = Some permission_denied) ∧
  ∃ w',
    check_market_trend up down now (OpenFails permission_denied) w
    = (Raise permission_denied, w') ∧
    last (log w')
    = Some (INFO, "Market bias determined as: " +:+
                  upper (classify_market (collected up) (collected down))) ∧
    ∀ path, path ≠ MARKET_TREND_FILE → files w' !! path = files w !! path.
Proof.
  assert (Hup : probe_calm (indices ["NIFTY"; "BANKNIFTY"])) by done.
  assert (Hdown : probe_calm (indices ["NIFTYFINSERVICE"])) by done.
  exact (conj (conj Hup (conj Hdown eq_refl))
           (check_market_trend_write_fails (H := Sample.builtins) _ _
              (DateTime 2026 11 4 10 0 20 0) (OpenFails permission_denied)
              permission_denied (persisted earlier_results) Hup Hdown eq_refl)).
Defined.

(** SENSEX, MIDCAP and a NIFTY listed twice change nothing. *)
Lemma check_market_trend_key_indices_only_witness :
  let H := Sample.builtins in
  let up := indices ["NIFTY"; "SENSEX"] in
  let down := indices ["BANKNIFTY"] in
  let up' := indices ["NIFTY"; "NIFTY"] in
  let down' := indices ["MIDCAP"; "BANKNIFTY"] in
  let now := DateTime 2026 11 4 10 0 20 0 in
  let now' := DateTime 2026 11 5 10 0 20 0 in
  (probe_calm up ∧ probe_calm down ∧ probe_calm up' ∧ probe_calm down') ∧
  (∀ idx, idx ∈ key_indices → (idx ∈ collected up ↔ idx ∈ collected up')) ∧
  (∀ idx, idx ∈ key_indices → (idx ∈ collected down ↔ idx ∈ collected down')) ∧
  value (check_market_trend up down now WriteOk empty_world)
  = value (check_market_trend up' down' now' WriteOk (persisted earlier_results)).
Proof.
  assert (Hup : probe_calm (indices ["NIFTY"; "SENSEX"])) by done.
  assert (Hdown : probe_calm (indices ["BANKNIFTY"])) by done.
  assert (Hup' : probe_calm (indices ["NIFTY"; "NIFTY"])) by done.
  assert (Hdown' : probe_calm (indices ["MIDCAP"; "BANKNIFTY"])) by done.
  assert (Hsame : ∀ idx, idx ∈ key_indices →
            (idx ∈ collected (indices ["NIFTY"; "SENSEX"])
             ↔ idx ∈ collected (indices ["NIFTY"; "NIFTY"]))).
  { apply Forall_forall. by apply (bool_decide_unpack _). }
  assert (Hsame' : ∀ idx, idx ∈ key_indices →
            (idx ∈ collected (indices ["BANKNIFTY"])
             ↔ idx ∈ collected (indices ["MIDCAP"; "BANKNIFTY"]))).
  { apply Forall_forall. by apply (bool_decide_unpack _). }
  exact (conj (conj Hup (conj Hdown (conj Hup' Hdown'))) (conj Hsame (conj Hsame'
           (check_market_trend_key_indices_only (H := Sample.builtins) _ _ _ _
              (DateTime 2026 11 4 10 0 20 0) (DateTime 2026 11 5 10 0 20 0)
              empty_world (persisted earlier_results) Hup Hdown Hup' Hdown' Hsame Hsame')))).
Defined.

(** The one-hour page times out: the file saved keeps the one-hour entry
    of the earlier pass, and the other two entries are this pass's. *)
Lemma scan_cycle_failed_source_kept_witness :
  let H := Sample.builtins in
  let w := persisted earlier_results in
  (cycle_undisturbed morning ∧
   file_state (files w !! RESULTS_FILE) = Some earlier_results) ∧
  ∃ saved w',
    scan_cycle morning w = (Ret (), w') ∧
    files w' !! RESULTS_FILE = Some (json_dumps_results saved) ∧
    (∀ k, source_failed (scans morning k) →
          screeners_get (screeners saved) k = screeners_get (screeners earlier_results) k) ∧
    (∀ k, source_scanned (scans morning k) →
          screeners_get (screeners saved) k
          = kept (rd_market_bias saved) (table_stocks k (scan_table (scans morning k)))) ∧
    (files w !! RESULTS_FILE = None →
     ∀ k, source_failed (scans morning k) → screeners_get (screeners saved) k = []).
Proof.
  pose (H := Sample.builtins).
  assert (Hcalm : cycle_undisturbed morning).
  { unfold cycle_undisturbed. split_and!; try done.
    - vm_compute. lia.
    - intros k. destruct k; repeat split; repeat constructor. }
  assert (Hstate : file_state (files (persisted earlier_results) !! RESULTS_FILE)
                   = Some earlier_results) by (vm_compute; reflexivity).
  exact (conj (conj Hcalm Hstate)
           (scan_cycle_failed_source_kept (H := Sample.builtins) morning
              (persisted earlier_results) earlier_results Hcalm Hstate)).
Defined.

(** The pass of the morning over the state of the earlier one. *)
Lemma scan_cycle_saved_state_witness :
  let H := Sample.builtins in
  let w := persisted earlier_results in
  (cycle_undisturbed morning ∧
   file_state (files w !! RESULTS_FILE) = Some earlier_results) ∧
  ∃ saved trend w',
    scan_cycle morning w = (Ret (), w') ∧
    files w' !! RESULTS_FILE = Some (json_dumps_results saved) ∧
    files w' !! MARKET_TREND_FILE = Some (json_dumps_trend trend) ∧
    files w' !! TEMP_FILE = None ∧
    rd_market_bias saved
    = classify_market (collected (bullish_probe morning))
        (collected (bearish_probe morning)) ∧
    md_market_bias trend = rd_market_bias saved ∧
    last_update saved = strftime (now_update morning) ∧
    ∀ w0, value (find_stocks_in_multiple_screeners saved w0) = Some (combined_stocks saved).
Proof.
  pose (H := Sample.builtins).
  assert (Hcalm : cycle_undisturbed morning).
  { unfold cycle_undisturbed. split_and!; try done.
    - vm_compute. lia.
    - intros k. destruct k; repeat split; repeat constructor. }
  assert (Hstate : file_state (files (persisted earlier_results) !! RESULTS_FILE)
                   = Some earlier_results) by (vm_compute; reflexivity).
  exact (conj (conj Hcalm Hstate)
           (scan_cycle_saved_state (H := Sample.builtins) morning
              (persisted earlier_results) earlier_results Hcalm Hstate)).
Defined.

Lemma scan_cycle_keeps_well_tagged_witness :
  let H := Sample.builtins in
  let w := persisted earlier_results in
  (cycle_undisturbed morning ∧
   value (load_current_results None w) = Some (JsonResults earlier_results) ∧
   well_tagged (screeners earlier_results)) ∧
  ∃ saved w',
    scan_cycle morning w = (Ret (), w') ∧
    files w' !! RESULTS_FILE = Some (json_dumps_results saved) ∧
    well_tagged (screeners saved).
Proof.
  assert (Hcalm : cycle_undisturbed morning).
  { unfold cycle_undisturbed. split_and!; try done.
    - vm_compute. lia.
    - intros k. destruct k; repeat split; repeat constructor. }
  assert (Hload : value (load_current_results (H := Sample.builtins) None
                           (persisted earlier_results)) = Some (JsonResults earlier_results))
    by (vm_compute; reflexivity).
  assert (Htag : well_tagged (screeners earlier_results))
    by (intros k; destruct k; by repeat constructor).
  exact (conj (conj Hcalm (conj Hload Htag))
           (scan_cycle_keeps_well_tagged (H := Sample.builtins) morning earlier_results
              (persisted earlier_results) Hcalm Hload Htag)).
Defined.

(** A Saturday morning. *)
Lemma scan_cycle_market_closed_witness :
  let H := Sample.builtins in
  let w := persisted earlier_results in
  market_closed (now_gate saturday) ∧
  ∃ msg w',
    scan_cycle saturday w
    = (if sleep_interrupted saturday then Raise (Exn KeyboardInterrupt "") else Ret (), w') ∧
    log w' = log w ++ [(INFO, msg)] ∧
    slept w' = slept w ++ [60] ∧
    files w' = files w ∧ drivers w' = drivers w.
Proof.
  assert (Hshut : market_closed (now_gate saturday)) by (left; vm_compute; lia).
  exact (conj Hshut
           (scan_cycle_market_closed (H := Sample.builtins) saturday
              (persisted earlier_results) Hshut)).
Defined.

(** The state of the later pass, saved over that of the earlier one. *)
Lemma save_then_load_witness :
  let H := Sample.builtins in
  (json_loads_results (json_dumps_results later_results) = Some (JsonResults later_results) ∧
   save_failure no_save_faults = None) ∧
  ∃ w',
    save_scan_results later_results no_save_faults (persisted earlier_results)
    = (Ret (), w') ∧
    value (load_current_results None w') = Some (JsonResults later_results).
Proof.
  pose (H := Sample.builtins).
  assert (Hcodec : json_loads_results (json_dumps_results later_results)
                   = Some (JsonResults later_results))
    by (vm_compute; reflexivity).
  exact (conj (conj Hcodec eq_refl)
           (save_then_load (H := Sample.builtins) later_results no_save_faults
              (persisted earlier_results) Hcodec eq_refl)).
Defined.

(** A results file cut short is not JSON. *)
Lemma load_unreadable_file_witness :
  let H := Sample.builtins in
  let text := substring 0 40 (Sample.print_results earlier_results) in
  (files truncated_file !! RESULTS_FILE = Some text ∧ json_loads_results text = None) ∧
  ∃ msg w',
    load_current_results None truncated_file = (Ret (JsonResults empty_results), w') ∧
    log w' = log truncated_file ++ [(ERROR, "Error loading results file: " +:+ msg)] ∧
    files w' = files truncated_file.
Proof.
  assert (Hfile : files truncated_file !! RESULTS_FILE
                  = Some (substring 0 40 (Sample.print_results earlier_results)))
    by (vm_compute; reflexivity).
  pose (H := Sample.builtins).
  assert (Hbad : json_loads_results (substring 0 40 (Sample.print_results earlier_results))
                 = None)
    by (vm_compute; reflexivity).
  exact (conj (conj Hfile Hbad)
           (load_unreadable_file (H := Sample.builtins) None _ truncated_file Hfile Hbad)).
Defined.

(** The first start: the file is created, and loading still gives the
    defaults. *)
Lemma initialize_then_load_witness :
  let H := Sample.builtins in
  let w' := snd (initialize_results_file WriteOk empty_world) in
  (json_loads_results (json_dumps_results empty_results)
   = Some (JsonResults empty_results) ∧
   initialize_results_file WriteOk empty_world = (Ret (), w')) ∧
  is_Some (files w' !! RESULTS_FILE) ∧
  (is_Some (files empty_world !! RESULTS_FILE) → files w' = files empty_world) ∧
  value (load_current_results None w') = value (load_current_results None empty_world).
Proof.
  pose (H := Sample.builtins).
  pose (w' := snd (initialize_results_file WriteOk empty_world)).
  assert (Hcodec : json_loads_results (json_dumps_results empty_results)
                   = Some (JsonResults empty_results))
    by (vm_compute; reflexivity).
  assert (Hrun : initialize_results_file WriteOk empty_world = (Ret (), w'))
    by (vm_compute; reflexivity).
  exact (conj (conj Hcodec Hrun)
           (initialize_then_load (H := Sample.builtins) WriteOk empty_world w' Hcodec Hrun)).
Defined.

(** The directory is write-protected at the first start. *)
Lemma main_init_failure_escapes_witness :
  let H := Sample.builtins in
  let e := Exn OSError "Permission denied: 'combined_scan_results.json'" in
  (files empty_world !! RESULTS_FILE = None ∧ write_error (OpenFails e) = Some e) ∧
  ∃ w',
    main (OpenFails e) None (λ _, morning) 5 empty_world = (Raise e, w') ∧
    log w' = log empty_world ++
             (INFO, "Starting Combined ChartInk Scanner...") ::
             (if is_Exception e
              then [(ERROR, "Error initializing results file: " +:+ exn_msg e)] else []) ∧
    slept w' = slept empty_world ∧ drivers w' = drivers empty_world.
Proof.
  exact (conj (conj eq_refl eq_refl)
           (main_init_failure_escapes (H := Sample.builtins)
              (OpenFails (Exn OSError "Permission denied: 'combined_scan_results.json'"))
              None (λ _, morning) 5
              (Exn OSError "Permission denied: 'combined_scan_results.json'")
              empty_world eq_refl eq_refl)).
Defined.

(** Chrome does not start. *)
Lemma main_browser_start_failure_witness :
  let H := Sample.builtins in
  let e := Exn WebDriverException "chrome not reachable" in
  let w0 := snd (startup WriteOk empty_world) in
  startup WriteOk empty_world = (Ret (), w0) ∧
  main WriteOk (Some e) (λ _, morning) 5 empty_world
  = (Ret Finished, add_log (final_record e) w0) ∧
  drivers w0 = ∅.
Proof.
  pose (H := Sample.builtins).
  pose (w0 := snd (startup WriteOk empty_world)).
  assert (Hstart : startup WriteOk empty_world = (Ret (), w0)) by (vm_compute; reflexivity).
  exact (conj Hstart
           (main_browser_start_failure (H := Sample.builtins) WriteOk (λ _, morning) 5
              (Exn WebDriverException "chrome not reachable") empty_world w0 Hstart)).
Defined.

(** The wait for the Run Scan button times out; the scan would have
    run. *)
Lemma load_page_run_scan_report_witness :
  let p := ButtonWaitFails timeout in
  let w := empty_world in
  (page_calm p ∧ trigger_calm ScanDone) ∧
  (∃ w', load_page MARKET_BULLISH_URL p w = (Ret (page_ready p), w') ∧
         unlogged w' = unlogged w ∧
         (page_ready p = false →
          ∃ msg, last (log w') = Some (ERROR, "Page load failed: " +:+ msg))) ∧
  (∃ w', run_scan ScanDone w = (Ret (scan_done ScanDone), w') ∧
         unlogged w' = unlogged w ∧
         (scan_done ScanDone = false →
          ∃ msg, last (log w') = Some (ERROR, "Scan failed: " +:+ msg))).
Proof.
  assert (Hp : page_calm (ButtonWaitFails timeout)) by done.
  assert (Hs : trigger_calm ScanDone) by done.
  exact (conj (conj Hp Hs)
           (load_page_run_scan_report MARKET_BULLISH_URL
              (ButtonWaitFails timeout) ScanDone empty_world Hp Hs)).
Defined.

(** Scenario A: the entry of BBB takes its data from the listing under
    price_crossover_200. *)
Lemma find_stocks_first_listing_witness :
  let rd := results_of [stock_of "AAA" price_crossover_200; stock_of "BBB" price_crossover_200]
                       [stock_of "BBB" one_hour_rsi; stock_of "CCC" one_hour_rsi] [] in
  let c := combine "BBB" [stock_of "BBB" price_crossover_200; stock_of "BBB" one_hour_rsi]
             (stock_of "BBB" price_crossover_200) in
  let w' := snd (find_stocks_in_multiple_screeners rd empty_world) in
  (find_stocks_in_multiple_screeners rd empty_world = (Ret [c], w') ∧ c ∈ [c]) ∧
  ∃ base,
    head (instances (c_symbol c) (all_stocks (screeners rd))) = Some base ∧
    c_price c = price base ∧ c_change c = change base ∧ c_volume c = volume base ∧
    c_stock_trend c = stock_trend base ∧ c_market_bias c = market_bias base ∧
    screeners_found_in c
    = map screener_type (instances (c_symbol c) (all_stocks (screeners rd))).
Proof.
  pose (rd := results_of
                [stock_of "AAA" price_crossover_200; stock_of "BBB" price_crossover_200]
                [stock_of "BBB" one_hour_rsi; stock_of "CCC" one_hour_rsi] []).
  pose (c := combine "BBB" [stock_of "BBB" price_crossover_200; stock_of "BBB" one_hour_rsi]
               (stock_of "BBB" price_crossover_200)).
  pose (w' := snd (find_stocks_in_multiple_screeners rd empty_world)).
  assert (Hrun : find_stocks_in_multiple_screeners rd empty_world = (Ret [c], w'))
    by (vm_compute; reflexivity).
  assert (Hin : c ∈ [c]) by left.
  exact (conj (conj Hrun Hin)
           (find_stocks_first_listing rd empty_world w' [c] c Hrun Hin)).
Defined.

(** Scenario B: XYZ is listed by all three screeners. *)
Lemma find_stocks_listed_in_witness :
  let rd := results_of [stock_of "XYZ" price_crossover_200] [stock_of "XYZ" one_hour_rsi]
                       [stock_of "XYZ" five_min_rsi] in
  let c := combine "XYZ" [stock_of "XYZ" price_crossover_200; stock_of "XYZ" one_hour_rsi;
                          stock_of "XYZ" five_min_rsi]
             (stock_of "XYZ" price_crossover_200) in
  let w' := snd (find_stocks_in_multiple_screeners rd empty_world) in
  (well_tagged (screeners rd) ∧ no_repeats (screeners rd) ∧
   find_stocks_in_multiple_screeners rd empty_world = (Ret [c], w') ∧ c ∈ [c]) ∧
  screeners_found_in c = listed_in (screeners rd) (c_symbol c) ∧
  (match_count c = 2 ∨ match_count c = 3).
Proof.
  pose (rd := results_of [stock_of "XYZ" price_crossover_200] [stock_of "XYZ" one_hour_rsi]
                [stock_of "XYZ" five_min_rsi]).
  pose (c := combine "XYZ" [stock_of "XYZ" price_crossover_200; stock_of "XYZ" one_hour_rsi;
                            stock_of "XYZ" five_min_rsi]
               (stock_of "XYZ" price_crossover_200)).
  pose (w' := snd (find_stocks_in_multiple_screeners rd empty_world)).
  assert (Htag : well_tagged (screeners rd))
    by (intros k; destruct k; by repeat constructor).
  assert (Hrep : no_repeats (screeners rd))
    by (intros k; destruct k; apply NoDup_singleton).
  assert (Hrun : find_stocks_in_multiple_screeners rd empty_world = (Ret [c], w'))
    by (vm_compute; reflexivity).
  assert (Hin : c ∈ [c]) by left.
  exact (conj (conj Htag (conj Hrep (conj Hrun Hin)))
           (find_stocks_listed_in rd empty_world w' [c] c Htag Hrep Hrun Hin)).
Defined.

(** The bias is compared letter for letter: "BULLISH" keeps nothing. *)
Lemma filter_other_bias_witness :
  let H := Sample.builtins in
  let stocks := table_stocks five_min_rsi (TableRows mixed_rows) in
  ("BULLISH" ≠ "bullish" ∧ "BULLISH" ≠ "bearish" ∧ "BULLISH" ≠ "neutral") ∧
  value (filter_stocks_by_market_trend stocks "BULLISH" empty_world) = Some [].
Proof.
  assert (H1 : "BULLISH" ≠ "bullish") by done.
  assert (H2 : "BULLISH" ≠ "bearish") by done.
  assert (H3 : "BULLISH" ≠ "neutral") by done.
  exact (conj (conj H1 (conj H2 H3))
           (filter_other_bias
              (table_stocks (H := Sample.builtins) five_min_rsi (TableRows mixed_rows))
              "BULLISH" empty_world H1 H2 H3)).
Defined.

(** A results file that holds an empty JSON object: it is JSON, so
    nothing is logged and no default is put in its place; the value is
    handed on as it is, and it stands for no state. *)
Example load_other_shape :
  let H := Sample.builtins in
  let w := World {[ RESULTS_FILE := "{}" ]} [] [] ∅ in
  load_current_results None w = (Ret JsonOther, w) ∧
  file_state (files w !! RESULTS_FILE) = None.
Proof. split; vm_compute; reflexivity. Qed.

(** The disk fills up while the morning's results are saved: the file
    still holds the state of the earlier pass. *)
Lemma scan_cycle_save_fails_witness :
  let H := Sample.builtins in
  let e := Exn OSError "No space left on device" in
  let w := persisted earlier_results in
  (reaches_save disk_fills_up ∧
   file_state (files w !! RESULTS_FILE) = Some earlier_results ∧
   save_failure (save disk_fills_up) = Some e) ∧
  ∃ e' w',
    scan_cycle disk_fills_up w = (Raise e', w') ∧
    files w' !! RESULTS_FILE = files w !! RESULTS_FILE ∧
    (is_Exception e = true → remove_fault (save disk_fills_up) = None →
     e' = e ∧ files w' !! TEMP_FILE = None).
Proof.
  pose (H := Sample.builtins).
  assert (Hpass : reaches_save disk_fills_up).
  { unfold reaches_save. split_and!; try done.
    - vm_compute. lia.
    - intros k. destruct k; repeat split; repeat constructor. }
  assert (Hstate : file_state (files (persisted earlier_results) !! RESULTS_FILE)
                   = Some earlier_results) by (vm_compute; reflexivity).
  exact (conj (conj Hpass (conj Hstate eq_refl))
           (scan_cycle_save_fails (H := Sample.builtins) disk_fills_up
              (persisted earlier_results) earlier_results
              (Exn OSError "No space left on device") Hpass Hstate eq_refl)).
Defined.

(** One table is read and the other never shows up, in both orders. *)
Lemma run_screener_commute_witness :
  let H := Sample.builtins in
  let s1 := scanned mixed_rows in
  let url1 := "https://chartink.com/screener/price-corssover-200" in
  let url2 := "https://chartink.com/screener/1-hour-rsi-2119" in
  (price_crossover_200 ≠ one_hour_rsi ∧ scan_calm s1 ∧ scan_calm table_timeout) ∧
  ∃ rd',
    value ((rd1 ← run_screener s1 price_crossover_200 url1 "neutral" earlier_results;
            run_screener table_timeout one_hour_rsi url2 "neutral" rd1) empty_world)
    = Some rd' ∧
    value ((rd2 ← run_screener table_timeout one_hour_rsi url2 "neutral" earlier_results;
            run_screener s1 price_crossover_200 url1 "neutral" rd2) empty_world)
    = Some rd'.
Proof.
  assert (Hne : price_crossover_200 ≠ one_hour_rsi) by done.
  assert (H1 : scan_calm (scanned mixed_rows)) by (by repeat constructor).
  assert (H2 : scan_calm table_timeout) by (by repeat constructor).
  exact (conj (conj Hne (conj H1 H2))
           (run_screener_commute (H := Sample.builtins) (scanned mixed_rows) table_timeout
              price_crossover_200 one_hour_rsi
              "https://chartink.com/screener/price-corssover-200"
              "https://chartink.com/screener/1-hour-rsi-2119" "neutral"
              earlier_results empty_world Hne H1 H2)).
Defined.

(** Two passes of the morning after a first start: [main] is still in its
    loop, with the browser registered. *)
Lemma main_keeps_running_witness :
  let H := Sample.builtins in
  let envs := λ _ : nat, morning in
  let w0 := snd (startup WriteOk empty_world) in
  (startup WriteOk empty_world = (Ret (), w0) ∧
   file_state (files w0 !! RESULTS_FILE) = Some empty_results ∧
   (∀ i, i < 2 → cycle_undisturbed (envs i)) ∧
   (∀ n, 0 < n ≤ 2 → reads_back (pass_states envs 0 empty_results n))) ∧
  ∃ w1,
    main WriteOk None envs 2 empty_world = (Ret Running, w1) ∧
    "combined_scanner" ∈ drivers w1 ∧
    file_state (files w1 !! RESULTS_FILE) = Some (pass_states envs 0 empty_results 2).
Proof.
  pose (H := Sample.builtins).
  pose (envs := λ _ : nat, morning).
  pose (w0 := snd (startup WriteOk empty_world)).
  assert (Hstart : startup WriteOk empty_world = (Ret (), w0)) by (vm_compute; reflexivity).
  assert (Hstate : file_state (files w0 !! RESULTS_FILE) = Some empty_results)
    by (vm_compute; reflexivity).
  assert (Hcalm : ∀ i, i < 2 → cycle_undisturbed (envs i)).
  { intros i _. unfold envs, cycle_undisturbed. split_and!; try done.
    - vm_compute. lia.
    - intros k. destruct k; repeat split; repeat constructor. }
  assert (Hback : ∀ n, 0 < n ≤ 2 → reads_back (pass_states envs 0 empty_results n)).
  { intros n Hn. assert (n = 1 ∨ n = 2) as [-> | ->] by lia;
      unfold reads_back; vm_compute; reflexivity. }
  exact (conj (conj Hstart (conj Hstate (conj Hcalm Hback)))
           (main_keeps_running (H := Sample.builtins) WriteOk envs 2 empty_world w0
              empty_results Hstart Hstate Hcalm Hback)).
Defined.
